(** * jira-issue-creator: a shallow embedding of [src/index.js]

    The action searches the tracker for an open issue with the requested
    summary, updates its description when it changed or creates a new issue,
    and puts the issue into a named future sprint.  This development embeds
    the transport ([sendHttpRequest]), the description normaliser
    ([removeTimestamp]), the sprint resolver ([getSprintId]) and the
    orchestrator ([createOrUpdateJiraStory]) and settles the properties the
    specification states about them.

    Modelling conventions.
    - A JavaScript string is the list of its UTF-16 code units.
    - A value that comes out of [JSON.parse] is a [jsvalue]; numbers are
      restricted to integers (sprint ids, lengths).
    - Effects are recorded in a trace of events (requests that leave the
      process, timer waits, log lines, the action's output and its failure
      signal); a promise that rejects and a [throw] are the [Rejected] result.
    - The remote service, the clock and the platform functions the file calls
      but does not define ([JSON.parse], [encodeURIComponent], the URL parser,
      base64, string-to-number coercion) are the fields of a [world]. *)

From Stdlib Require Import List ZArith NArith String Ascii Bool Lia.
Import ListNotations.

Set Implicit Arguments.
Set Warnings "-register-all".

(* ================================================================== *)
(** ** JavaScript strings *)

Module JsString.

Definition codeunit := N.
Definition jsstring := list codeunit.

(** An ASCII literal of the source, as code units. *)
Definition js (s : string) : jsstring :=
  map N_of_ascii (list_ascii_of_string s).

Definition LF : codeunit := 10%N.
Definition QUOTE : codeunit := 34%N.

Fixpoint eqb (a b : jsstring) : bool :=
  match a, b with
  | [], [] => true
  | x :: a', y :: b' => N.eqb x y && eqb a' b'
  | _, _ => false
  end.

(** [stripPrefix p s] is [Some rest] when [s = p ++ rest]. *)
Fixpoint stripPrefix (p s : jsstring) : option jsstring :=
  match p with
  | [] => Some s
  | c :: p' =>
      match s with
      | [] => None
      | x :: s' => if N.eqb x c then stripPrefix p' s' else None
      end
  end.

(** [String.prototype.startsWith]. *)
Definition startsWith (s p : jsstring) : bool :=
  match stripPrefix p s with Some _ => true | None => false end.

(** ECMAScript LineTerminator: LF, CR, LS, PS.  The regular-expression
    atom [.] (without the [s] flag) matches every code unit but these. *)
Definition isLineTerminator (c : codeunit) : bool :=
  N.eqb c 10 || N.eqb c 13 || N.eqb c 8232 || N.eqb c 8233.

(** ECMAScript WhiteSpace, the characters [String.prototype.trim] removes
    together with the line terminators. *)
Definition isWhiteSpace (c : codeunit) : bool :=
  N.eqb c 9 || N.eqb c 11 || N.eqb c 12 || N.eqb c 32 || N.eqb c 160
  || N.eqb c 5760 || (N.leb 8192 c && N.leb c 8202)
  || N.eqb c 8239 || N.eqb c 8287 || N.eqb c 12288 || N.eqb c 65279.

Definition isTrimmed (c : codeunit) : bool :=
  isWhiteSpace c || isLineTerminator c.

Fixpoint trimStart (s : jsstring) : jsstring :=
  match s with
  | [] => []
  | c :: s' => if isTrimmed c then trimStart s' else s
  end.

Definition trimEnd (s : jsstring) : jsstring := rev (trimStart (rev s)).

(** [String.prototype.trim]. *)
Definition trim (s : jsstring) : jsstring := trimEnd (trimStart s).

(** Decimal digits of a natural number, most significant first. *)
Fixpoint digitsFuel (fuel : nat) (n : N) (acc : jsstring) : jsstring :=
  let acc' := (48 + n mod 10)%N :: acc in
  match fuel with
  | O => acc'
  | S fuel' => if N.eqb (n / 10) 0 then acc' else digitsFuel fuel' (n / 10)%N acc'
  end.

(** [Number.prototype.toString] on a safe integer (below [2^53] in absolute
    value): all its decimal digits. *)
Definition ofZ (z : Z) : jsstring :=
  let n := Z.to_N (Z.abs z) in
  let ds := digitsFuel (N.size_nat n) n [] in
  if (z <? 0)%Z then 45%N :: ds else ds.

End JsString.

Import JsString.

(* ================================================================== *)
(** ** The fragment of regular expressions [removeTimestamp] uses *)

Module Regex.

(** The pattern of [removeTimestamp] is a sequence of literal characters,
    then [.+], then [$]; no flag is set, so [$] is the end of the input and
    [replace] substitutes the first (leftmost) match only. *)
Inductive atom :=
| Char (c : codeunit)   (* a pattern character *)
| DotPlus               (* .+  greedy, one or more, no line terminator *)
| EndOfInput.           (* $ *)

Definition regex := list atom.

(** Length of the match of [r] that starts at the head of [s], by
    backtracking: [.+] takes as many characters as it can and gives them
    back one at a time while the rest of the pattern fails. *)
Fixpoint matchFrom (r : regex) (s : jsstring) : option nat :=
  match r with
  | [] => Some O
  | Char c :: r' =>
      match s with
      | x :: s' => if N.eqb x c then option_map S (matchFrom r' s') else None
      | [] => None
      end
  | EndOfInput :: r' =>
      match s with
      | [] => matchFrom r' []
      | _ :: _ => None
      end
  | DotPlus :: r' =>
      (fix plus (s : jsstring) : option nat :=
         match s with
         | [] => None
         | x :: s' =>
             if isLineTerminator x then None
             else match plus s' with
                  | Some n => Some (S n)
                  | None => option_map S (matchFrom r' s')
                  end
         end) s
  end.

(** Leftmost match: start index and length. *)
Fixpoint search (r : regex) (s : jsstring) : option (nat * nat) :=
  match matchFrom r s with
  | Some n => Some (O, n)
  | None =>
      match s with
      | [] => None
      | _ :: s' =>
          match search r s' with
          | Some (i, n) => Some (S i, n)
          | None => None
          end
      end
  end.

(** [String.prototype.replace(regex, replacement)] for a regex without the
    [g] flag and a replacement without [$] patterns. *)
Definition replace (s : jsstring) (r : regex) (replacement : jsstring) : jsstring :=
  match search r s with
  | Some (i, n) => firstn i s ++ replacement ++ skipn (i + n) s
  | None => s
  end.

End Regex.

(* ================================================================== *)
(** ** Description normaliser *)

(** The label the regular expression of [removeTimestamp] looks for. *)
Definition lastUpdatedLabel : jsstring := [LF; LF] ++ js "Last updated: ".

(** The label [createOrUpdateJiraStory] writes in front of the timestamp. *)
Definition zuletztLabel : jsstring := [LF; LF] ++ js "Zuletzt aktualisiert: ".

(** [/\n\nLast updated: .+$/] *)
Definition timestampRegex : Regex.regex :=
  map Regex.Char lastUpdatedLabel ++ [Regex.DotPlus; Regex.EndOfInput].

(** [function removeTimestamp(description)] *)
Definition removeTimestamp (description : jsstring) : jsstring :=
  Regex.replace description timestampRegex [].

(** [trailerAt s]: [s] is a whole timestamp trailer, i.e. the label followed
    by at least one character and no line terminator up to the end. *)
Definition trailerAt (s : jsstring) : bool :=
  match stripPrefix lastUpdatedLabel s with
  | Some rest =>
      match rest with [] => false | _ :: _ => forallb (fun c => negb (isLineTerminator c)) rest end
  | None => false
  end.

(** Number of positions of [s] at which [p] starts. *)
Fixpoint occurrences (p s : jsstring) : nat :=
  (if startsWith s p then 1 else 0) +
  match s with
  | [] => 0
  | _ :: s' => occurrences p s'
  end.

Definition noLineTerminator (t : jsstring) : Prop :=
  forallb (fun c => negb (isLineTerminator c)) t = true.

(* ================================================================== *)
(** ** JavaScript values and errors *)

Module JsValue.

(** What [JSON.parse] returns, [undefined], and the one built-in function
    the program can come to hold: [Array.prototype.values], which is what
    [response.values] is when the answer is an array.  A number is an
    integer here; the model is meant for the safe integers (below [2^53]
    in absolute value), which is what identifiers are. *)
Inductive jsvalue :=
| JUndefined
| JNull
| JBool (b : bool)
| JNum (n : Z)
| JStr (s : jsstring)
| JArr (items : list jsvalue)
| JObj (props : list (jsstring * jsvalue))
| JArrayValues.

(** A thrown value: [new Error(message)] or an engine [TypeError]. *)
Inductive jserror :=
| JsError (message : jsstring)
| JsTypeError (message : jsstring).

Definition message (e : jserror) : jsstring :=
  match e with JsError m | JsTypeError m => m end.

(** The outcome of an expression that may throw, or of an awaited promise. *)
Inductive result (A : Type) :=
| Resolved (a : A)
| Rejected (e : jserror).
Arguments Resolved {A} a.
Arguments Rejected {A} e.

(** ToBoolean *)
Definition truthy (v : jsvalue) : bool :=
  match v with
  | JUndefined | JNull => false
  | JBool b => b
  | JNum n => negb (Z.eqb n 0)
  | JStr s => match s with [] => false | _ :: _ => true end
  | JArr _ | JObj _ | JArrayValues => true
  end.

Fixpoint lookup (key : jsstring) (props : list (jsstring * jsvalue)) : jsvalue :=
  match props with
  | [] => JUndefined
  | (k, v) :: props' => if JsString.eqb k key then v else lookup key props'
  end.

Definition cannotRead (base key : jsstring) : jserror :=
  JsTypeError (js "Cannot read properties of " ++ base ++ js " (reading '"
               ++ key ++ js "')").

(** [v.key] for the identifiers the program reads ([issues], [values],
    [key], [fields], [description], [name], [id], [length]): an own
    property of an object; the [length] of an array or a string; on an
    array, [values] is the inherited method [Array.prototype.values]; a
    function has its own [name] and [length]; [undefined] otherwise.
    Reading a property of [undefined] or [null] throws. *)
Definition getProp (v : jsvalue) (key : string) : result jsvalue :=
  match v with
  | JUndefined => Rejected (cannotRead (js "undefined") (js key))
  | JNull => Rejected (cannotRead (js "null") (js key))
  | JObj props => Resolved (lookup (js key) props)
  | JArr items =>
      if String.eqb key "length" then Resolved (JNum (Z.of_nat (List.length items)))
      else if String.eqb key "values" then Resolved JArrayValues
      else Resolved JUndefined
  | JStr s =>
      if String.eqb key "length" then Resolved (JNum (Z.of_nat (List.length s)))
      else Resolved JUndefined
  | JArrayValues =>
      if String.eqb key "length" then Resolved (JNum 0)
      else if String.eqb key "name" then Resolved (JStr (js "values"))
      else Resolved JUndefined
  | JBool _ | JNum _ => Resolved JUndefined
  end.

(** [v[0]] *)
Definition getIndex0 (v : jsvalue) : result jsvalue :=
  match v with
  | JUndefined => Rejected (cannotRead (js "undefined") (js "0"))
  | JNull => Rejected (cannotRead (js "null") (js "0"))
  | JArr items => Resolved (match items with [] => JUndefined | x :: _ => x end)
  | JStr s => Resolved (match s with [] => JUndefined | c :: _ => JStr [c] end)
  | JObj props => Resolved (lookup (js "0") props)
  | JBool _ | JNum _ | JArrayValues => Resolved JUndefined
  end.

(** ToString, as a template literal applies it to an interpolated value.
    A number is written with all its decimal digits, which is what the
    engine does for the safe integers; from [2^53] on the engine prints
    the shortest digits that read back to the same double, and from
    [1e21] on the exponent form, so no statement below relies on
    [toString] of a number outside the safe range. *)
Fixpoint toString (v : jsvalue) : jsstring :=
  match v with
  | JUndefined => js "undefined"
  | JNull => js "null"
  | JBool true => js "true"
  | JBool false => js "false"
  | JNum n => ofZ n
  | JStr s => s
  | JArr items =>
      (fix join (l : list jsvalue) : jsstring :=
         match l with
         | [] => []
         | x :: l' =>
             let sx := match x with
                       | JUndefined | JNull => []
                       | _ => toString x
                       end in
             match l' with
             | [] => sx
             | _ :: _ => sx ++ js "," ++ join l'
             end
         end) items
  | JObj _ => js "[object Object]"
  | JArrayValues => js "function values() { [native code] }"
  end.

(** [v === s] for a string [s]. *)
Definition strictEqualsString (v : jsvalue) (s : jsstring) : bool :=
  match v with
  | JStr x => JsString.eqb x s
  | _ => false
  end.

(** [v > 0].  [positive] is the platform's answer for a string operand
    (StringToNumber, then the comparison). *)
Definition greaterThanZero (positive : jsstring -> bool) (v : jsvalue) : bool :=
  match v with
  | JUndefined | JNull => false
  | JBool b => b
  | JNum n => Z.ltb 0 n
  | JStr s => positive s
  | JArr _ | JArrayValues => positive (toString v)
  | JObj _ => false
  end.

End JsValue.

Import JsValue.

(* ================================================================== *)
(** ** Events, the world, and the monad of the program *)

Inductive httpMethod := GET | POST | PUT.

Definition methodName (m : httpMethod) : jsstring :=
  match m with GET => js "GET" | POST => js "POST" | PUT => js "PUT" end.

Definition methodEqb (a b : httpMethod) : bool :=
  match a, b with
  | GET, GET | POST, POST | PUT, PUT => true
  | _, _ => false
  end.

(** The [options] handed to [https.request], with the body written to it
    (the value given to [JSON.stringify], when [data] is truthy). *)
Record request := {
  hostname : jsstring;
  path : jsstring;
  method : httpMethod;
  headers : list (jsstring * jsstring);
  body : option jsvalue
}.

(** What one attempt comes back with: the [end] of a response, the
    request's [error] event, or an exception out of [https.request] itself
    (it refuses a path with a blank in it, for instance), which rejects the
    promise from within its executor.  These are the ways an attempt
    settles.  An answer that never ends, with no [error] either, settles
    nothing: the program sets no timeout, so the run stays suspended at
    that attempt and what it has done by then is a prefix of the trace
    given here.  Statements about what a run has done at any point are
    therefore made over the prefixes of its trace. *)
Inductive outcome :=
| Response (statusCode : Z) (responseBody : jsstring)
| NetworkError (error : jserror)
| Thrown (error : jserror).

Inductive level := Debug | Info | Warning | Error.

Inductive event :=
| Sent (r : request)                            (* req.end() *)
| Waited (ms : Z)                               (* setTimeout(..., ms) fired *)
| Log (l : level) (m : jsstring)                (* core.debug/info/warning/error *)
| SetOutput (name : jsstring) (value : jsvalue) (* core.setOutput *)
| SetFailed (m : jsstring).                     (* core.setFailed *)

Definition trace := list event.

(** Everything the file reads from outside. *)
Record world := {
  (** [core.getInput(name)]: the empty string when the input is not set *)
  getInput : string -> jsstring;
  (** the remote tracker: its answer to an attempt, given all that happened *)
  remote : trace -> request -> outcome;
  (** [formatDateTimeGerman(new Date())] at the time of the run *)
  formattedTimestamp : jsstring;
  (** [JSON.parse]: the value, or the message of the [SyntaxError] *)
  JSON_parse : jsstring -> jsvalue + jsstring;
  (** [encodeURIComponent]; it throws on a lone surrogate only, and the
      inputs, decoded from UTF-8, hold none *)
  encodeURIComponent : jsstring -> jsstring;
  (** [new URL(s).hostname]; [None] when [new URL] throws *)
  urlHostname : jsstring -> option jsstring;
  (** [Buffer.from(s).toString("base64")] *)
  base64 : jsstring -> jsstring;
  (** [s > 0] for a string [s] *)
  stringGreaterThanZero : jsstring -> bool
}.

(** A computation reads the trace so far, extends it, and resolves or
    rejects. *)
Definition M (A : Type) := trace -> result A * trace.

Definition ret {A} (a : A) : M A := fun tr => (Resolved a, tr).

Definition throw {A} (e : jserror) : M A := fun tr => (Rejected e, tr).

Definition bind {A B} (m : M A) (k : A -> M B) : M B :=
  fun tr =>
    match m tr with
    | (Resolved a, tr') => k a tr'
    | (Rejected e, tr') => (Rejected e, tr')
    end.

Definition emit (e : event) : M unit := fun tr => (Resolved tt, tr ++ [e]).

(** An expression that may throw, evaluated without effects. *)
Definition lift {A} (r : result A) : M A := fun tr => (r, tr).

(** [try { m } catch (error) { handler error }] *)
Definition tryCatch {A} (m : M A) (handler : jserror -> M A) : M A :=
  fun tr =>
    match m tr with
    | (Resolved a, tr') => (Resolved a, tr')
    | (Rejected e, tr') => handler e tr'
    end.

Notation "x <- m ;; k" := (bind m (fun x => k))
  (at level 61, m at next level, right associativity).
Notation "m ;;; k" := (bind m (fun _ => k))
  (at level 61, right associativity).

(* ================================================================== *)
(** ** The program *)

Section Program.

Variable w : world.

(** *** Inputs, read when the module is loaded *)

Definition requiredInputs : list string :=
  [ "jira_base_url"; "jira_user_email"; "jira_api_token"; "jira_project_key";
    "issue_summary"; "issue_description"; "board_id"; "sprint_name" ]%string.

Definition missingInput (input : string) : jserror :=
  JsError (js "Missing required input: " ++ js input).

(** [function validateInputs()] *)
Fixpoint validateLoop (inputs : list string) : result unit :=
  match inputs with
  | [] => Resolved tt
  | input :: inputs' =>
      match getInput w input with
      | [] => Rejected (missingInput input)
      | _ :: _ => validateLoop inputs'
      end
  end.

Definition validateInputs : M unit := lift (validateLoop requiredInputs).

Definition jiraBaseUrl : jsstring := getInput w "jira_base_url".
Definition jiraUserEmail : jsstring := getInput w "jira_user_email".
Definition jiraApiToken : jsstring := getInput w "jira_api_token".
Definition jiraProjectKey : jsstring := getInput w "jira_project_key".
Definition issueSummary : jsstring := getInput w "issue_summary".
Definition issueDescription : jsstring := getInput w "issue_description".
Definition boardId : jsstring := getInput w "board_id".
Definition sprintName : jsstring := getInput w "sprint_name".

Definition auth : jsstring :=
  base64 w (jiraUserEmail ++ js ":" ++ jiraApiToken).

(** *** Transport *)

Definition normalizePath (path : jsstring) : jsstring :=
  if startsWith path (js "/") then path else js "/" ++ path.

(** The [options] of one call, with the body that is written. *)
Definition requestOf (host : jsstring) (method : httpMethod) (path : jsstring)
           (data : option jsvalue) : request :=
  {| hostname := host;
     path := normalizePath path;
     method := method;
     headers := [ (js "Authorization", js "Basic " ++ auth);
                  (js "Content-Type", js "application/json") ];
     body := data |}.

Definition is2xx (statusCode : Z) : bool :=
  (200 <=? statusCode)%Z && (statusCode <? 300)%Z.

Definition httpError (statusCode : Z) (responseBody : jsstring) : jserror :=
  JsError (js "HTTP " ++ ofZ statusCode ++ js ": " ++ responseBody).

(** The success branch of the response handler. *)
Definition resolveBody (responseBody : jsstring) : M jsvalue :=
  if JsString.eqb (trim responseBody) [] then ret (JStr [])
  else match JSON_parse w responseBody with
       | inl parsedData => ret parsedData
       | inr errorMessage =>
           emit (Log Warning (js "Failed to parse JSON response: " ++ errorMessage)) ;;;
           emit (Log Warning (js "Raw response: " ++ responseBody)) ;;;
           ret (JStr responseBody)
       end.

(** [async function sendHttpRequest(method, path, data, retries = 3, delay = 1000)].
    [retries] only ever holds 3, 2, 1 or 0; [data] is an object literal or
    absent. *)
Fixpoint sendHttpRequest (method : httpMethod) (path : jsstring)
         (data : option jsvalue) (retries : nat) (delay : Z) (tr : trace)
  : result jsvalue * trace :=
  match urlHostname w jiraBaseUrl with
  | None => (Rejected (JsTypeError (js "Invalid URL")), tr)
  | Some host =>
      let options := requestOf host method path data in
      let tr1 := tr ++ [Log Debug (js "Sending " ++ methodName method
                                   ++ js " request to " ++ normalizePath path)] in
      let tr2 := tr1 ++ [Sent options] in
      match remote w tr1 options with
      | Response statusCode responseBody =>
          let tr3 := tr2 ++ [Log Debug (js "Response status: " ++ ofZ statusCode);
                             Log Debug (js "Raw response: " ++ responseBody)] in
          if is2xx statusCode then resolveBody responseBody tr3
          else
            match Z.eqb statusCode 429, retries with
            | true, S retries' =>
                sendHttpRequest method path data retries' (delay * 2)
                                (tr3 ++ [Waited delay])
            | _, _ => (Rejected (httpError statusCode responseBody), tr3)
            end
      | NetworkError error =>
          let tr3 := tr2 ++ [Log Error (js "Request error: " ++ message error)] in
          match retries with
          | S retries' =>
              sendHttpRequest method path data retries' (delay * 2)
                              (tr3 ++ [Waited delay])
          | O => (Rejected error, tr3)
          end
      | Thrown error => (Rejected error, tr1)
      end
  end.

Definition defaultRetries : nat := 3.
Definition defaultDelay : Z := 1000.

(** A call that leaves [retries] and [delay] out. *)
Definition send (method : httpMethod) (path : jsstring) (data : option jsvalue)
  : M jsvalue :=
  sendHttpRequest method path data defaultRetries defaultDelay.

(** *** Issue query, update, creation, sprint assignment *)

Definition searchPath (jql : jsstring) : jsstring :=
  js "rest/api/2/search?jql=" ++ encodeURIComponent w jql ++ js "&fields=description".

(** [async function searchJiraIssues(jql)] *)
Definition searchJiraIssues (jql : jsstring) : M jsvalue :=
  tryCatch
    (response <- send GET (searchPath jql) None ;;
     lift (getProp response "issues"))
    (fun error =>
       emit (Log Error (js "Error searching Jira issues:")) ;;;
       throw error).

Definition issuePath (issueKey : jsvalue) : jsstring :=
  js "rest/api/2/issue/" ++ toString issueKey.

(** [async function updateJiraIssue(issueKey, description)] *)
Definition updateJiraIssue (issueKey : jsvalue) (description : jsstring) : M bool :=
  tryCatch
    (_ <- send PUT (issuePath issueKey)
            (Some (JObj [(js "fields", JObj [(js "description", JStr description)])])) ;;
     emit (Log Info (js "Updated Jira issue: " ++ toString issueKey)) ;;;
     ret true)
    (fun error =>
       emit (Log Error (js "Error updating Jira issue:")) ;;;
       throw error).

Definition sprintNotFound (name : jsstring) : jserror :=
  JsError (js "Sprint " ++ [QUOTE] ++ name ++ [QUOTE] ++ js " not found").

(** [values.find((s) => s.name === sprintName)] on an array *)
Fixpoint findSprint (name : jsstring) (values : list jsvalue) : result jsvalue :=
  match values with
  | [] => Resolved JUndefined
  | s :: values' =>
      match getProp s "name" with
      | Rejected e => Rejected e
      | Resolved n =>
          if strictEqualsString n name then Resolved s else findSprint name values'
      end
  end.

(** [response.values.find(...)]: only an array has [find]. *)
Definition find (name : jsstring) (values : jsvalue) : result jsvalue :=
  match values with
  | JArr items => findSprint name items
  | JUndefined => Rejected (cannotRead (js "undefined") (js "find"))
  | JNull => Rejected (cannotRead (js "null") (js "find"))
  | _ => Rejected (JsTypeError (js "response.values.find is not a function"))
  end.

Definition sprintListPath : jsstring :=
  js "rest/agile/1.0/board/" ++ boardId ++ js "/sprint?state=future".

(** [async function getSprintId(sprintName)] *)
Definition getSprintId (name : jsstring) : M jsvalue :=
  tryCatch
    (response <- send GET sprintListPath None ;;
     values <- lift (getProp response "values") ;;
     sprint <- lift (find name values) ;;
     if truthy sprint then lift (getProp sprint "id")
     else throw (sprintNotFound name))
    (fun error =>
       emit (Log Error (js "Error getting sprint ID:")) ;;;
       throw error).

Definition issueData (description : jsstring) (sprintId : jsvalue) : jsvalue :=
  JObj [(js "fields",
         JObj [ (js "project", JObj [(js "key", JStr jiraProjectKey)]);
                (js "summary", JStr issueSummary);
                (js "description", JStr description);
                (js "issuetype", JObj [(js "name", JStr (js "Story"))]);
                (js "sprint", sprintId) ])].

Definition createPath : jsstring := js "rest/api/2/issue".

(** [async function createNewJiraIssue(description, sprintId)] *)
Definition createNewJiraIssue (description : jsstring) (sprintId : jsvalue)
  : M jsvalue :=
  response <- send POST createPath (Some (issueData description sprintId)) ;;
  key <- lift (getProp response "key") ;;
  emit (Log Info (js "Created Jira issue: " ++ toString key)) ;;;
  ret response.

Definition assignPath (sprintId : jsvalue) : jsstring :=
  js "rest/agile/1.0/sprint/" ++ toString sprintId ++ js "/issue".

(** [async function addIssueToSprint(issueKey, sprintId)] *)
Definition addIssueToSprint (issueKey sprintId : jsvalue) : M unit :=
  _ <- send POST (assignPath sprintId) (Some (JObj [(js "issues", JArr [issueKey])])) ;;
  emit (Log Info (js "Issue " ++ toString issueKey ++ js " added to sprint: "
                  ++ sprintName)).

(** *** Orchestrator *)

Definition jql : jsstring :=
  js "project = " ++ jiraProjectKey ++ js " AND summary ~ " ++ [QUOTE]
     ++ issueSummary ++ [QUOTE] ++ js " AND status != Done".

Definition updatedDescription : jsstring :=
  issueDescription ++ zuletztLabel ++ formattedTimestamp w.

(** [removeTimestamp(v)] on a value: only a string has [replace]. *)
Definition removeTimestampOf (description : jsvalue) : result jsstring :=
  match description with
  | JStr s => Resolved (removeTimestamp s)
  | JUndefined => Rejected (cannotRead (js "undefined") (js "replace"))
  | JNull => Rejected (cannotRead (js "null") (js "replace"))
  | _ => Rejected (JsTypeError (js "description.replace is not a function"))
  end.

(** [v || ""] *)
Definition orEmpty (v : jsvalue) : jsvalue := if truthy v then v else JStr [].

(** The body of [if (existingIssues.length > 0) { ... return; }]. *)
Definition existingIssueBranch (existingIssues sprintId : jsvalue) : M unit :=
  existingIssue <- lift (getIndex0 existingIssues) ;;
  fields <- lift (getProp existingIssue "fields") ;;
  description <- lift (getProp fields "description") ;;
  let existingDescription := orEmpty description in
  stripped <- lift (removeTimestampOf existingDescription) ;;
  (if negb (JsString.eqb stripped (removeTimestamp issueDescription)) then
     key <- lift (getProp existingIssue "key") ;;
     _ <- updateJiraIssue key updatedDescription ;;
     key' <- lift (getProp existingIssue "key") ;;
     addIssueToSprint key' sprintId
   else
     key <- lift (getProp existingIssue "key") ;;
     emit (Log Info (js "No changes detected for existing issue: " ++ toString key))) ;;;
  key <- lift (getProp existingIssue "key") ;;
  emit (SetOutput (js "issue_key") key).

(** The statements after that [if]. *)
Definition newIssueBranch (sprintId : jsvalue) : M unit :=
  newIssue <- createNewJiraIssue updatedDescription sprintId ;;
  key <- lift (getProp newIssue "key") ;;
  addIssueToSprint key sprintId ;;;
  key' <- lift (getProp newIssue "key") ;;
  emit (SetOutput (js "issue_key") key').

(** [async function createOrUpdateJiraStory()] *)
Definition createOrUpdateJiraStory : M unit :=
  tryCatch
    (validateInputs ;;;
     existingIssues <- searchJiraIssues jql ;;
     sprintId <- getSprintId sprintName ;;
     (if negb (truthy sprintId) then throw (sprintNotFound sprintName) else ret tt) ;;;
     len <- lift (getProp existingIssues "length") ;;
     if greaterThanZero (stringGreaterThanZero w) len
     then existingIssueBranch existingIssues sprintId
     else newIssueBranch sprintId)
    (fun error =>
       emit (SetFailed (js "Failed to create or update Jira issue: " ++ message error)) ;;;
       throw error).

(** The last statement of the file:
    [createOrUpdateJiraStory().catch((error) => core.setFailed(...))]. *)
Definition main : M unit :=
  tryCatch createOrUpdateJiraStory
    (fun error => emit (SetFailed (js "Unhandled error: " ++ message error))).

(** One run of the action, from an empty trace. *)
Definition run : result unit * trace := main [].

End Program.

(* ================================================================== *)
(** ** Observations on a trace *)

Fixpoint sentRequests (tr : trace) : list request :=
  match tr with
  | [] => []
  | Sent r :: tr' => r :: sentRequests tr'
  | _ :: tr' => sentRequests tr'
  end.

Fixpoint waits (tr : trace) : list Z :=
  match tr with
  | [] => []
  | Waited ms :: tr' => ms :: waits tr'
  | _ :: tr' => waits tr'
  end.

(** The values given to [core.setOutput("issue_key", ...)], in order. *)
Fixpoint issueKeyOutputs (tr : trace) : list jsvalue :=
  match tr with
  | [] => []
  | SetOutput name v :: tr' =>
      if JsString.eqb name (js "issue_key") then v :: issueKeyOutputs tr'
      else issueKeyOutputs tr'
  | _ :: tr' => issueKeyOutputs tr'
  end.

(** The run signals failure ([core.setFailed] sets the exit code). *)
Fixpoint failed (tr : trace) : bool :=
  match tr with
  | [] => false
  | SetFailed _ :: _ => true
  | _ :: tr' => failed tr'
  end.

(** POST /rest/api/2/issue *)
Definition isCreateCall (r : request) : bool :=
  methodEqb r.(method) POST && JsString.eqb r.(path) (js "/rest/api/2/issue").

(** PUT /rest/api/2/issue/<key> *)
Definition isUpdateCall (r : request) : bool := methodEqb r.(method) PUT.

(** POST /rest/agile/1.0/sprint/<sprintId>/issue *)
Definition isAssignCall (r : request) : bool :=
  methodEqb r.(method) POST && startsWith r.(path) (js "/rest/agile/1.0/sprint/").

(** GET /rest/api/2/search?jql=... *)
Definition isSearchCall (r : request) : bool :=
  methodEqb r.(method) GET && startsWith r.(path) (js "/rest/api/2/search?jql=").

(** GET /rest/agile/1.0/board/<boardId>/sprint?state=future *)
Definition isSprintListCall (r : request) : bool :=
  methodEqb r.(method) GET && startsWith r.(path) (js "/rest/agile/1.0/board/").

Definition isMutation (r : request) : bool :=
  isCreateCall r || isUpdateCall r || isAssignCall r.

(* ================================================================== *)
(** ** Vocabulary of the statements *)

(** Number of line feeds in a string. *)
Definition lineFeeds (s : jsstring) : nat := count_occ N.eq_dec s LF.

(** What the comparison of [createOrUpdateJiraStory] puts on its left-hand
    side for an issue of the search result:
    [removeTimestamp(issue.fields.description || "")]. *)
Definition strippedStoredDescription (issue : jsvalue) : result jsstring :=
  match getProp issue "fields" with
  | Rejected e => Rejected e
  | Resolved fields =>
      match getProp fields "description" with
      | Rejected e => Rejected e
      | Resolved description => removeTimestampOf (orEmpty description)
      end
  end.

(** [m] only appends to the trace, and only events that satisfy [P]. *)
Definition emits {A} (P : event -> Prop) (m : M A) : Prop :=
  forall tr res tr', m tr = (res, tr') ->
  exists evs, tr' = tr ++ evs /\ Forall P evs.

(** The events of one call of the transport. *)
Definition transportEvent (m : httpMethod) (p : jsstring) (d : option jsvalue)
           (e : event) : Prop :=
  match e with
  | Sent r => r.(method) = m /\ r.(path) = normalizePath p /\ r.(body) = d
  | Waited _ | Log _ _ => True
  | SetOutput _ _ | SetFailed _ => False
  end.

(** Events that change nothing in the tracker and report nothing. *)
Definition readOnly (e : event) : Prop :=
  match e with
  | Sent r => r.(method) = GET
  | Waited _ | Log _ _ => True
  | SetOutput _ _ | SetFailed _ => False
  end.

(** Events that report nothing (no output, no failure signal). *)
Definition silent (e : event) : Prop :=
  match e with
  | SetOutput _ _ | SetFailed _ => False
  | _ => True
  end.

(** What the transport appends for an attempt answered by [statusCode]. *)
Definition attemptEvents (w : world) (host : jsstring) (m : httpMethod)
           (p : jsstring) (d : option jsvalue) (statusCode : Z)
           (responseBody : jsstring) : trace :=
  [ Log Debug (js "Sending " ++ methodName m ++ js " request to " ++ normalizePath p);
    Sent (requestOf w host m p d);
    Log Debug (js "Response status: " ++ ofZ statusCode);
    Log Debug (js "Raw response: " ++ responseBody) ].

(** The trace at which the tracker is asked. *)
Definition asked (m : httpMethod) (p : jsstring) (tr : trace) : trace :=
  tr ++ [Log Debug (js "Sending " ++ methodName m ++ js " request to "
                    ++ normalizePath p)].

(** What a rejection inside the [try] block of [createOrUpdateJiraStory]
    appends: the [catch] of the function and the [catch] of the last
    statement both call [core.setFailed]. *)
Definition failureEvents (e : jserror) : trace :=
  [ SetFailed (js "Failed to create or update Jira issue: " ++ message e);
    SetFailed (js "Unhandled error: " ++ message e) ].

(** [x] ends in a trace that extends [tr]. *)
Definition extendsFrom {A} (tr : trace) (x : result A * trace) : Prop :=
  exists tail, snd x = tr ++ tail.

(** The world in which the input [name] is set to [value]. *)
Definition withInput (w : world) (name : string) (value : jsstring) : world :=
  {| getInput := fun n => if String.eqb n name then value else getInput w n;
     remote := remote w;
     formattedTimestamp := formattedTimestamp w;
     JSON_parse := JSON_parse w;
     encodeURIComponent := encodeURIComponent w;
     urlHostname := urlHostname w;
     base64 := base64 w;
     stringGreaterThanZero := stringGreaterThanZero w |}.

(* ================================================================== *)
(** ** Concrete worlds, on which the theorems below are exercised *)

Module Demo.

(** JSON text written with ['] in place of the double quote. *)
Definition json (s : string) : jsstring :=
  map (fun c => if N.eqb c 39 then QUOTE else c) (js s).

Definition hexDigit (n : N) : codeunit :=
  if N.ltb n 10 then (48 + n)%N else (55 + n)%N.

Definition isUnreserved (c : codeunit) : bool :=
  (N.leb 65 c && N.leb c 90) || (N.leb 97 c && N.leb c 122)
  || (N.leb 48 c && N.leb c 57)
  || existsb (N.eqb c) [45; 95; 46; 33; 126; 42; 39; 40; 41]%N.

(** [encodeURIComponent], on ASCII text. *)
Definition percentEncode (s : jsstring) : jsstring :=
  flat_map (fun c => if isUnreserved c then [c]
                     else [37%N; hexDigit (c / 16); hexDigit (c mod 16)]) s.

(** The host of an [https://host] URL without path. *)
Definition hostOfUrl (s : jsstring) : option jsstring :=
  match stripPrefix (js "https://") s with
  | Some [] => None
  | other => other
  end.

Definition issuesWithTrailer : jsstring :=
  json "{'issues':[{'key':'PROJ-5','fields':{'description':'Fix login\n\nLast updated: 01.01.2024 10:00:00'}}]}".
Definition issuesFromPreviousRun : jsstring :=
  json "{'issues':[{'key':'PROJ-5','fields':{'description':'Fix login\n\nZuletzt aktualisiert: 01.01.2024, 10:00:00'}}]}".
Definition noIssues : jsstring := json "{'issues':[]}".
Definition oneFutureSprint : jsstring :=
  json "{'values':[{'id':42,'name':'Backlog','state':'future'}]}".
Definition otherFutureSprint : jsstring :=
  json "{'values':[{'id':41,'name':'backlog','state':'future'}]}".
Definition createdIssue : jsstring := json "{'id':'10006','key':'PROJ-6'}".

Definition issueValue (description : jsstring) : jsvalue :=
  JObj [(js "issues",
         JArr [JObj [(js "key", JStr (js "PROJ-5"));
                     (js "fields", JObj [(js "description", JStr description)])]])].

Definition sprintValue (id : Z) (name : string) : jsvalue :=
  JObj [(js "values",
         JArr [JObj [(js "id", JNum id); (js "name", JStr (js name));
                     (js "state", JStr (js "future"))]])].

(** [JSON.parse], on the bodies above. *)
Definition parseTable : list (jsstring * jsvalue) :=
  [ (issuesWithTrailer,
     issueValue (js "Fix login" ++ lastUpdatedLabel ++ js "01.01.2024 10:00:00"));
    (issuesFromPreviousRun,
     issueValue (js "Fix login" ++ zuletztLabel ++ js "01.01.2024, 10:00:00"));
    (noIssues, JObj [(js "issues", JArr [])]);
    (oneFutureSprint, sprintValue 42 "Backlog");
    (otherFutureSprint, sprintValue 41 "backlog");
    (createdIssue, JObj [(js "id", JStr (js "10006")); (js "key", JStr (js "PROJ-6"))]) ].

Fixpoint parse (table : list (jsstring * jsvalue)) (text : jsstring)
  : jsvalue + jsstring :=
  match table with
  | [] => inr (js "Unexpected token")
  | (t, v) :: table' => if JsString.eqb t text then inl v else parse table' text
  end.

(** The answers of a tracker, per endpoint; the argument is the number of
    attempts made before. *)
Record answers := {
  onSearch : nat -> outcome;
  onSprintList : nat -> outcome;
  onCreate : nat -> outcome;
  onUpdate : nat -> outcome;
  onAssign : nat -> outcome
}.

Definition tracker (a : answers) (tr : trace) (r : request) : outcome :=
  let n := List.length (sentRequests tr) in
  if isSearchCall r then onSearch a n
  else if isSprintListCall r then onSprintList a n
  else if isCreateCall r then onCreate a n
  else if isUpdateCall r then onUpdate a n
  else if isAssignCall r then onAssign a n
  else Response 404 [].

Definition ok (responseBody : jsstring) : nat -> outcome :=
  fun _ => Response 200 responseBody.
Definition noContent : nat -> outcome := fun _ => Response 204 [].

Fixpoint assoc (key : string) (l : list (string * string)) : jsstring :=
  match l with
  | [] => []
  | (k, v) :: l' => if String.eqb k key then js v else assoc key l'
  end.

Definition inputs : list (string * string) :=
  [ ("jira_base_url", "https://example.atlassian.net");
    ("jira_user_email", "ci@example.com");
    ("jira_api_token", "token");
    ("jira_project_key", "PROJ");
    ("issue_summary", "Fix login bug");
    ("issue_description", "Fix login");
    ("board_id", "7");
    ("sprint_name", "Backlog") ]%string.

Definition worldOf (ins : list (string * string)) (a : answers) : world :=
  {| getInput := fun name => assoc name ins;
     remote := tracker a;
     formattedTimestamp := js "02.01.2024, 09:30:00";
     JSON_parse := parse parseTable;
     encodeURIComponent := percentEncode;
     urlHostname := hostOfUrl;
     base64 := fun s => js "base64(" ++ s ++ js ")";
     stringGreaterThanZero := fun _ => false |}.

(** The issue exists with the same text and a "Last updated" trailer; the
    sprint is there. *)
Definition unchanged : world :=
  worldOf inputs {| onSearch := ok issuesWithTrailer; onSprintList := ok oneFutureSprint;
                    onCreate := ok createdIssue; onUpdate := noContent;
                    onAssign := noContent |}.

(** As [unchanged], but the only future sprint is named "backlog". *)
Definition unchangedNoSprint : world :=
  worldOf inputs {| onSearch := ok issuesWithTrailer; onSprintList := ok otherFutureSprint;
                    onCreate := ok createdIssue; onUpdate := noContent;
                    onAssign := noContent |}.

(** The issue carries what a previous run with the same description wrote. *)
Definition rerun : world :=
  worldOf inputs {| onSearch := ok issuesFromPreviousRun; onSprintList := ok oneFutureSprint;
                    onCreate := ok createdIssue; onUpdate := noContent;
                    onAssign := noContent |}.

(** No issue yet; creation succeeds, the sprint assignment is refused. *)
Definition createThenRefused : world :=
  worldOf inputs {| onSearch := ok noIssues; onSprintList := ok oneFutureSprint;
                    onCreate := fun _ => Response 201 createdIssue;
                    onUpdate := noContent;
                    onAssign := fun _ => Response 400 (js "sprint is closed") |}.

(** The first attempt is rate limited, the second succeeds. *)
Definition rateLimitedOnce : world :=
  worldOf inputs {| onSearch := fun n => match n with
                                        | O => Response 429 (js "slow down")
                                        | S _ => Response 201 noIssues
                                        end;
                    onSprintList := ok oneFutureSprint;
                    onCreate := ok createdIssue; onUpdate := noContent;
                    onAssign := noContent |}.

(** Every attempt is rate limited; [retry_count] is set to 0. *)
Definition alwaysRateLimited : world :=
  worldOf (("retry_count", "0")%string :: inputs)
          {| onSearch := fun _ => Response 429 (js "slow down");
             onSprintList := ok oneFutureSprint;
             onCreate := ok createdIssue; onUpdate := noContent;
             onAssign := noContent |}.

(** The search answers with text that is not JSON. *)
Definition notJson : world :=
  worldOf inputs {| onSearch := ok (js "<html>maintenance</html>");
                    onSprintList := ok oneFutureSprint;
                    onCreate := ok createdIssue; onUpdate := noContent;
                    onAssign := noContent |}.

End Demo.

(* ================================================================== *)
(** ** Vocabulary of the further statements *)

(** [!core.getInput(input)] *)
Definition isMissing (w : world) (input : string) : bool :=
  match getInput w input with [] => true | _ :: _ => false end.

(** The input [validateInputs] stops at, if any. *)
Definition firstMissing (w : world) : option string :=
  List.find (isMissing w) requiredInputs.

(** The waits of [n] retries that start from [delay]. *)
Fixpoint backoffWaits (delay : Z) (n : nat) : list Z :=
  match n with
  | O => []
  | S n' => delay :: backoffWaits (delay * 2) n'
  end.

(** The two headers of every request. *)
Definition standardHeaders (w : world) : list (jsstring * jsstring) :=
  [ (js "Authorization",
     js "Basic " ++ base64 w (getInput w "jira_user_email" ++ js ":"
                              ++ getInput w "jira_api_token"));
    (js "Content-Type", js "application/json") ].

(** A request as the action sends it: to the host of the base URL, with the
    two headers, on a path that starts with a slash. *)
Definition wellFormedRequest (w : world) (r : request) : Prop :=
  urlHostname w (getInput w "jira_base_url") = Some r.(hostname)
  /\ r.(headers) = standardHeaders w
  /\ startsWith r.(path) (js "/") = true.

Definition wellFormedEvent (w : world) (e : event) : Prop :=
  match e with
  | Sent r => wellFormedRequest w r
  | _ => True
  end.

Definition noCreateEvent (e : event) : Prop :=
  match e with
  | Sent r => isCreateCall r = false
  | _ => True
  end.

Definition noUpdateEvent (e : event) : Prop :=
  match e with
  | Sent r => isUpdateCall r = false
  | _ => True
  end.

(** [m] appends events that all satisfy [P], or that all satisfy [Q]. *)
Definition emitsEither {A} (P Q : event -> Prop) (m : M A) : Prop :=
  forall tr res tr', m tr = (res, tr') ->
  exists evs, tr' = tr ++ evs /\ (Forall P evs \/ Forall Q evs).

(** [m] reports nothing before its end, and ends either rejected or with one
    [issue_key]. *)
Definition reports (m : M unit) : Prop :=
  forall tr res tr', m tr = (res, tr') ->
  exists evs,
    Forall silent evs
    /\ match res with
       | Rejected _ => tr' = tr ++ evs
       | Resolved _ => exists key, tr' = tr ++ evs ++ [SetOutput (js "issue_key") key]
       end.

(** The body of the PUT request. *)
Definition updateData (description : jsstring) : jsvalue :=
  JObj [(js "fields", JObj [(js "description", JStr description)])].

(** The body of the sprint assignment. *)
Definition assignData (issueKey : jsvalue) : jsvalue :=
  JObj [(js "issues", JArr [issueKey])].

(** What [createOrUpdateJiraStory] does once the sprint id is there: the
    test [existingIssues.length > 0] and one of its two branches. *)
Definition afterSprint (w : world) (existingIssues sprintId : jsvalue) : M unit :=
  len <- lift (getProp existingIssues "length") ;;
  if greaterThanZero (stringGreaterThanZero w) len
  then existingIssueBranch w existingIssues sprintId
  else newIssueBranch w sprintId.

(* ================================================================== *)
(** ** Further concrete worlds *)

Module Scene.

Definition issuesChanged : jsstring :=
  Demo.json "{'issues':[{'key':'PROJ-5','fields':{'description':'Fix signup'}},{'key':'PROJ-9','fields':{'description':'Fix login'}}]}".
Definition issuesNumberDescription : jsstring :=
  Demo.json "{'issues':[{'key':'PROJ-5','fields':{'description':7}}]}".
Definition sprintWithoutId : jsstring :=
  Demo.json "{'values':[{'name':'Backlog','state':'future'}]}".
Definition twoFutureSprints : jsstring :=
  Demo.json "{'values':[{'id':41,'name':'backlog','state':'future'},{'id':42,'name':'Backlog','state':'future'}]}".

Definition issueOf (key : string) (description : jsvalue) : jsvalue :=
  JObj [(js "key", JStr (js key)); (js "fields", JObj [(js "description", description)])].

Definition sprintOf (id : Z) (name : string) : jsvalue :=
  JObj [(js "id", JNum id); (js "name", JStr (js name)); (js "state", JStr (js "future"))].

(** [JSON.parse], on the bodies of both modules. *)
Definition parseTable : list (jsstring * jsvalue) :=
  Demo.parseTable ++
  [ (issuesChanged,
     JObj [(js "issues", JArr [issueOf "PROJ-5" (JStr (js "Fix signup"));
                               issueOf "PROJ-9" (JStr (js "Fix login"))])]);
    (issuesNumberDescription,
     JObj [(js "issues", JArr [issueOf "PROJ-5" (JNum 7)])]);
    (sprintWithoutId,
     JObj [(js "values",
            JArr [JObj [(js "name", JStr (js "Backlog")); (js "state", JStr (js "future"))]])]);
    (twoFutureSprints,
     JObj [(js "values", JArr [sprintOf 41 "backlog"; sprintOf 42 "Backlog"])]) ].

Definition worldOf (ins : list (string * string)) (a : Demo.answers) : world :=
  {| getInput := fun name => Demo.assoc name ins;
     remote := Demo.tracker a;
     formattedTimestamp := js "02.01.2024, 09:30:00";
     JSON_parse := Demo.parse parseTable;
     encodeURIComponent := Demo.percentEncode;
     urlHostname := Demo.hostOfUrl;
     base64 := fun s => js "base64(" ++ s ++ js ")";
     stringGreaterThanZero := fun _ => false |}.

Definition allFine : Demo.answers :=
  {| Demo.onSearch := Demo.ok Demo.noIssues;
     Demo.onSprintList := Demo.ok twoFutureSprints;
     Demo.onCreate := fun _ => Response 201 Demo.createdIssue;
     Demo.onUpdate := Demo.noContent;
     Demo.onAssign := Demo.noContent |}.

(** No issue yet; the tracker accepts everything. *)
Definition created : world := worldOf Demo.inputs allFine.

(** The first issue found has another text; the tracker accepts everything. *)
Definition changed : world :=
  worldOf Demo.inputs
          {| Demo.onSearch := Demo.ok issuesChanged;
             Demo.onSprintList := Demo.ok twoFutureSprints;
             Demo.onCreate := fun _ => Response 201 Demo.createdIssue;
             Demo.onUpdate := Demo.noContent;
             Demo.onAssign := Demo.noContent |}.

(** As [changed], but the update is refused. *)
Definition updateRefused : world :=
  worldOf Demo.inputs
          {| Demo.onSearch := Demo.ok issuesChanged;
             Demo.onSprintList := Demo.ok twoFutureSprints;
             Demo.onCreate := fun _ => Response 201 Demo.createdIssue;
             Demo.onUpdate := fun _ => Response 403 (js "forbidden");
             Demo.onAssign := Demo.noContent |}.

(** The description of the issue found is a number. *)
Definition numberDescription : world :=
  worldOf Demo.inputs
          {| Demo.onSearch := Demo.ok issuesNumberDescription;
             Demo.onSprintList := Demo.ok twoFutureSprints;
             Demo.onCreate := fun _ => Response 201 Demo.createdIssue;
             Demo.onUpdate := Demo.noContent;
             Demo.onAssign := Demo.noContent |}.

(** The sprint is listed without an id. *)
Definition sprintHasNoId : world :=
  worldOf Demo.inputs
          {| Demo.onSearch := Demo.ok Demo.noIssues;
             Demo.onSprintList := Demo.ok sprintWithoutId;
             Demo.onCreate := fun _ => Response 201 Demo.createdIssue;
             Demo.onUpdate := Demo.noContent;
             Demo.onAssign := Demo.noContent |}.

(** The search is answered with an empty body. *)
Definition emptySearchAnswer : world :=
  worldOf Demo.inputs
          {| Demo.onSearch := Demo.noContent;
             Demo.onSprintList := Demo.ok twoFutureSprints;
             Demo.onCreate := fun _ => Response 201 Demo.createdIssue;
             Demo.onUpdate := Demo.noContent;
             Demo.onAssign := Demo.noContent |}.

(** The tracker answers the search with 500. *)
Definition serverError : world :=
  worldOf Demo.inputs
          {| Demo.onSearch := fun _ => Response 500 (js "internal error");
             Demo.onSprintList := Demo.ok twoFutureSprints;
             Demo.onCreate := fun _ => Response 201 Demo.createdIssue;
             Demo.onUpdate := Demo.noContent;
             Demo.onAssign := Demo.noContent |}.

(** Every attempt ends in the same network error. *)
Definition offline : world :=
  worldOf Demo.inputs
          {| Demo.onSearch := fun _ => NetworkError (JsError (js "getaddrinfo ENOTFOUND"));
             Demo.onSprintList := Demo.ok twoFutureSprints;
             Demo.onCreate := fun _ => Response 201 Demo.createdIssue;
             Demo.onUpdate := Demo.noContent;
             Demo.onAssign := Demo.noContent |}.

(** The first attempt ends in a network error, the second succeeds. *)
Definition offlineOnce : world :=
  worldOf Demo.inputs
          {| Demo.onSearch := fun n => match n with
                                       | O => NetworkError (JsError (js "socket hang up"))
                                       | S _ => Response 200 Demo.noIssues
                                       end;
             Demo.onSprintList := Demo.ok twoFutureSprints;
             Demo.onCreate := fun _ => Response 201 Demo.createdIssue;
             Demo.onUpdate := Demo.noContent;
             Demo.onAssign := Demo.noContent |}.

(** The board is unknown to the tracker. *)
Definition boardMissing : world :=
  worldOf Demo.inputs
          {| Demo.onSearch := Demo.ok Demo.noIssues;
             Demo.onSprintList := fun _ => Response 404 (js "board not found");
             Demo.onCreate := fun _ => Response 201 Demo.createdIssue;
             Demo.onUpdate := Demo.noContent;
             Demo.onAssign := Demo.noContent |}.

(** The creation is refused. *)
Definition createRefused : world :=
  worldOf Demo.inputs
          {| Demo.onSearch := Demo.ok Demo.noIssues;
             Demo.onSprintList := Demo.ok twoFutureSprints;
             Demo.onCreate := fun _ => Response 400 (js "summary is required");
             Demo.onUpdate := Demo.noContent;
             Demo.onAssign := Demo.noContent |}.

(** The changed issue is updated, the sprint assignment is refused. *)
Definition assignRefused : world :=
  worldOf Demo.inputs
          {| Demo.onSearch := Demo.ok issuesChanged;
             Demo.onSprintList := Demo.ok twoFutureSprints;
             Demo.onCreate := fun _ => Response 201 Demo.createdIssue;
             Demo.onUpdate := Demo.noContent;
             Demo.onAssign := fun _ => Response 400 (js "sprint is closed") |}.

(** [board_id] and [sprint_name] are not set. *)
Definition inputsMissing : world :=
  worldOf (firstn 6 Demo.inputs) allFine.

(** The base URL has no scheme. *)
Definition badUrl : world :=
  worldOf (("jira_base_url", "example.atlassian.net")%string :: Demo.inputs) allFine.

End Scene.

(* ================================================================== *)
(** ** Blank bodies, payloads, consecutive trailers, safe integers *)

(** The code units [String.prototype.trim] removes: the WhiteSpace and
    LineTerminator productions of ECMAScript, one by one (TAB, LF, VT, FF,
    CR, SP, NBSP, U+1680, U+2000 to U+200A, LS, PS, U+202F, U+205F,
    U+3000, U+FEFF). *)
Definition blankCodeUnits : list codeunit :=
  [ 9; 10; 11; 12; 13; 32; 160; 5760;
    8192; 8193; 8194; 8195; 8196; 8197; 8198; 8199; 8200; 8201; 8202;
    8232; 8233; 8239; 8287; 12288; 65279 ]%N.

(** A body of such code units only, the empty body included: the bodies
    with [responseBody.trim() === ""]. *)
Definition isBlank (s : jsstring) : bool :=
  forallb (fun c => existsb (N.eqb c) blankCodeUnits) s.

(** A timestamp: some text on one line, as [toLocaleString] gives. *)
Definition isTimestamp (t : jsstring) : Prop :=
  t <> [] /\ noLineTerminator t.

(** [D] ends in two whole "Last updated" trailers, one after the other. *)
Definition endsInTwoTrailers (D : jsstring) : Prop :=
  exists P t1 t2,
    D = P ++ lastUpdatedLabel ++ t1 ++ lastUpdatedLabel ++ t2
    /\ isTimestamp t1 /\ isTimestamp t2.

(** [Number.MAX_SAFE_INTEGER] *)
Definition maxSafeInteger : Z := 9007199254740991.

Definition isLog (e : event) : Prop :=
  match e with Log _ _ => True | _ => False end.

Module Payloads.

(** White space of several kinds, and nothing else. *)
Definition blankBody : jsstring := [32; 9; 13; 10; 160; 65279]%N.

(** The JSON text of the empty string: two double quotes. *)
Definition quotedEmpty : jsstring := [QUOTE; QUOTE].

(** A JSON text with white space around it. *)
Definition paddedNoIssues : jsstring := js " " ++ Demo.noIssues ++ [13; 10]%N.

(** [JSON.parse], on the bodies of all modules. *)
Definition parseTable : list (jsstring * jsvalue) :=
  Scene.parseTable ++
  [ (quotedEmpty, JStr []);
    (paddedNoIssues, JObj [(js "issues", JArr [])]) ].

Definition worldOf (a : Demo.answers) : world :=
  {| getInput := fun name => Demo.assoc name Demo.inputs;
     remote := Demo.tracker a;
     formattedTimestamp := js "02.01.2024, 09:30:00";
     JSON_parse := Demo.parse parseTable;
     encodeURIComponent := Demo.percentEncode;
     urlHostname := Demo.hostOfUrl;
     base64 := fun s => js "base64(" ++ s ++ js ")";
     stringGreaterThanZero := fun _ => false |}.

Definition searchAnswers (st : Z) (responseBody : jsstring) : Demo.answers :=
  {| Demo.onSearch := fun _ => Response st responseBody;
     Demo.onSprintList := Demo.ok Scene.twoFutureSprints;
     Demo.onCreate := fun _ => Response 201 Demo.createdIssue;
     Demo.onUpdate := Demo.noContent;
     Demo.onAssign := Demo.noContent |}.

(** The search is answered with white space only. *)
Definition blankAnswer : world := worldOf (searchAnswers 200 blankBody).

(** The search is answered with the JSON text of the empty string. *)
Definition emptyStringAnswer : world := worldOf (searchAnswers 200 quotedEmpty).

(** The search is answered with JSON between white space. *)
Definition paddedAnswer : world := worldOf (searchAnswers 299 paddedNoIssues).

(** The search is answered with text that is not JSON. *)
Definition textAnswer : world :=
  worldOf (searchAnswers 200 (js "<html>maintenance</html>")).

End Payloads.

(* ================================================================== *)
(** * Properties *)

Unset Implicit Arguments.

(* ================================================================== *)
(** ** Strings and the regular expression *)

Lemma jsstring_eqb_eq (a b : jsstring) : JsString.eqb a b = true <-> a = b.
Proof.
  revert b; induction a as [|x a IH]; intros [|y b]; simpl; split;
    try congruence; try discriminate.
  - intros H. apply andb_true_iff in H as [Hx Hab].
    apply N.eqb_eq in Hx. apply IH in Hab. congruence.
  - intros H. injection H as -> ->. rewrite N.eqb_refl. simpl. now apply IH.
Qed.

Lemma jsstring_eqb_refl (a : jsstring) : JsString.eqb a a = true.
Proof. now apply jsstring_eqb_eq. Qed.

Lemma jsstring_eqb_neq (a b : jsstring) : JsString.eqb a b = false <-> a <> b.
Proof.
  split.
  - intros H E. apply jsstring_eqb_eq in E. congruence.
  - intros H. destruct (JsString.eqb a b) eqn:E; [|reflexivity].
    apply jsstring_eqb_eq in E. contradiction.
Qed.

Lemma stripPrefix_app (p rest : jsstring) : stripPrefix p (p ++ rest) = Some rest.
Proof. induction p as [|c p IH]; simpl; [|rewrite N.eqb_refl]; auto. Qed.

Lemma stripPrefix_Some (p s rest : jsstring) :
  stripPrefix p s = Some rest -> s = p ++ rest.
Proof.
  revert s; induction p as [|c p IH]; intros s; simpl.
  - congruence.
  - destruct s as [|x s']; [discriminate|].
    destruct (N.eqb_spec x c); [|discriminate].
    intros H. apply IH in H. subst. reflexivity.
Qed.

(** A run of pattern characters consumes exactly that prefix. *)
Lemma matchFrom_chars (p : jsstring) (r : Regex.regex) (s : jsstring) :
  Regex.matchFrom (map Regex.Char p ++ r) s =
  match stripPrefix p s with
  | Some rest => option_map (Nat.add (List.length p)) (Regex.matchFrom r rest)
  | None => None
  end.
Proof.
  revert s; induction p as [|c p IH]; intros s.
  - simpl. destruct (Regex.matchFrom r s); reflexivity.
  - cbn [map app Regex.matchFrom stripPrefix].
    destruct s as [|x s']; [reflexivity|].
    destruct (N.eqb x c); [|reflexivity].
    rewrite IH. destruct (stripPrefix p s') as [rest|]; [|reflexivity].
    destruct (Regex.matchFrom r rest); reflexivity.
Qed.

(** [.+$] matches a non-empty rest without line terminator, and all of it. *)
Lemma matchFrom_dotplus_end (s : jsstring) :
  Regex.matchFrom [Regex.DotPlus; Regex.EndOfInput] s =
  match s with
  | [] => None
  | _ :: _ =>
      if forallb (fun c => negb (isLineTerminator c)) s
      then Some (List.length s) else None
  end.
Proof.
  induction s as [|x s IH]; [reflexivity|].
  cbn [Regex.matchFrom] in *. cbn [forallb].
  destruct (isLineTerminator x); [reflexivity|]. cbn [negb andb].
  rewrite IH. destruct s as [|y s']; [reflexivity|].
  destruct (forallb _ (y :: s')); reflexivity.
Qed.

Lemma matchFrom_timestampRegex (s : jsstring) :
  Regex.matchFrom timestampRegex s =
  if trailerAt s then Some (List.length s) else None.
Proof.
  unfold timestampRegex, trailerAt. rewrite matchFrom_chars.
  destruct (stripPrefix lastUpdatedLabel s) as [rest|] eqn:E; [|reflexivity].
  rewrite matchFrom_dotplus_end. apply stripPrefix_Some in E. subst s.
  destruct rest as [|x rest]; [reflexivity|].
  destruct (forallb _ (x :: rest)); [|reflexivity].
  cbn [option_map]. now rewrite length_app.
Qed.

(** The recursive reading of [removeTimestamp]: the text before the first
    position at which a whole trailer starts. *)
Lemma removeTimestamp_unfold (s : jsstring) :
  removeTimestamp s =
  if trailerAt s then []
  else match s with
       | [] => []
       | c :: s' => c :: removeTimestamp s'
       end.
Proof.
  unfold removeTimestamp, Regex.replace.
  destruct s as [|c s']; cbn [Regex.search]; rewrite matchFrom_timestampRegex.
  - reflexivity.
  - destruct (trailerAt (c :: s')).
    + cbn [firstn Nat.add app]. now rewrite skipn_all.
    + destruct (Regex.search timestampRegex s') as [[i n]|]; reflexivity.
Qed.

Lemma removeTimestamp_cons (c : codeunit) (s : jsstring) :
  trailerAt (c :: s) = false -> removeTimestamp (c :: s) = c :: removeTimestamp s.
Proof. intros H. rewrite removeTimestamp_unfold, H. reflexivity. Qed.

Lemma removeTimestamp_trailer (s : jsstring) :
  trailerAt s = true -> removeTimestamp s = [].
Proof. intros H. rewrite removeTimestamp_unfold, H. reflexivity. Qed.

Lemma lineFeeds_app (a b : jsstring) : lineFeeds (a ++ b) = lineFeeds a + lineFeeds b.
Proof. apply count_occ_app. Qed.

Lemma lineFeeds_noLineTerminator (t : jsstring) :
  noLineTerminator t -> lineFeeds t = 0.
Proof.
  unfold noLineTerminator, lineFeeds. induction t as [|c t IH]; [reflexivity|].
  cbn [forallb]. intros H. apply andb_true_iff in H as [Hc Ht].
  cbn [count_occ]. destruct (N.eq_dec c LF) as [->|_]; [discriminate|]. auto.
Qed.

(** A whole trailer holds exactly the two line feeds of its label. *)
Lemma trailerAt_inv (s : jsstring) :
  trailerAt s = true ->
  exists rest, s = lastUpdatedLabel ++ rest /\ rest <> [] /\ noLineTerminator rest.
Proof.
  unfold trailerAt. destruct (stripPrefix lastUpdatedLabel s) as [rest|] eqn:E;
    [|discriminate].
  apply stripPrefix_Some in E. intros H. exists rest.
  destruct rest; [discriminate|]. repeat split; auto. discriminate.
Qed.

Lemma trailerAt_intro (rest : jsstring) :
  rest <> [] -> noLineTerminator rest -> trailerAt (lastUpdatedLabel ++ rest) = true.
Proof.
  intros Hne Hnl. unfold trailerAt. rewrite stripPrefix_app.
  destruct rest; [contradiction|]. exact Hnl.
Qed.

Lemma trailerAt_lineFeeds (s : jsstring) : trailerAt s = true -> lineFeeds s = 2.
Proof.
  intros H. apply trailerAt_inv in H as (rest & -> & _ & Hnl).
  rewrite lineFeeds_app, (lineFeeds_noLineTerminator _ Hnl). reflexivity.
Qed.

Lemma trailerAt_head (c : codeunit) (s : jsstring) :
  trailerAt (c :: s) = true -> c = LF.
Proof.
  intros H. apply trailerAt_inv in H as (rest & E & _). now injection E.
Qed.

(** No trailer starts inside the text in front of [label ++ t]. *)
Lemma no_trailer_before (x : codeunit) (X lbl t : jsstring) :
  lineFeeds lbl = 2 -> noLineTerminator t ->
  trailerAt ((x :: X) ++ lbl ++ t) = false.
Proof.
  intros Hl Ht. destruct (trailerAt _) eqn:E; [|reflexivity].
  pose proof (trailerAt_head _ _ E) as ->.
  apply trailerAt_lineFeeds in E.
  change ((LF :: X) ++ lbl ++ t) with ([LF] ++ X ++ lbl ++ t) in E.
  rewrite !lineFeeds_app, Hl, (lineFeeds_noLineTerminator _ Ht) in E.
  cbn in E. lia.
Qed.

(** A string with fewer than two line feeds holds no trailer. *)
Lemma removeTimestamp_few_lineFeeds (s : jsstring) :
  lineFeeds s < 2 -> removeTimestamp s = s.
Proof.
  induction s as [|c s IH]; intros H; [reflexivity|].
  rewrite removeTimestamp_cons.
  - f_equal. apply IH. unfold lineFeeds in *. cbn [count_occ] in H.
    destruct (N.eq_dec c LF); lia.
  - destruct (trailerAt (c :: s)) eqn:E; [|reflexivity].
    apply trailerAt_lineFeeds in E. lia.
Qed.

(** [removeTimestamp] returns a prefix of its argument. *)
Lemma removeTimestamp_prefix (s : jsstring) :
  exists rest, s = removeTimestamp s ++ rest.
Proof.
  induction s as [|c s [rest IH]].
  - exists []. reflexivity.
  - rewrite removeTimestamp_unfold. destruct (trailerAt (c :: s)).
    + exists (c :: s). reflexivity.
    + exists rest. cbn [app]. now rewrite <- IH.
Qed.

Lemma removeTimestamp_length (s : jsstring) :
  List.length (removeTimestamp s) <= List.length s.
Proof.
  destruct (removeTimestamp_prefix s) as [rest E].
  rewrite E at 2. rewrite length_app. lia.
Qed.

(** The trailer the orchestrator writes is not one [removeTimestamp] knows. *)
Lemma removeTimestamp_zuletzt (D t : jsstring) :
  noLineTerminator t ->
  removeTimestamp (D ++ zuletztLabel ++ t) = D ++ zuletztLabel ++ t.
Proof.
  intros Ht. induction D as [|c D IH].
  - cbn [app]. change (zuletztLabel ++ t)
      with (LF :: LF :: js "Zuletzt aktualisiert: " ++ t).
    rewrite removeTimestamp_cons by reflexivity.
    rewrite removeTimestamp_cons by reflexivity.
    rewrite removeTimestamp_few_lineFeeds; [reflexivity|].
    rewrite lineFeeds_app, (lineFeeds_noLineTerminator _ Ht). cbn. lia.
  - change ((c :: D) ++ zuletztLabel ++ t) with (c :: (D ++ zuletztLabel ++ t)).
    rewrite removeTimestamp_cons, IH; [reflexivity|].
    apply (no_trailer_before c D zuletztLabel t); [reflexivity|assumption].
Qed.

Lemma rerun_descriptions_differ (D t : jsstring) :
  noLineTerminator t ->
  removeTimestamp (D ++ zuletztLabel ++ t) <> removeTimestamp D.
Proof.
  intros Ht E. rewrite removeTimestamp_zuletzt in E by assumption.
  pose proof (removeTimestamp_length D) as L. rewrite <- E in L.
  rewrite !length_app in L. cbn in L. lia.
Qed.

Lemma startsWith_app (a b p : jsstring) :
  startsWith a p = true -> startsWith (a ++ b) p = true.
Proof.
  unfold startsWith. destruct (stripPrefix p a) as [rest|] eqn:E; [|discriminate].
  apply stripPrefix_Some in E. subst a. rewrite <- app_assoc.
  now rewrite stripPrefix_app.
Qed.

Lemma trailerAt_startsWith (s : jsstring) :
  trailerAt s = true -> startsWith s lastUpdatedLabel = true.
Proof.
  unfold trailerAt, startsWith.
  destruct (stripPrefix lastUpdatedLabel s); [reflexivity|discriminate].
Qed.

Lemma occurrences_cons (p : jsstring) (c : codeunit) (s : jsstring) :
  occurrences p (c :: s) = (if startsWith (c :: s) p then 1 else 0) + occurrences p s.
Proof. reflexivity. Qed.

Lemma removeTimestamp_no_occurrence (s : jsstring) :
  occurrences lastUpdatedLabel s = 0 -> removeTimestamp s = s.
Proof.
  induction s as [|c s IH]; [reflexivity|].
  rewrite occurrences_cons. intros H.
  destruct (startsWith (c :: s) lastUpdatedLabel) eqn:E; [discriminate|].
  rewrite removeTimestamp_cons.
  - f_equal. apply IH. exact H.
  - destruct (trailerAt (c :: s)) eqn:T; [|reflexivity].
    apply trailerAt_startsWith in T. congruence.
Qed.

(** C3: for every description [D] and every timestamp [t] (text on one line,
    not empty), stripping the trailer from [D] with the label and [t]
    attached gives back exactly [D]. *)
Theorem removeTimestamp_attach_strip (D t : jsstring) :
  t <> [] -> noLineTerminator t ->
  removeTimestamp (D ++ lastUpdatedLabel ++ t) = D.
Proof.
  intros Hne Ht. induction D as [|c D IH].
  - apply removeTimestamp_trailer. now apply trailerAt_intro.
  - change ((c :: D) ++ lastUpdatedLabel ++ t)
      with (c :: (D ++ lastUpdatedLabel ++ t)).
    rewrite removeTimestamp_cons, IH; [reflexivity|].
    apply (no_trailer_before c D lastUpdatedLabel t); [reflexivity|assumption].
Qed.

Lemma removeTimestamp_attach_strip_witness :
  removeTimestamp (js "Fix login" ++ lastUpdatedLabel ++ js "01.01.2024 10:00:00")
  = js "Fix login".
Proof.
  apply removeTimestamp_attach_strip; [discriminate|reflexivity].
Defined.

(** What follows the label has to be such a timestamp: the label alone, or
    text with a line break in it, is no trailer ([.+] needs one character
    and stops at a line terminator). *)
Lemma removeTimestamp_keeps_other_text :
  removeTimestamp (js "Fix login" ++ lastUpdatedLabel ++ []) <> js "Fix login"
  /\ removeTimestamp (js "Fix login" ++ lastUpdatedLabel ++ js "01.01.2024" ++ [LF] ++ js "10:00")
     <> js "Fix login".
Proof. split; vm_compute; discriminate. Qed.

(** Stripping an attached trailer gives back what it was attached to,
    whatever that is. *)
Lemma removeTimestamp_strips_attached (D t : jsstring) :
  isTimestamp t -> removeTimestamp (D ++ lastUpdatedLabel ++ t) = D.
Proof.
  intros [Hne Ht]. induction D as [|c D IH].
  - apply removeTimestamp_trailer. now apply trailerAt_intro.
  - change ((c :: D) ++ lastUpdatedLabel ++ t)
      with (c :: (D ++ lastUpdatedLabel ++ t)).
    rewrite removeTimestamp_cons, IH; [reflexivity|].
    apply (no_trailer_before c D lastUpdatedLabel t); [reflexivity|assumption].
Qed.

(** What [removeTimestamp] cuts off is nothing or one whole trailer. *)
Lemma removeTimestamp_cut (s : jsstring) :
  exists tail,
    s = removeTimestamp s ++ tail
    /\ (tail = [] \/ exists t, tail = lastUpdatedLabel ++ t /\ isTimestamp t).
Proof.
  induction s as [|c s (tail & E & Htail)].
  - exists []. split; [reflexivity|now left].
  - rewrite removeTimestamp_unfold. destruct (trailerAt (c :: s)) eqn:T.
    + exists (c :: s). split; [reflexivity|]. right.
      destruct (trailerAt_inv _ T) as (t & Es & Hne & Ht).
      exists t. now repeat split.
    + exists tail. split; [|exact Htail]. cbn [app]. now rewrite <- E.
Qed.

Lemma removeTimestamp_two_trailers (D : jsstring) :
  endsInTwoTrailers D -> removeTimestamp (removeTimestamp D) <> removeTimestamp D.
Proof.
  intros (P & t1 & t2 & -> & H1 & H2).
  replace (P ++ lastUpdatedLabel ++ t1 ++ lastUpdatedLabel ++ t2)
    with ((P ++ lastUpdatedLabel ++ t1) ++ lastUpdatedLabel ++ t2)
    by now rewrite <- !app_assoc.
  rewrite (removeTimestamp_strips_attached _ t2 H2).
  rewrite (removeTimestamp_strips_attached P t1 H1).
  intros E. apply (f_equal (@List.length _)) in E.
  rewrite !length_app in E. cbn in E. lia.
Qed.

Lemma removeTimestamp_twice (D : jsstring) :
  removeTimestamp (removeTimestamp D) <> removeTimestamp D -> endsInTwoTrailers D.
Proof.
  intros Hne.
  destruct (removeTimestamp_cut D) as (tail2 & E2 & [->|(t2 & -> & H2)]).
  - rewrite app_nil_r in E2. rewrite <- E2 in Hne. now rewrite <- E2 in Hne.
  - destruct (removeTimestamp_cut (removeTimestamp D))
      as (tail1 & E1 & [->|(t1 & -> & H1)]).
    + rewrite app_nil_r in E1. congruence.
    + exists (removeTimestamp (removeTimestamp D)), t1, t2.
      split; [|now split].
      rewrite E2 at 1. rewrite E1 at 1. now rewrite <- !app_assoc.
Qed.

Lemma endsInTwoTrailers_lineFeeds (D : jsstring) :
  endsInTwoTrailers D -> 4 <= lineFeeds D.
Proof.
  intros (P & t1 & t2 & -> & [_ H1] & [_ H2]).
  rewrite !lineFeeds_app, (lineFeeds_noLineTerminator _ H1),
    (lineFeeds_noLineTerminator _ H2).
  change (lineFeeds lastUpdatedLabel) with 2. lia.
Qed.

(** C4, as amended: [removeTimestamp] is idempotent on a string exactly when
    the string does not end in two whole trailers, one after the other. *)
Theorem removeTimestamp_idempotent (D : jsstring) :
  removeTimestamp (removeTimestamp D) = removeTimestamp D
  <-> ~ endsInTwoTrailers D.
Proof.
  split.
  - intros E H. now apply (removeTimestamp_two_trailers D H).
  - intros H.
    destruct (list_eq_dec N.eq_dec (removeTimestamp (removeTimestamp D))
                          (removeTimestamp D)) as [E|Hne]; [exact E|].
    destruct H. now apply removeTimestamp_twice.
Qed.

Lemma removeTimestamp_idempotent_witness :
  let one := js "Fix login" ++ lastUpdatedLabel ++ js "01.01.2024 10:00:00" in
  let two := js "Fix login" ++ lastUpdatedLabel ++ js "see the notes" ++ [LF]
                ++ js "below" ++ lastUpdatedLabel ++ js "02.01.2024 09:30:00" in
  let inside := js "Last updated: never" ++ lastUpdatedLabel
                   ++ js "01.01.2024 10:00:00" ++ [LF; LF] ++ js "Last updated:" in
  removeTimestamp (removeTimestamp one) = removeTimestamp one
  /\ (~ endsInTwoTrailers two
      /\ removeTimestamp two
         = js "Fix login" ++ lastUpdatedLabel ++ js "see the notes" ++ [LF] ++ js "below")
  /\ (~ endsInTwoTrailers inside /\ removeTimestamp inside = inside).
Proof.
  cbv zeta. split; [|split; split].
  - apply removeTimestamp_idempotent. intros H.
    apply endsInTwoTrailers_lineFeeds in H. vm_compute in H. lia.
  - apply removeTimestamp_idempotent. vm_compute. reflexivity.
  - vm_compute. reflexivity.
  - apply removeTimestamp_idempotent. vm_compute. reflexivity.
  - vm_compute. reflexivity.
Defined.

(** C4, as stated, fails on a description that ends in two trailers: each
    application strips the last one only. *)
Lemma removeTimestamp_not_idempotent :
  let D := js "Fix login" ++ lastUpdatedLabel ++ js "01.01.2024 10:00:00"
              ++ lastUpdatedLabel ++ js "02.01.2024 09:30:00" in
  removeTimestamp D = js "Fix login" ++ lastUpdatedLabel ++ js "01.01.2024 10:00:00"
  /\ removeTimestamp (removeTimestamp D) = js "Fix login"
  /\ removeTimestamp (removeTimestamp D) <> removeTimestamp D.
Proof. repeat split; vm_compute; discriminate. Qed.

(* ================================================================== *)
(** ** Traces *)

Lemma sentRequests_app (a b : trace) :
  sentRequests (a ++ b) = sentRequests a ++ sentRequests b.
Proof.
  induction a as [|e a IH]; [reflexivity|].
  destruct e; cbn [app sentRequests]; now rewrite IH.
Qed.

Lemma waits_app (a b : trace) : waits (a ++ b) = waits a ++ waits b.
Proof.
  induction a as [|e a IH]; [reflexivity|].
  destruct e; cbn [app waits]; now rewrite IH.
Qed.

Lemma issueKeyOutputs_app (a b : trace) :
  issueKeyOutputs (a ++ b) = issueKeyOutputs a ++ issueKeyOutputs b.
Proof.
  induction a as [|e a IH]; [reflexivity|].
  destruct e; cbn [app issueKeyOutputs]; try now rewrite IH.
  destruct (JsString.eqb name (js "issue_key")); cbn [app]; now rewrite IH.
Qed.

Lemma failed_app (a b : trace) : failed (a ++ b) = failed a || failed b.
Proof.
  induction a as [|e a IH]; [reflexivity|].
  destruct e; cbn [app failed]; auto.
Qed.

Lemma silent_issueKeyOutputs (evs : trace) :
  Forall silent evs -> issueKeyOutputs evs = [].
Proof.
  induction 1 as [|e evs He _ IH]; [reflexivity|].
  destruct e; cbn in *; auto; contradiction.
Qed.

Lemma silent_failed (evs : trace) : Forall silent evs -> failed evs = false.
Proof.
  induction 1 as [|e evs He _ IH]; [reflexivity|].
  destruct e; cbn in *; auto; contradiction.
Qed.

Lemma readOnly_silent (e : event) : readOnly e -> silent e.
Proof. destruct e; cbn; auto. Qed.

Lemma transportEvent_silent m p d (e : event) : transportEvent m p d e -> silent e.
Proof. destruct e; cbn; auto. Qed.

Lemma transportEvent_readOnly p d (e : event) : transportEvent GET p d e -> readOnly e.
Proof. destruct e; cbn; tauto. Qed.

Lemma readOnly_sentRequests (evs : trace) :
  Forall readOnly evs -> Forall (fun r => r.(method) = GET) (sentRequests evs).
Proof.
  induction 1 as [|e evs He _ IH]; [constructor|].
  destruct e; cbn in *; auto.
Qed.

Lemma transportEvent_sentRequests m p d (evs : trace) :
  Forall (transportEvent m p d) evs ->
  Forall (fun r => r.(method) = m /\ r.(path) = normalizePath p /\ r.(body) = d)
         (sentRequests evs).
Proof.
  induction 1 as [|e evs He _ IH]; [constructor|].
  destruct e; cbn in *; auto.
Qed.

Lemma get_is_no_mutation (r : request) : r.(method) = GET -> isMutation r = false.
Proof.
  intros H. unfold isMutation, isCreateCall, isUpdateCall, isAssignCall.
  now rewrite H.
Qed.

(* ================================================================== *)
(** ** The monad *)

Section Emits.

Context {A B : Type} (P : event -> Prop).

Lemma emits_ret (a : A) : emits P (ret a).
Proof.
  intros tr res tr' H. injection H as <- <-. exists [].
  now rewrite app_nil_r.
Qed.

Lemma emits_throw (e : jserror) : emits P (@throw A e).
Proof.
  intros tr res tr' H. injection H as <- <-. exists [].
  now rewrite app_nil_r.
Qed.

Lemma emits_lift (r : result A) : emits P (lift r).
Proof.
  intros tr res tr' H. injection H as <- <-. exists [].
  now rewrite app_nil_r.
Qed.

Lemma emits_bind (m : M A) (k : A -> M B) :
  emits P m -> (forall a, emits P (k a)) -> emits P (bind m k).
Proof.
  intros Hm Hk tr res tr' H. unfold bind in H.
  destruct (m tr) as [[a|e] tr1] eqn:E; destruct (Hm _ _ _ E) as (evs1 & -> & F1).
  - destruct (Hk a _ _ _ H) as (evs2 & -> & F2).
    exists (evs1 ++ evs2). rewrite app_assoc. split; [reflexivity|].
    now apply Forall_app.
  - injection H as <- <-. now exists evs1.
Qed.

Lemma emits_tryCatch (m : M A) (handler : jserror -> M A) :
  emits P m -> (forall e, emits P (handler e)) -> emits P (tryCatch m handler).
Proof.
  intros Hm Hh tr res tr' H. unfold tryCatch in H.
  destruct (m tr) as [[a|e] tr1] eqn:E; destruct (Hm _ _ _ E) as (evs1 & -> & F1).
  - injection H as <- <-. now exists evs1.
  - destruct (Hh e _ _ _ H) as (evs2 & -> & F2).
    exists (evs1 ++ evs2). rewrite app_assoc. split; [reflexivity|].
    now apply Forall_app.
Qed.

End Emits.

Lemma emits_emit (P : event -> Prop) (e : event) : P e -> emits P (emit e).
Proof.
  intros He tr res tr' H. injection H as <- <-. exists [e]. auto.
Qed.

Lemma emits_mono {A} (P Q : event -> Prop) (m : M A) :
  (forall e, P e -> Q e) -> emits P m -> emits Q m.
Proof.
  intros PQ Hm tr res tr' H. destruct (Hm _ _ _ H) as (evs & -> & F).
  exists evs. split; [reflexivity|]. eapply Forall_impl; eauto.
Qed.

Create HintDb emits.
#[local] Hint Resolve emits_ret emits_throw emits_lift emits_emit : emits.
#[local] Hint Extern 2 (emits _ (bind _ _)) => apply emits_bind; [|intro] : emits.
#[local] Hint Extern 2 (emits _ (tryCatch _ _)) => apply emits_tryCatch; [|intro] : emits.
#[local] Hint Extern 1 (transportEvent _ _ _ (Log _ _)) => exact I : emits.
#[local] Hint Extern 1 (readOnly (Log _ _)) => exact I : emits.
#[local] Hint Extern 1 (silent (Log _ _)) => exact I : emits.

(* ================================================================== *)
(** ** Transport *)

Lemma resolveBody_emits w m p d (responseBody : jsstring) :
  emits (transportEvent m p d) (resolveBody w responseBody).
Proof.
  unfold resolveBody. destruct (JsString.eqb (trim responseBody) []); auto with emits.
  destruct (JSON_parse w responseBody); auto 10 with emits.
Qed.

(** One step of [sendHttpRequest], whatever [retries] is. *)
Lemma sendHttpRequest_unfold w m p d retries delay tr :
  sendHttpRequest w m p d retries delay tr =
  match urlHostname w (jiraBaseUrl w) with
  | None => (Rejected (JsTypeError (js "Invalid URL")), tr)
  | Some host =>
      match remote w (asked m p tr) (requestOf w host m p d) with
      | Response statusCode responseBody =>
          let tr3 := tr ++ attemptEvents w host m p d statusCode responseBody in
          if is2xx statusCode then resolveBody w responseBody tr3
          else
            match Z.eqb statusCode 429, retries with
            | true, S retries' =>
                sendHttpRequest w m p d retries' (delay * 2) (tr3 ++ [Waited delay])
            | _, _ => (Rejected (httpError statusCode responseBody), tr3)
            end
      | NetworkError error =>
          let tr3 := asked m p tr ++ [Sent (requestOf w host m p d);
                                      Log Error (js "Request error: " ++ message error)] in
          match retries with
          | S retries' =>
              sendHttpRequest w m p d retries' (delay * 2) (tr3 ++ [Waited delay])
          | O => (Rejected error, tr3)
          end
      | Thrown error => (Rejected error, asked m p tr)
      end
  end.
Proof.
  unfold asked, attemptEvents.
  destruct retries; cbn [sendHttpRequest];
    destruct (urlHostname w (jiraBaseUrl w)); try reflexivity;
    destruct (remote w _ _); cbv zeta; repeat rewrite <- app_assoc; reflexivity.
Qed.

(** What a call of the transport leaves in the trace: its own attempts,
    waits and log lines, and at least one attempt when it resolves. *)
Lemma sendHttpRequest_trace w m p d retries :
  forall delay tr res tr',
    sendHttpRequest w m p d retries delay tr = (res, tr') ->
    exists evs, tr' = tr ++ evs /\ Forall (transportEvent m p d) evs
                /\ (forall v, res = Resolved v -> sentRequests evs <> []).
Proof.
  assert (stop : forall (tr evs : trace) (e : jserror) res tr',
             Forall (transportEvent m p d) evs ->
             (Rejected e, tr ++ evs) = (res, tr') ->
             exists evs, tr' = tr ++ evs /\ Forall (transportEvent m p d) evs
                         /\ (forall v : jsvalue, res = Resolved v -> sentRequests evs <> [])).
  { intros tr evs e res tr' F H. injection H as <- <-. exists evs.
    repeat split; auto. discriminate. }
  assert (again : forall (tr pre : trace) (r : request) retries' delay' res tr',
             (forall delay tr res tr',
                 sendHttpRequest w m p d retries' delay tr = (res, tr') ->
                 exists evs, tr' = tr ++ evs /\ Forall (transportEvent m p d) evs
                             /\ (forall v, res = Resolved v -> sentRequests evs <> [])) ->
             Forall (transportEvent m p d) pre -> In (Sent r) pre ->
             sendHttpRequest w m p d retries' delay' (tr ++ pre) = (res, tr') ->
             exists evs, tr' = tr ++ evs /\ Forall (transportEvent m p d) evs
                         /\ (forall v : jsvalue, res = Resolved v -> sentRequests evs <> [])).
  { intros tr pre r retries' delay' res tr' IH F Hin H.
    apply IH in H as (evs & -> & F' & _). exists (pre ++ evs).
    rewrite app_assoc. repeat split; [now apply Forall_app|].
    intros _ _ E. rewrite sentRequests_app in E. apply app_eq_nil in E as [E _].
    clear - Hin E. induction pre as [|e pre IHp]; [contradiction|].
    destruct Hin as [->|Hin]; [discriminate|].
    destruct e; cbn in E; try discriminate; auto. }
  assert (Fresp : forall host st rb,
             Forall (transportEvent m p d) (attemptEvents w host m p d st rb)).
  { intros. unfold attemptEvents. repeat (apply Forall_cons; [cbn; auto|]). constructor. }
  induction retries as [|retries IH]; intros delay tr res tr';
    rewrite sendHttpRequest_unfold;
    (destruct (urlHostname w (jiraBaseUrl w)) as [host|];
     [|rewrite <- (app_nil_r tr) at 1; apply stop; constructor]);
    (destruct (remote w _ _) as [st rb|err|err]; cbv zeta;
     [| |unfold asked; apply stop; repeat constructor]).
  - (* no retry left, a response *)
    destruct (is2xx st).
    + intros H. destruct (resolveBody_emits w m p d rb _ _ _ H) as (evs & -> & F).
      exists (attemptEvents w host m p d st rb ++ evs). rewrite app_assoc.
      repeat split; [apply Forall_app; auto|]. intros _ _. cbn. discriminate.
    + destruct (Z.eqb st 429); apply stop; apply Fresp.
  - (* no retry left, a network error *)
    unfold asked. rewrite <- app_assoc. apply stop.
    cbn [app]. repeat (apply Forall_cons; [cbn; auto|]). constructor.
  - destruct (is2xx st).
    + intros H. destruct (resolveBody_emits w m p d rb _ _ _ H) as (evs & -> & F).
      exists (attemptEvents w host m p d st rb ++ evs). rewrite app_assoc.
      repeat split; [apply Forall_app; auto|]. intros _ _. cbn. discriminate.
    + destruct (Z.eqb st 429); [|apply stop; apply Fresp].
      rewrite <- app_assoc.
      apply (again tr _ (requestOf w host m p d)); auto.
      * apply Forall_app. split; [apply Fresp|]. repeat constructor.
      * cbn. auto.
  - unfold asked. repeat rewrite <- app_assoc.
    apply (again tr _ (requestOf w host m p d)); auto.
    + cbn [app]. repeat (apply Forall_cons; [cbn; auto|]). constructor.
    + cbn. auto.
Qed.

Lemma sendHttpRequest_emits w m p d retries delay :
  emits (transportEvent m p d) (sendHttpRequest w m p d retries delay).
Proof.
  intros tr res tr' H. apply sendHttpRequest_trace in H as (evs & E & F & _).
  now exists evs.
Qed.

Lemma send_emits w m p d : emits (transportEvent m p d) (send w m p d).
Proof. apply sendHttpRequest_emits. Qed.

(** The success branch resolves, whatever the body is, and only logs. *)
Lemma resolveBody_spec w (rb : jsstring) (tr : trace) :
  exists v logs,
    resolveBody w rb tr = (Resolved v, tr ++ logs)
    /\ sentRequests logs = [] /\ waits logs = []
    /\ (trim rb = [] -> v = JStr [])
    /\ (forall parsed, trim rb <> [] -> JSON_parse w rb = inl parsed -> v = parsed)
    /\ (forall msg, trim rb <> [] -> JSON_parse w rb = inr msg -> v = JStr rb).
Proof.
  unfold resolveBody. destruct (JsString.eqb (trim rb) []) eqn:E.
  - apply jsstring_eqb_eq in E. exists (JStr []), []. unfold ret.
    rewrite app_nil_r. repeat split; auto; congruence.
  - apply jsstring_eqb_neq in E. destruct (JSON_parse w rb) as [parsed|msg].
    + exists parsed, []. unfold ret. rewrite app_nil_r.
      repeat split; auto; congruence.
    + eexists (JStr rb), [_; _]. unfold bind, emit, ret.
      rewrite <- app_assoc. repeat split; auto; congruence.
Qed.

Lemma is2xx_iff (st : Z) : is2xx st = true <-> (200 <= st <= 299)%Z.
Proof. unfold is2xx. rewrite andb_true_iff, Z.leb_le, Z.ltb_lt. lia. Qed.

(** An attempt answered with a status from 200 to 299 ends the call. *)
Lemma sendHttpRequest_2xx w m p d host retries delay tr st rb :
  urlHostname w (jiraBaseUrl w) = Some host ->
  remote w (asked m p tr) (requestOf w host m p d) = Response st rb ->
  (200 <= st <= 299)%Z ->
  exists v logs,
    sendHttpRequest w m p d retries delay tr
    = (Resolved v, tr ++ attemptEvents w host m p d st rb ++ logs)
    /\ sentRequests logs = [] /\ waits logs = []
    /\ (trim rb = [] -> v = JStr [])
    /\ (forall parsed, trim rb <> [] -> JSON_parse w rb = inl parsed -> v = parsed)
    /\ (forall msg, trim rb <> [] -> JSON_parse w rb = inr msg -> v = JStr rb).
Proof.
  intros Hhost Hresp Hst. apply is2xx_iff in Hst.
  rewrite sendHttpRequest_unfold, Hhost, Hresp. cbv zeta. rewrite Hst.
  destruct (resolveBody_spec w rb (tr ++ attemptEvents w host m p d st rb))
    as (v & logs & -> & Hv).
  exists v, logs. now rewrite <- app_assoc.
Qed.

(** An attempt answered with 429 while a retry is left. *)
Lemma sendHttpRequest_429 w m p d host retries delay tr rb :
  urlHostname w (jiraBaseUrl w) = Some host ->
  remote w (asked m p tr) (requestOf w host m p d) = Response 429 rb ->
  sendHttpRequest w m p d (S retries) delay tr =
  sendHttpRequest w m p d retries (delay * 2)
                  (tr ++ attemptEvents w host m p d 429 rb ++ [Waited delay]).
Proof.
  intros Hhost H429. rewrite (sendHttpRequest_unfold w m p d (S retries)).
  rewrite Hhost, H429. cbv zeta. change (is2xx 429) with false.
  change (Z.eqb 429 429) with true. cbv iota. now rewrite <- app_assoc.
Qed.

Lemma isTrimmed_blank (c : codeunit) :
  isTrimmed c = existsb (N.eqb c) blankCodeUnits.
Proof.
  unfold isTrimmed, isWhiteSpace, isLineTerminator, blankCodeUnits.
  cbn [existsb].
  repeat match goal with
         | |- context [N.eqb c ?k] =>
             destruct (N.eqb_spec c k) as [->|?]; [reflexivity|]
         end.
  cbn. destruct (N.leb_spec 8192 c), (N.leb_spec c 8202); try reflexivity. lia.
Qed.

Lemma trimStart_blank (s : jsstring) : trimStart s = [] <-> isBlank s = true.
Proof.
  unfold isBlank. induction s as [|c s IH]; cbn [trimStart forallb]; [tauto|].
  rewrite <- isTrimmed_blank. destruct (isTrimmed c); cbn [andb]; [exact IH|].
  split; discriminate.
Qed.

Lemma trimStart_head (s : jsstring) (c : codeunit) (r : jsstring) :
  trimStart s = c :: r -> isTrimmed c = false.
Proof.
  induction s as [|x s IH]; cbn [trimStart]; [discriminate|].
  destruct (isTrimmed x) eqn:E; [exact IH|]. intros [= -> _]. exact E.
Qed.

Lemma isBlank_rev (s : jsstring) : isBlank (rev s) = isBlank s.
Proof.
  unfold isBlank. apply eq_true_iff_eq. rewrite !forallb_forall.
  split; intros H x Hx; apply H; [now apply -> in_rev|now apply in_rev].
Qed.

(** [responseBody.trim() === ""] holds of the blank bodies and of no other. *)
Lemma trim_blank (s : jsstring) : trim s = [] <-> isBlank s = true.
Proof.
  unfold trim, trimEnd. split.
  - intros H. apply (f_equal (@rev _)) in H. rewrite rev_involutive in H.
    cbn [rev] in H. apply trimStart_blank in H. rewrite isBlank_rev in H.
    destruct (trimStart s) as [|c r] eqn:E; [now apply trimStart_blank|].
    apply trimStart_head in E. rewrite isTrimmed_blank in E.
    unfold isBlank in H. cbn [forallb] in H. rewrite E in H. discriminate.
  - intros H. apply trimStart_blank in H. rewrite H. reflexivity.
Qed.

Lemma trim_not_blank (s : jsstring) : trim s <> [] <-> isBlank s = false.
Proof.
  rewrite trim_blank. destruct (isBlank s); split; congruence.
Qed.

(** An attempt answered with a status from 200 to 299 ends the call, by the
    kind of its body. *)
Lemma sendHttpRequest_2xx_body w m p d host retries delay tr st rb :
  urlHostname w (jiraBaseUrl w) = Some host ->
  remote w (asked m p tr) (requestOf w host m p d) = Response st rb ->
  (200 <= st <= 299)%Z ->
  exists v logs,
    sendHttpRequest w m p d retries delay tr
    = (Resolved v, tr ++ attemptEvents w host m p d st rb ++ logs)
    /\ Forall isLog logs
    /\ (isBlank rb = true -> v = JStr [])
    /\ (forall parsed, isBlank rb = false -> JSON_parse w rb = inl parsed -> v = parsed)
    /\ (forall msg, isBlank rb = false -> JSON_parse w rb = inr msg -> v = JStr rb).
Proof.
  intros Hhost Hresp Hst. apply is2xx_iff in Hst.
  rewrite sendHttpRequest_unfold, Hhost, Hresp. cbv zeta. rewrite Hst.
  unfold resolveBody. destruct (JsString.eqb (trim rb) []) eqn:E.
  - apply jsstring_eqb_eq, trim_blank in E. exists (JStr []), []. unfold ret.
    rewrite app_nil_r.
    repeat split; auto; congruence.
  - apply jsstring_eqb_neq, trim_not_blank in E.
    destruct (JSON_parse w rb) as [parsed|msg].
    + exists parsed, []. unfold ret. rewrite app_nil_r.
      repeat split; auto; congruence.
    + eexists (JStr rb), [_; _]. unfold bind, emit, ret.
      rewrite <- !app_assoc.
      repeat split; auto; try congruence; repeat constructor.
Qed.

Lemma isLog_sentRequests (logs : trace) : Forall isLog logs -> sentRequests logs = [].
Proof.
  induction 1 as [|e logs He _ IH]; [reflexivity|].
  destruct e; try contradiction. exact IH.
Qed.

Lemma isBlank_nonempty (s : jsstring) : isBlank s = false -> s <> [].
Proof. intros H ->. discriminate. Qed.

(** C8, as amended: a response with a status from 200 to 299 resolves the
    call after this one attempt: with the empty string for a body of white
    space only (the empty body included), with the parsed value for another
    body [JSON.parse] accepts, with the body text itself for another body it
    rejects.  The empty string marks no kind of body: it is also the result
    of those payloads [JSON.parse] turns into the empty string, and of no
    other. *)
Theorem success_response_resolves w m p d host retries delay tr st rb :
  urlHostname w (jiraBaseUrl w) = Some host ->
  remote w (asked m p tr) (requestOf w host m p d) = Response st rb ->
  (200 <= st <= 299)%Z ->
  exists v tr',
    sendHttpRequest w m p d retries delay tr = (Resolved v, tr')
    /\ sentRequests tr' = sentRequests tr ++ [requestOf w host m p d]
    /\ (isBlank rb = true -> v = JStr [])
    /\ (forall parsed, isBlank rb = false -> JSON_parse w rb = inl parsed -> v = parsed)
    /\ (forall msg, isBlank rb = false -> JSON_parse w rb = inr msg -> v = JStr rb)
    /\ (isBlank rb = false -> v = JStr [] -> JSON_parse w rb = inl (JStr [])).
Proof.
  intros Hhost Hresp Hst.
  destruct (sendHttpRequest_2xx_body w m p d host retries delay tr st rb Hhost Hresp Hst)
    as (v & logs & -> & Hlogs & Hblank & Hparsed & Hraw).
  exists v. eexists. split; [reflexivity|].
  split; [|split; [exact Hblank|split; [exact Hparsed|split; [exact Hraw|]]]].
  - rewrite !sentRequests_app, (isLog_sentRequests _ Hlogs), app_nil_r. reflexivity.
  - intros Hnb Hv. destruct (JSON_parse w rb) as [parsed|msg] eqn:E.
    + now rewrite <- (Hparsed parsed Hnb eq_refl), Hv.
    + rewrite (Hraw msg Hnb eq_refl) in Hv. injection Hv as Hv.
      now apply isBlank_nonempty in Hnb.
Qed.

(** C7: a 429 with budget left waits [delay] and calls again with one retry
    less and twice the delay; with the defaults, a 429 followed by a 2xx
    succeeds after two attempts and one wait of 1000 ms, and a tracker that
    always answers 429 is asked four times, after waits of 1, 2 and 4 s. *)
Theorem rate_limit_backoff w m p d host tr rb :
  urlHostname w (jiraBaseUrl w) = Some host ->
  remote w (asked m p tr) (requestOf w host m p d) = Response 429 rb ->
  (forall retries delay,
      sendHttpRequest w m p d (S retries) delay tr =
      sendHttpRequest w m p d retries (delay * 2)
                      (tr ++ attemptEvents w host m p d 429 rb ++ [Waited delay])
      /\ (0 < delay -> delay < delay * 2)%Z)
  /\ (forall st rb',
         remote w (asked m p (tr ++ attemptEvents w host m p d 429 rb
                                 ++ [Waited defaultDelay]))
                (requestOf w host m p d) = Response st rb' ->
         (200 <= st <= 299)%Z ->
         exists v tr',
           send w m p d tr = (Resolved v, tr')
           /\ sentRequests tr' =
              sentRequests tr ++ [requestOf w host m p d; requestOf w host m p d]
           /\ waits tr' = waits tr ++ [1000]%Z)
  /\ ((forall tr', remote w tr' (requestOf w host m p d) = Response 429 rb) ->
      exists tr',
        send w m p d tr = (Rejected (httpError 429 rb), tr')
        /\ sentRequests tr' = sentRequests tr ++ repeat (requestOf w host m p d) 4
        /\ waits tr' = waits tr ++ [1000; 2000; 4000]%Z).
Proof.
  intros Hhost H429. split; [|split].
  - intros retries delay. split; [now apply sendHttpRequest_429|lia].
  - intros st rb' H2 Hst. unfold send, defaultRetries.
    rewrite (sendHttpRequest_429 w m p d host _ _ tr rb Hhost H429).
    destruct (sendHttpRequest_2xx w m p d host 2 (defaultDelay * 2) _ st rb' Hhost H2 Hst)
      as (v & logs & -> & Hs & Hw & _).
    exists v. eexists. split; [reflexivity|].
    rewrite !sentRequests_app, !waits_app, Hs, Hw, <- !app_assoc. cbn.
    rewrite ?app_nil_r. split; reflexivity.
  - intros Hall. unfold send, defaultRetries.
    rewrite (sendHttpRequest_429 w m p d host _ _ tr rb Hhost H429).
    rewrite (sendHttpRequest_429 w m p d host _ _ _ rb Hhost (Hall _)).
    rewrite (sendHttpRequest_429 w m p d host _ _ _ rb Hhost (Hall _)).
    rewrite sendHttpRequest_unfold, Hhost, Hall. cbv zeta.
    change (is2xx 429) with false. change (Z.eqb 429 429) with true. cbv iota.
    eexists. split; [reflexivity|].
    rewrite !sentRequests_app, !waits_app, <- !app_assoc. cbn.
    rewrite ?app_nil_r. split; reflexivity.
Qed.

(* ================================================================== *)
(** ** Running the monad under a known outcome *)

Lemma bind_resolved {A B} (m : M A) (k : A -> M B) tr a tr' :
  m tr = (Resolved a, tr') -> bind m k tr = k a tr'.
Proof. intros H. unfold bind. now rewrite H. Qed.

Lemma bind_rejected {A B} (m : M A) (k : A -> M B) tr e tr' :
  m tr = (Rejected e, tr') -> bind m k tr = (Rejected e, tr').
Proof. intros H. unfold bind. now rewrite H. Qed.

Lemma tryCatch_resolved {A} (m : M A) handler tr a tr' :
  m tr = (Resolved a, tr') -> tryCatch m handler tr = (Resolved a, tr').
Proof. intros H. unfold tryCatch. now rewrite H. Qed.

Lemma tryCatch_rejected {A} (m : M A) handler tr e tr' :
  m tr = (Rejected e, tr') -> tryCatch m handler tr = handler e tr'.
Proof. intros H. unfold tryCatch. now rewrite H. Qed.

Lemma lift_resolved {A} (r : result A) (a : A) tr :
  r = Resolved a -> lift r tr = (Resolved a, tr).
Proof. now intros ->. Qed.

Ltac emits_step :=
  first
    [ apply emits_bind; [|intro]
    | apply emits_tryCatch; [|intro]
    | apply emits_ret
    | apply emits_throw
    | apply emits_lift
    | apply emits_emit; exact I
    | match goal with
      | |- emits _ (if ?b then _ else _) => destruct b
      end ].

(* ================================================================== *)
(** ** The calls of the orchestrator *)

Lemma send_appends w m p d : emits (fun _ => True) (send w m p d).
Proof.
  eapply emits_mono; [|apply send_emits]. auto.
Qed.

(** [searchJiraIssues] sends search requests only, and at least one when it
    resolves. *)
Lemma searchJiraIssues_trace w q tr res tr' :
  searchJiraIssues w q tr = (res, tr') ->
  exists evs, tr' = tr ++ evs
              /\ Forall (transportEvent GET (searchPath w q) None) evs
              /\ (forall v, res = Resolved v -> sentRequests evs <> []).
Proof.
  unfold searchJiraIssues, tryCatch, bind.
  destruct (send w GET (searchPath w q) None tr) as [[response|e] tr0] eqn:E;
    apply sendHttpRequest_trace in E as (evs & -> & F & Hne).
  - unfold lift. destruct (getProp response "issues") as [v|e].
    + intros H. injection H as <- <-. exists evs. repeat split; auto.
      intros _ _. now apply (Hne response).
    + unfold emit, throw. intros H. injection H as <- <-.
      exists (evs ++ [Log Error (js "Error searching Jira issues:")]).
      rewrite app_assoc. repeat split; [|discriminate].
      apply Forall_app. split; [exact F|]. repeat constructor.
  - unfold emit, throw. intros H. injection H as <- <-.
    exists (evs ++ [Log Error (js "Error searching Jira issues:")]).
    rewrite app_assoc. repeat split; [|discriminate].
    apply Forall_app. split; [exact F|]. repeat constructor.
Qed.

Lemma searchJiraIssues_emits w q : emits readOnly (searchJiraIssues w q).
Proof.
  intros tr res tr' H. apply searchJiraIssues_trace in H as (evs & -> & F & _).
  exists evs. split; [reflexivity|].
  eapply Forall_impl; [|exact F]. apply transportEvent_readOnly.
Qed.

Lemma getSprintId_emits w name : emits readOnly (getSprintId w name).
Proof.
  unfold getSprintId. repeat emits_step.
  eapply emits_mono; [|apply send_emits]. apply transportEvent_readOnly.
Qed.

Lemma addIssueToSprint_emits w key sprintId :
  emits (transportEvent POST (assignPath sprintId)
                        (Some (JObj [(js "issues", JArr [key])])))
        (addIssueToSprint w key sprintId).
Proof. unfold addIssueToSprint. repeat emits_step. apply send_emits. Qed.

Lemma createNewJiraIssue_trace w description sprintId tr newIssue tr' :
  createNewJiraIssue w description sprintId tr = (Resolved newIssue, tr') ->
  exists evs, tr' = tr ++ evs
              /\ Forall (transportEvent POST createPath
                                        (Some (issueData w description sprintId))) evs
              /\ sentRequests evs <> []
              /\ exists key, getProp newIssue "key" = Resolved key.
Proof.
  unfold createNewJiraIssue, bind.
  destruct (send w POST createPath _ tr) as [[response|e] tr0] eqn:E; [|discriminate].
  apply sendHttpRequest_trace in E as (evs & -> & F & Hne).
  unfold lift. destruct (getProp response "key") as [key|e] eqn:K; [|discriminate].
  unfold emit, ret. intros H. injection H as <- <-.
  exists (evs ++ [Log Info (js "Created Jira issue: " ++ toString key)]).
  rewrite app_assoc. repeat split.
  - apply Forall_app. split; [exact F|]. repeat constructor.
  - rewrite sentRequests_app. intros E. apply app_eq_nil in E as [E _].
    now apply (Hne response).
  - now exists key.
Qed.

(* ================================================================== *)
(** ** Sprint resolution *)

Lemma strictEqualsString_true (v : jsvalue) (s : jsstring) :
  strictEqualsString v s = true -> v = JStr s.
Proof.
  destruct v; try discriminate. cbn. intros H.
  apply jsstring_eqb_eq in H. now subst.
Qed.

Lemma findSprint_absent (name : jsstring) (sprints : list jsvalue) :
  (forall s, In s sprints -> getProp s "name" <> Resolved (JStr name)) ->
  findSprint name sprints = Resolved JUndefined
  \/ exists e, findSprint name sprints = Rejected e.
Proof.
  induction sprints as [|s sprints IH]; intros H; [now left|].
  cbn [findSprint]. destruct (getProp s "name") as [n|e] eqn:E; [|right; now exists e].
  destruct (strictEqualsString n name) eqn:S.
  - apply strictEqualsString_true in S. subst n.
    exfalso. apply (H s); [now left|exact E].
  - apply IH. intros s' Hin. apply H. now right.
Qed.

(** When the list that came back holds no sprint of that name,
    [getSprintId] rejects. *)
Lemma getSprintId_absent w tr1 response tr2 sprints :
  send w GET (sprintListPath w) None tr1 = (Resolved response, tr2) ->
  getProp response "values" = Resolved (JArr sprints) ->
  (forall s, In s sprints -> getProp s "name" <> Resolved (JStr (sprintName w))) ->
  exists e, getSprintId w (sprintName w) tr1
            = (Rejected e, tr2 ++ [Log Error (js "Error getting sprint ID:")]).
Proof.
  intros Hsend Hvalues Habsent. unfold getSprintId.
  destruct (findSprint_absent _ _ Habsent) as [E|[e E]].
  - exists (sprintNotFound (sprintName w)).
    erewrite tryCatch_rejected; [reflexivity|].
    erewrite bind_resolved by exact Hsend.
    erewrite bind_resolved by (apply lift_resolved; exact Hvalues).
    erewrite bind_resolved by (apply lift_resolved; exact E).
    reflexivity.
  - exists e.
    erewrite tryCatch_rejected; [reflexivity|].
    erewrite bind_resolved by exact Hsend.
    erewrite bind_resolved by (apply lift_resolved; exact Hvalues).
    erewrite bind_rejected; [reflexivity|]. unfold lift. cbn [find]. now rewrite E.
Qed.

(* ================================================================== *)
(** ** The orchestrator, step by step *)

Lemma validateInputs_ok w tr :
  validateLoop w requiredInputs = Resolved tt ->
  validateInputs w tr = (Resolved tt, tr).
Proof. intros H. unfold validateInputs, lift. now rewrite H. Qed.

(** A rejection inside the [try] block is reported twice: by the [catch] of
    [createOrUpdateJiraStory] and by the [catch] of the last statement. *)
Lemma run_story_rejected w (story : M unit) handler e tr :
  createOrUpdateJiraStory w = tryCatch story handler ->
  story [] = (Rejected e, tr) ->
  handler = (fun error =>
               emit (SetFailed (js "Failed to create or update Jira issue: "
                                ++ message error)) ;;; throw error) ->
  run w = (Resolved tt, tr ++ failureEvents e).
Proof.
  intros Hc Hs ->. unfold run, main. rewrite Hc.
  erewrite tryCatch_rejected.
  2:{ erewrite tryCatch_rejected by exact Hs. reflexivity. }
  unfold emit, bind, throw, failureEvents. now rewrite <- app_assoc.
Qed.

(** The run when sprint resolution rejects after a search that resolved. *)
Lemma run_sprint_rejected w issues tr1 e tr2 :
  validateLoop w requiredInputs = Resolved tt ->
  searchJiraIssues w (jql w) [] = (Resolved issues, tr1) ->
  getSprintId w (sprintName w) tr1 = (Rejected e, tr2) ->
  run w = (Resolved tt, tr2 ++ failureEvents e).
Proof.
  intros Hv Hs Hg. eapply run_story_rejected; [reflexivity| |reflexivity].
  erewrite bind_resolved by (apply validateInputs_ok; exact Hv).
  erewrite bind_resolved by exact Hs.
  erewrite bind_rejected by exact Hg. reflexivity.
Qed.

(** C5: when the fetched list of future sprints holds no sprint with exactly
    the requested name, the run fails, emits no issue key, and has sent
    nothing but GET requests: no creation, update or sprint assignment. *)
Theorem absent_sprint_is_fatal w issues tr1 response tr2 sprints :
  validateLoop w requiredInputs = Resolved tt ->
  searchJiraIssues w (jql w) [] = (Resolved issues, tr1) ->
  send w GET (sprintListPath w) None tr1 = (Resolved response, tr2) ->
  getProp response "values" = Resolved (JArr sprints) ->
  (forall s, In s sprints -> getProp s "name" <> Resolved (JStr (sprintName w))) ->
  failed (snd (run w)) = true
  /\ issueKeyOutputs (snd (run w)) = []
  /\ Forall (fun r => r.(method) = GET /\ isMutation r = false)
            (sentRequests (snd (run w))).
Proof.
  intros Hv Hs Hsend Hvalues Habsent.
  destruct (getSprintId_absent w tr1 response tr2 sprints Hsend Hvalues Habsent)
    as [e Hg].
  rewrite (run_sprint_rejected w issues tr1 e _ Hv Hs Hg). cbn [snd].
  destruct (searchJiraIssues_emits w (jql w) _ _ _ Hs) as (evs1 & -> & F1).
  destruct (getSprintId_emits w (sprintName w) _ _ _ Hg) as (evs2 & E2 & F2).
  rewrite E2. cbn [app] in *.
  rewrite !failed_app, !issueKeyOutputs_app, !sentRequests_app.
  rewrite (silent_issueKeyOutputs evs1), (silent_issueKeyOutputs evs2)
    by (eapply Forall_impl; [apply readOnly_silent|assumption]).
  repeat split.
  - cbn. now rewrite !orb_true_r.
  - cbn [sentRequests failureEvents]. rewrite app_nil_r. apply Forall_app. split;
      (eapply Forall_impl; [|apply readOnly_sentRequests; eassumption]);
      cbn beta; intros r Hr; (split; [exact Hr|now apply get_is_no_mutation]).
Qed.

(* ================================================================== *)
(** ** An existing issue whose description did not change *)

Lemma getProp_resolved_any (v : jsvalue) (k k' : string) (x : jsvalue) :
  getProp v k = Resolved x -> exists y, getProp v k' = Resolved y.
Proof.
  destruct v; cbn; try discriminate; intros _; try now eexists.
  all: repeat match goal with
         | |- context [String.eqb ?a ?b] => destruct (String.eqb a b)
         end; now eexists.
Qed.

Lemma greaterThanZero_length positive (issue : jsvalue) (more : list jsvalue) :
  exists len,
    getProp (JArr (issue :: more)) "length" = Resolved len
    /\ greaterThanZero positive len = true.
Proof.
  eexists. split; [reflexivity|]. cbn [greaterThanZero].
  apply Z.ltb_lt. cbn [List.length]. lia.
Qed.

Lemma existingIssueBranch_unchanged w issue more sprintId tr key :
  strippedStoredDescription issue = Resolved (removeTimestamp (issueDescription w)) ->
  getProp issue "key" = Resolved key ->
  existingIssueBranch w (JArr (issue :: more)) sprintId tr
  = (Resolved tt,
     tr ++ [ Log Info (js "No changes detected for existing issue: " ++ toString key);
             SetOutput (js "issue_key") key ]).
Proof.
  unfold strippedStoredDescription. intros Hd Hk.
  destruct (getProp issue "fields") as [fields|] eqn:Hf; [|discriminate].
  destruct (getProp fields "description") as [description|] eqn:Hdesc; [|discriminate].
  unfold existingIssueBranch.
  erewrite bind_resolved by (apply lift_resolved; reflexivity).
  erewrite bind_resolved by (apply lift_resolved; exact Hf).
  erewrite bind_resolved by (apply lift_resolved; exact Hdesc).
  erewrite bind_resolved by (apply lift_resolved; exact Hd).
  rewrite jsstring_eqb_refl. cbn [negb].
  erewrite bind_resolved.
  2:{ erewrite bind_resolved by (apply lift_resolved; exact Hk). reflexivity. }
  erewrite bind_resolved by (apply lift_resolved; exact Hk).
  unfold emit. now rewrite <- app_assoc.
Qed.

Lemma get_is_no_update_or_assign (l : list request) :
  Forall (fun r => r.(method) = GET) l ->
  Forall (fun r => isUpdateCall r = false /\ isAssignCall r = false) l.
Proof.
  apply Forall_impl. intros r Hr. unfold isUpdateCall, isAssignCall.
  now rewrite Hr.
Qed.

(** The run when [getSprintId] resolves to a value that is not truthy. *)
Lemma run_sprint_falsy w issues tr1 sprintId tr2 :
  validateLoop w requiredInputs = Resolved tt ->
  searchJiraIssues w (jql w) [] = (Resolved issues, tr1) ->
  getSprintId w (sprintName w) tr1 = (Resolved sprintId, tr2) ->
  truthy sprintId = false ->
  run w = (Resolved tt, tr2 ++ failureEvents (sprintNotFound (sprintName w))).
Proof.
  intros Hv Hs Hg Ht. eapply run_story_rejected; [reflexivity| |reflexivity].
  erewrite bind_resolved by (apply validateInputs_ok; exact Hv).
  erewrite bind_resolved by exact Hs.
  erewrite bind_resolved by exact Hg.
  rewrite Ht. cbn [negb]. reflexivity.
Qed.

(** The run when the first issue found carries the desired text and the
    sprint id is resolved. *)
Lemma run_unchanged w issue more tr1 sprintId tr2 key :
  validateLoop w requiredInputs = Resolved tt ->
  searchJiraIssues w (jql w) [] = (Resolved (JArr (issue :: more)), tr1) ->
  strippedStoredDescription issue = Resolved (removeTimestamp (issueDescription w)) ->
  getProp issue "key" = Resolved key ->
  getSprintId w (sprintName w) tr1 = (Resolved sprintId, tr2) ->
  truthy sprintId = true ->
  run w = (Resolved tt,
           tr2 ++ [ Log Info (js "No changes detected for existing issue: "
                              ++ toString key);
                    SetOutput (js "issue_key") key ]).
Proof.
  intros Hv Hs Hd Hk Hg Ht.
  destruct (greaterThanZero_length (stringGreaterThanZero w) issue more)
    as (len & Hlen & Hpos).
  unfold run, main, createOrUpdateJiraStory.
  erewrite tryCatch_resolved; [reflexivity|].
  erewrite tryCatch_resolved; [reflexivity|].
  erewrite bind_resolved by (apply validateInputs_ok; exact Hv).
  erewrite bind_resolved by exact Hs.
  erewrite bind_resolved by exact Hg.
  rewrite Ht. cbn [negb].
  erewrite bind_resolved by reflexivity.
  erewrite bind_resolved by (apply lift_resolved; exact Hlen).
  rewrite Hpos. now apply existingIssueBranch_unchanged.
Qed.

(** Sprint resolution keeps a read-only trace read-only. *)
Lemma getSprintId_readOnly w name tr1 res tr2 :
  Forall readOnly tr1 -> getSprintId w name tr1 = (res, tr2) -> Forall readOnly tr2.
Proof.
  intros F1 Hg. destruct (getSprintId_emits w name _ _ _ Hg) as (evs2 & -> & F2).
  now apply Forall_app.
Qed.

(** What a trace made of read-only events and a tail shows. *)
Lemma readOnly_then (evs tail : trace) :
  Forall readOnly evs ->
  issueKeyOutputs (evs ++ tail) = issueKeyOutputs tail
  /\ failed (evs ++ tail) = failed tail
  /\ (sentRequests tail = [] ->
      Forall (fun r => r.(method) = GET) (sentRequests (evs ++ tail))).
Proof.
  intros F. rewrite issueKeyOutputs_app, failed_app, sentRequests_app.
  rewrite (silent_issueKeyOutputs evs), (silent_failed evs)
    by (eapply Forall_impl; [apply readOnly_silent|assumption]).
  repeat split. intros ->. rewrite app_nil_r. now apply readOnly_sentRequests.
Qed.

(** C2, as amended: when the search returns at least one issue and the
    stripped stored description of the first equals the stripped desired one,
    the run sends no PUT and no sprint assignment; when moreover the sprint id
    is resolved, the one [issue_key] it emits is the key of that first issue,
    and when it is not, the run fails and emits none. *)
Theorem unchanged_issue_is_left_alone w issue more tr1 :
  validateLoop w requiredInputs = Resolved tt ->
  searchJiraIssues w (jql w) [] = (Resolved (JArr (issue :: more)), tr1) ->
  strippedStoredDescription issue = Resolved (removeTimestamp (issueDescription w)) ->
  Forall (fun r => isUpdateCall r = false /\ isAssignCall r = false)
         (sentRequests (snd (run w)))
  /\ exists key,
      getProp issue "key" = Resolved key
      /\ (forall sprintId tr2,
             getSprintId w (sprintName w) tr1 = (Resolved sprintId, tr2) ->
             truthy sprintId = true ->
             issueKeyOutputs (snd (run w)) = [key] /\ failed (snd (run w)) = false)
      /\ (forall sprintId tr2,
             getSprintId w (sprintName w) tr1 = (Resolved sprintId, tr2) ->
             truthy sprintId = false ->
             issueKeyOutputs (snd (run w)) = [] /\ failed (snd (run w)) = true)
      /\ (forall e tr2,
             getSprintId w (sprintName w) tr1 = (Rejected e, tr2) ->
             issueKeyOutputs (snd (run w)) = [] /\ failed (snd (run w)) = true).
Proof.
  intros Hv Hs Hd.
  assert (exists key, getProp issue "key" = Resolved key) as [key Hk].
  { unfold strippedStoredDescription in Hd.
    destruct (getProp issue "fields") eqn:Hf; [|discriminate].
    eapply getProp_resolved_any; eassumption. }
  assert (F1 : Forall readOnly tr1).
  { destruct (searchJiraIssues_emits w (jql w) _ _ _ Hs) as (evs1 & -> & F1).
    exact F1. }
  split.
  - apply get_is_no_update_or_assign.
    destruct (getSprintId w (sprintName w) tr1) as [[sprintId|e] tr2] eqn:Hg;
      pose proof (getSprintId_readOnly w _ _ _ _ F1 Hg) as F.
    + destruct (truthy sprintId) eqn:Ht.
      * rewrite (run_unchanged w issue more tr1 sprintId tr2 key Hv Hs Hd Hk Hg Ht).
        now apply readOnly_then.
      * rewrite (run_sprint_falsy w _ tr1 sprintId tr2 Hv Hs Hg Ht).
        now apply readOnly_then.
    + rewrite (run_sprint_rejected w _ tr1 e tr2 Hv Hs Hg).
      now apply readOnly_then.
  - exists key. split; [exact Hk|]. split; [|split].
    all: intros x tr2 Hg; try intros Ht;
      pose proof (getSprintId_readOnly w _ _ _ _ F1 Hg) as F.
    all: first [ rewrite (run_unchanged w issue more tr1 x tr2 key Hv Hs Hd Hk Hg Ht)
               | rewrite (run_sprint_falsy w _ tr1 x tr2 Hv Hs Hg Ht)
               | rewrite (run_sprint_rejected w _ tr1 x tr2 Hv Hs Hg) ].
    all: cbn [snd];
      match goal with
      | |- issueKeyOutputs (_ ++ ?tail) = _ /\ _ =>
          destruct (readOnly_then tr2 tail F) as (-> & -> & _)
      end; split; reflexivity.
Qed.

(** At the scenario of the specification: PROJ-5 carries "Fix login" with a
    "Last updated" trailer, the desired text is "Fix login". *)
Lemma unchanged_issue_is_left_alone_witness :
  Forall (fun r => isUpdateCall r = false /\ isAssignCall r = false)
         (sentRequests (snd (run Demo.unchanged)))
  /\ issueKeyOutputs (snd (run Demo.unchanged)) = [JStr (js "PROJ-5")]
  /\ failed (snd (run Demo.unchanged)) = false.
Proof.
  edestruct (unchanged_issue_is_left_alone Demo.unchanged)
    as (Hcalls & key & Hk & Hout & _);
    [ vm_compute; reflexivity | vm_compute; reflexivity | vm_compute; reflexivity | ].
  split; [exact Hcalls|].
  vm_compute in Hk. injection Hk as <-.
  eapply Hout; vm_compute; reflexivity.
Defined.

(** C2, as stated, fails: the first issue found carries the desired text, but
    the sprint is not among the future sprints; the run fails and emits no
    issue key. *)
Lemma unchanged_issue_without_sprint_has_no_output :
  let w := Demo.unchangedNoSprint in
  exists issue tr1,
    searchJiraIssues w (jql w) [] = (Resolved (JArr [issue]), tr1)
    /\ getProp issue "key" = Resolved (JStr (js "PROJ-5"))
    /\ strippedStoredDescription issue = Resolved (removeTimestamp (issueDescription w))
    /\ issueKeyOutputs (snd (run w)) = []
    /\ failed (snd (run w)) = true.
Proof.
  cbv zeta. eexists. eexists. split; [vm_compute; reflexivity|].
  repeat split; vm_compute; reflexivity.
Qed.

(* ================================================================== *)
(** ** Creation followed by a refused sprint assignment *)

Lemma create_request_is_create_call (r : request) :
  r.(method) = POST -> r.(path) = normalizePath createPath -> isCreateCall r = true.
Proof. intros Hm Hp. unfold isCreateCall. now rewrite Hm, Hp. Qed.

Lemma assign_request_is_assign_call (r : request) (sprintId : jsvalue) :
  r.(method) = POST -> r.(path) = normalizePath (assignPath sprintId) ->
  isAssignCall r = true.
Proof. intros Hm Hp. unfold isAssignCall. now rewrite Hm, Hp. Qed.

(** C10: the creation request is answered before the sprint assignment is
    sent, and the issue key is emitted after both; when the creation resolves
    and the assignment rejects, the run fails without an issue key, although
    the creation request was sent and accepted. *)
Theorem created_issue_without_sprint_fails
        w issues tr1 sprintId tr2 len newIssue tr3 key e tr4 :
  validateLoop w requiredInputs = Resolved tt ->
  searchJiraIssues w (jql w) [] = (Resolved issues, tr1) ->
  getSprintId w (sprintName w) tr1 = (Resolved sprintId, tr2) ->
  truthy sprintId = true ->
  getProp issues "length" = Resolved len ->
  greaterThanZero (stringGreaterThanZero w) len = false ->
  createNewJiraIssue w (updatedDescription w) sprintId tr2 = (Resolved newIssue, tr3) ->
  getProp newIssue "key" = Resolved key ->
  addIssueToSprint w key sprintId tr3 = (Rejected e, tr4) ->
  failed (snd (run w)) = true
  /\ issueKeyOutputs (snd (run w)) = []
  /\ exists reads creates assigns,
      sentRequests (snd (run w)) = reads ++ creates ++ assigns
      /\ Forall (fun r => r.(method) = GET) reads
      /\ creates <> []
      /\ Forall (fun r => isCreateCall r = true) creates
      /\ Forall (fun r => isAssignCall r = true) assigns.
Proof.
  intros Hv Hs Hg Ht Hlen Hpos Hc Hk Ha.
  assert (run w = (Resolved tt, tr4 ++ failureEvents e)) as ->.
  { eapply run_story_rejected; [reflexivity| |reflexivity].
    erewrite bind_resolved by (apply validateInputs_ok; exact Hv).
    erewrite bind_resolved by exact Hs.
    erewrite bind_resolved by exact Hg.
    rewrite Ht. cbn [negb].
    erewrite bind_resolved by reflexivity.
    erewrite bind_resolved by (apply lift_resolved; exact Hlen).
    rewrite Hpos. unfold newIssueBranch.
    erewrite bind_resolved by exact Hc.
    erewrite bind_resolved by (apply lift_resolved; exact Hk).
    erewrite bind_rejected by exact Ha. reflexivity. }
  cbn [snd].
  destruct (searchJiraIssues_emits w (jql w) _ _ _ Hs) as (evs1 & -> & F1).
  destruct (getSprintId_emits w (sprintName w) _ _ _ Hg) as (evs2 & -> & F2).
  destruct (createNewJiraIssue_trace w _ _ _ _ _ Hc) as (evs3 & -> & F3 & Hne & _).
  destruct (addIssueToSprint_emits w key sprintId _ _ _ Ha) as (evs4 & -> & F4).
  cbn [app].
  rewrite !failed_app, !issueKeyOutputs_app, !sentRequests_app.
  rewrite (silent_issueKeyOutputs evs1), (silent_issueKeyOutputs evs2)
    by (eapply Forall_impl; [apply readOnly_silent|assumption]).
  rewrite (silent_issueKeyOutputs evs3), (silent_issueKeyOutputs evs4)
    by (eapply Forall_impl; [apply transportEvent_silent|eassumption]).
  split; [cbn; now rewrite !orb_true_r|]. split; [reflexivity|].
  exists (sentRequests evs1 ++ sentRequests evs2), (sentRequests evs3),
    (sentRequests evs4).
  cbn [sentRequests failureEvents]. rewrite app_nil_r, <- !app_assoc.
  repeat split; auto.
  - apply Forall_app. split; now apply readOnly_sentRequests.
  - eapply Forall_impl; [|apply transportEvent_sentRequests; eassumption].
    cbn beta. intros r (Hm & Hp & _). now apply create_request_is_create_call.
  - eapply Forall_impl; [|apply transportEvent_sentRequests; eassumption].
    cbn beta. intros r (Hm & Hp & _).
    now apply (assign_request_is_assign_call r sprintId).
Qed.

Lemma created_issue_without_sprint_fails_witness :
  failed (snd (run Demo.createThenRefused)) = true
  /\ issueKeyOutputs (snd (run Demo.createThenRefused)) = []
  /\ exists reads creates assigns,
      sentRequests (snd (run Demo.createThenRefused)) = reads ++ creates ++ assigns
      /\ Forall (fun r => r.(method) = GET) reads
      /\ creates <> []
      /\ Forall (fun r => isCreateCall r = true) creates
      /\ Forall (fun r => isAssignCall r = true) assigns.
Proof.
  eapply (created_issue_without_sprint_fails Demo.createThenRefused);
    vm_compute; reflexivity.
Defined.

(* ================================================================== *)
(** ** The order of search and sprint resolution *)

Lemma extendsFrom_bind_here {A B} (m : M A) (k : A -> M B) tr res tr1 :
  m tr = (res, tr1) -> (forall a, emits (fun _ => True) (k a)) ->
  extendsFrom tr1 (bind m k tr).
Proof.
  intros Hm Hk. unfold bind. rewrite Hm. destruct res as [a|e].
  - destruct (k a tr1) as [res' tr'] eqn:E.
    destruct (Hk a _ _ _ E) as (evs & -> & _). now exists evs.
  - exists []. cbn. now rewrite app_nil_r.
Qed.

Lemma extendsFrom_bind_later {A B} (m : M A) (k : A -> M B) tr a tr0 tr1 :
  m tr = (Resolved a, tr0) -> extendsFrom tr1 (k a tr0) ->
  extendsFrom tr1 (bind m k tr).
Proof. intros Hm Hk. unfold bind. now rewrite Hm. Qed.

Lemma extendsFrom_tryCatch {A} (m : M A) handler tr tr1 :
  extendsFrom tr1 (m tr) -> (forall e, emits (fun _ => True) (handler e)) ->
  extendsFrom tr1 (tryCatch m handler tr).
Proof.
  intros [tail Hm] Hh. unfold tryCatch. destruct (m tr) as [[a|e] tr'] eqn:E.
  - now exists tail.
  - cbn [snd] in Hm. subst tr'. destruct (handler e _) as [res' tr''] eqn:E'.
    destruct (Hh e _ _ _ E') as (evs & -> & _). exists (tail ++ evs).
    cbn [snd]. now rewrite app_assoc.
Qed.

(** Either the run sent nothing, or its trace starts with the events of the
    search, an attempt among them. *)
Lemma run_starts_with_search w :
  sentRequests (snd (run w)) = []
  \/ exists evs tail,
      snd (run w) = evs ++ tail
      /\ Forall (transportEvent GET (searchPath w (jql w)) None) evs
      /\ sentRequests evs <> [].
Proof.
  destruct (validateLoop w requiredInputs) as [[]|e] eqn:Hv.
  - destruct (searchJiraIssues w (jql w) []) as [res tr1] eqn:Hs.
    destruct (searchJiraIssues_trace w _ _ _ _ Hs) as (evs & E & F & Hne).
    cbn [app] in E. subst tr1.
    assert (extendsFrom evs (run w)) as [tail Ht].
    { unfold run, main, createOrUpdateJiraStory.
      apply extendsFrom_tryCatch; [|intro; repeat emits_step].
      apply extendsFrom_tryCatch; [|intro; repeat emits_step].
      eapply extendsFrom_bind_later; [apply validateInputs_ok; exact Hv|].
      eapply extendsFrom_bind_here; [exact Hs|].
      intro. repeat emits_step; apply send_appends. }
    destruct (sentRequests evs) as [|r rs] eqn:Er.
    + destruct res as [issues|e]; [now destruct (Hne issues)|].
      left. assert (run w = (Resolved tt, evs ++ failureEvents e)) as ->.
      { eapply run_story_rejected; [reflexivity| |reflexivity].
        erewrite bind_resolved by (apply validateInputs_ok; exact Hv).
        erewrite bind_rejected by exact Hs. reflexivity. }
      cbn [snd]. now rewrite sentRequests_app, Er.
    + right. exists evs, tail. repeat split; auto. congruence.
  - left. assert (run w = (Resolved tt, [] ++ failureEvents e)) as ->; [|reflexivity].
    eapply run_story_rejected; [reflexivity| |reflexivity].
    erewrite bind_rejected; [reflexivity|]. unfold validateInputs, lift. now rewrite Hv.
Qed.

Lemma search_request_is_search_call w (r : request) :
  r.(method) = GET -> r.(path) = normalizePath (searchPath w (jql w)) ->
  isSearchCall r = true /\ isSprintListCall r = false.
Proof.
  intros Hm Hp. unfold isSearchCall, isSprintListCall. now rewrite Hm, Hp.
Qed.

(** C6, as amended: the issue search comes first.  The first request of every
    run is the search request, and a request for the list of sprints is only
    sent after a search request; so when the sprint turns out to be absent,
    the search request has already been issued. *)
Theorem search_precedes_sprint_resolution w :
  match sentRequests (snd (run w)) with
  | [] => True
  | first :: _ => isSearchCall first = true
  end
  /\ (forall pre r post,
         sentRequests (snd (run w)) = pre ++ r :: post ->
         isSprintListCall r = true ->
         exists s, In s pre /\ isSearchCall s = true).
Proof.
  destruct (run_starts_with_search w) as [E|(evs & tail & E & F & Hne)].
  - rewrite E. split; [exact I|]. intros pre r post H. now destruct pre.
  - rewrite E, sentRequests_app.
    apply transportEvent_sentRequests in F.
    destruct (sentRequests evs) as [|first rs]; [contradiction|].
    apply Forall_inv in F. destruct F as (Hm & Hp & _).
    destruct (search_request_is_search_call w first Hm Hp) as [Hsearch Hlist].
    cbn [app]. split; [exact Hsearch|].
    intros [|s pre] r post H Hr.
    + injection H as <- _. congruence.
    + injection H as <- _. exists first. split; [now left|exact Hsearch].
Qed.

(** C6, as stated, fails: the sprint is absent and the search request has
    been issued all the same, before the list of sprints was requested. *)
Lemma search_is_issued_when_sprint_is_absent :
  let w := Demo.unchangedNoSprint in
  (exists issues tr1 tr2,
      searchJiraIssues w (jql w) [] = (Resolved issues, tr1)
      /\ getSprintId w (sprintName w) tr1
         = (Rejected (sprintNotFound (sprintName w)), tr2))
  /\ map isSearchCall (sentRequests (snd (run w))) = [true; false]
  /\ map isSprintListCall (sentRequests (snd (run w))) = [false; true].
Proof.
  cbv zeta. split.
  - eexists. eexists. eexists. split; vm_compute; reflexivity.
  - split; vm_compute; reflexivity.
Qed.

Lemma absent_sprint_is_fatal_witness :
  failed (snd (run Demo.unchangedNoSprint)) = true
  /\ issueKeyOutputs (snd (run Demo.unchangedNoSprint)) = []
  /\ Forall (fun r => r.(method) = GET /\ isMutation r = false)
            (sentRequests (snd (run Demo.unchangedNoSprint))).
Proof.
  eapply (absent_sprint_is_fatal Demo.unchangedNoSprint);
    [ vm_compute; reflexivity
    | vm_compute; reflexivity
    | vm_compute; reflexivity
    | vm_compute; reflexivity
    | ].
  intros s [<-|[]]. vm_compute. discriminate.
Defined.

Lemma success_response_resolves_witness :
  (exists tr',
      sendHttpRequest Payloads.blankAnswer GET
        (searchPath Payloads.blankAnswer (jql Payloads.blankAnswer)) None 3 1000 []
      = (Resolved (JStr []), tr'))
  /\ (exists tr',
         sendHttpRequest Payloads.paddedAnswer GET
           (searchPath Payloads.paddedAnswer (jql Payloads.paddedAnswer)) None 3 1000 []
         = (Resolved (JObj [(js "issues", JArr [])]), tr'))
  /\ (exists tr',
         sendHttpRequest Payloads.textAnswer GET
           (searchPath Payloads.textAnswer (jql Payloads.textAnswer)) None 3 1000 []
         = (Resolved (JStr (js "<html>maintenance</html>")), tr')).
Proof.
  split; [|split].
  - edestruct (success_response_resolves Payloads.blankAnswer GET
                 (searchPath Payloads.blankAnswer (jql Payloads.blankAnswer)) None
                 (js "example.atlassian.net") 3 1000 [] 200%Z Payloads.blankBody)
      as (v & tr' & H & _ & Hblank & _);
      [ vm_compute; reflexivity | vm_compute; reflexivity | lia | ].
    exists tr'. rewrite H. f_equal. f_equal. apply Hblank. vm_compute. reflexivity.
  - edestruct (success_response_resolves Payloads.paddedAnswer GET
                 (searchPath Payloads.paddedAnswer (jql Payloads.paddedAnswer)) None
                 (js "example.atlassian.net") 3 1000 [] 299%Z Payloads.paddedNoIssues)
      as (v & tr' & H & _ & _ & Hparsed & _);
      [ vm_compute; reflexivity | vm_compute; reflexivity | lia | ].
    exists tr'. rewrite H. f_equal. f_equal.
    apply Hparsed; vm_compute; reflexivity.
  - edestruct (success_response_resolves Payloads.textAnswer GET
                 (searchPath Payloads.textAnswer (jql Payloads.textAnswer)) None
                 (js "example.atlassian.net") 3 1000 [] 200%Z
                 (js "<html>maintenance</html>"))
      as (v & tr' & H & _ & _ & _ & Hraw & _);
      [ vm_compute; reflexivity | vm_compute; reflexivity | lia | ].
    exists tr'. rewrite H. f_equal. f_equal.
    apply (Hraw (js "Unexpected token")); vm_compute; reflexivity.
Defined.

(** C8, as stated, fails: the empty result is not a distinguished one.  A
    body of white space and the JSON text of the empty string, which is no
    blank body, resolve to the same value. *)
Lemma empty_result_is_not_distinguished :
  let blank := Payloads.blankAnswer in
  let payload := Payloads.emptyStringAnswer in
  isBlank Payloads.blankBody = true
  /\ isBlank Payloads.quotedEmpty = false
  /\ JSON_parse payload Payloads.quotedEmpty = inl (JStr [])
  /\ remote blank (asked GET (searchPath blank (jql blank)) [])
            (requestOf blank (js "example.atlassian.net") GET
                       (searchPath blank (jql blank)) None)
     = Response 200 Payloads.blankBody
  /\ remote payload (asked GET (searchPath payload (jql payload)) [])
            (requestOf payload (js "example.atlassian.net") GET
                       (searchPath payload (jql payload)) None)
     = Response 200 Payloads.quotedEmpty
  /\ fst (sendHttpRequest blank GET (searchPath blank (jql blank)) None 3 1000 [])
     = Resolved (JStr [])
  /\ fst (sendHttpRequest payload GET (searchPath payload (jql payload)) None 3 1000 [])
     = Resolved (JStr []).
Proof. cbv zeta. repeat split; vm_compute; reflexivity. Qed.

Lemma rate_limit_backoff_witness :
  let w := Demo.rateLimitedOnce in
  let r := requestOf w (js "example.atlassian.net") GET (searchPath w (jql w)) None in
  exists v tr',
    send w GET (searchPath w (jql w)) None [] = (Resolved v, tr')
    /\ sentRequests tr' = [r; r]
    /\ waits tr' = [1000]%Z.
Proof.
  cbv zeta.
  edestruct (rate_limit_backoff Demo.rateLimitedOnce GET
               (searchPath Demo.rateLimitedOnce (jql Demo.rateLimitedOnce)) None
               (js "example.atlassian.net") [] (js "slow down"))
    as (_ & H & _);
    [ vm_compute; reflexivity | vm_compute; reflexivity | ].
  apply (H 201%Z Demo.noIssues); [vm_compute; reflexivity|lia].
Defined.

(* ================================================================== *)
(** ** What the code does where the specification promises otherwise *)

(** Whatever is written after the "Zuletzt aktualisiert" label, the stored
    text never compares equal to the desired one. *)
Lemma rerun_always_differs w (t : jsstring) :
  noLineTerminator t ->
  JsString.eqb (removeTimestamp (issueDescription w ++ zuletztLabel ++ t))
               (removeTimestamp (issueDescription w)) = false.
Proof.
  intros Ht. apply jsstring_eqb_neq. now apply rerun_descriptions_differ.
Qed.

(** C1 fails on the code.  The issue found carries exactly what a previous
    run with the same description has written ([updatedDescription], with
    the time of that run); stripping leaves the stored text as it is, the
    comparison finds a difference, and the description is written again. *)
Theorem rerun_rewrites_description :
  let w := Demo.rerun in
  let stored := issueDescription w ++ zuletztLabel ++ js "01.01.2024, 10:00:00" in
  (exists tr1,
      searchJiraIssues w (jql w) [] = (Resolved (JArr [
        JObj [(js "key", JStr (js "PROJ-5"));
              (js "fields", JObj [(js "description", JStr stored)])]]), tr1))
  /\ removeTimestamp stored = stored
  /\ removeTimestamp (issueDescription w) = issueDescription w
  /\ map (fun r => (r.(method), r.(path))) (sentRequests (snd (run w)))
     = [ (GET, normalizePath (searchPath w (jql w)));
         (GET, js "/rest/agile/1.0/board/7/sprint?state=future");
         (PUT, js "/rest/api/2/issue/PROJ-5");
         (POST, js "/rest/agile/1.0/sprint/42/issue") ]
  /\ issueKeyOutputs (snd (run w)) = [JStr (js "PROJ-5")].
Proof.
  cbv zeta. split; [eexists; vm_compute; reflexivity|].
  repeat split; vm_compute; reflexivity.
Qed.

Lemma sendHttpRequest_withInput w (value : jsstring) :
  sendHttpRequest (withInput w "retry_count" value) = sendHttpRequest w.
Proof. reflexivity. Qed.

(** The input [retry_count] is never read: setting it changes nothing. *)
Lemma retry_count_is_never_read w (value : jsstring) :
  run (withInput w "retry_count" value) = run w.
Proof.
  unfold run, main, createOrUpdateJiraStory, searchJiraIssues, getSprintId,
    existingIssueBranch, newIssueBranch, updateJiraIssue, createNewJiraIssue,
    addIssueToSprint, send.
  rewrite !sendHttpRequest_withInput. reflexivity.
Qed.

(** C9 fails on the code.  With [retry_count] set to 0 and a tracker that
    answers 429, the request is still repeated three times, after waits of
    1, 2 and 4 seconds. *)
Theorem retry_count_is_ignored :
  let w := Demo.alwaysRateLimited in
  getInput w "retry_count" = js "0"
  /\ map isSearchCall (sentRequests (snd (run w))) = [true; true; true; true]
  /\ waits (snd (run w)) = [1000; 2000; 4000]%Z
  /\ failed (snd (run w)) = true.
Proof. cbv zeta. repeat split; vm_compute; reflexivity. Qed.


(* ================================================================== *)
(** * Further properties *)

(** ** Input validation *)

Lemma validateLoop_find w (inputs : list string) :
  validateLoop w inputs =
  match List.find (isMissing w) inputs with
  | Some input => Rejected (missingInput input)
  | None => Resolved tt
  end.
Proof.
  induction inputs as [|input inputs IH]; [reflexivity|].
  cbn [validateLoop List.find]. unfold isMissing at 1.
  destruct (getInput w input); [reflexivity|exact IH].
Qed.

(** X1: when a required input is empty, the run reports the first one of the
    list that is, twice, and does nothing else: no request, no log line. *)
Theorem missing_input_is_fatal w (input : string) :
  firstMissing w = Some input ->
  run w
  = (Resolved tt,
     [ SetFailed (js "Failed to create or update Jira issue: "
                  ++ js "Missing required input: " ++ js input);
       SetFailed (js "Unhandled error: " ++ js "Missing required input: " ++ js input) ]).
Proof.
  intros H.
  change (run w = (Resolved tt, [] ++ failureEvents (missingInput input))).
  eapply run_story_rejected; [reflexivity| |reflexivity].
  erewrite bind_rejected; [reflexivity|].
  unfold validateInputs, lift. rewrite validateLoop_find.
  unfold firstMissing in H. now rewrite H.
Qed.

Lemma missing_input_is_fatal_witness :
  run Scene.inputsMissing
  = (Resolved tt,
     [ SetFailed (js "Failed to create or update Jira issue: Missing required input: board_id");
       SetFailed (js "Unhandled error: Missing required input: board_id") ]).
Proof.
  apply (missing_input_is_fatal Scene.inputsMissing "board_id"). reflexivity.
Defined.

(* ================================================================== *)
(** ** Transport: the failure paths *)

(** X2: a status outside 200-299 other than 429 rejects the call at once,
    with the status and the body in the message, whatever budget is left:
    one attempt, no wait. *)
Theorem other_status_rejects_at_once w m p d host retries delay tr st rb :
  urlHostname w (jiraBaseUrl w) = Some host ->
  remote w (asked m p tr) (requestOf w host m p d) = Response st rb ->
  (st < 200 \/ 299 < st)%Z -> st <> 429%Z ->
  sendHttpRequest w m p d retries delay tr
  = (Rejected (JsError (js "HTTP " ++ ofZ st ++ js ": " ++ rb)),
     tr ++ attemptEvents w host m p d st rb)
  /\ waits (attemptEvents w host m p d st rb) = []
  /\ sentRequests (attemptEvents w host m p d st rb) = [requestOf w host m p d].
Proof.
  intros Hhost Hresp Hst H429.
  rewrite sendHttpRequest_unfold, Hhost, Hresp. cbv zeta.
  assert (is2xx st = false) as ->.
  { destruct (is2xx st) eqn:E; [|reflexivity]. apply is2xx_iff in E. lia. }
  assert (Z.eqb st 429 = false) as -> by now apply Z.eqb_neq.
  repeat split.
Qed.

Lemma other_status_rejects_at_once_witness :
  let w := Scene.serverError in
  exists tr',
    send w GET (searchPath w (jql w)) None []
    = (Rejected (JsError (js "HTTP 500: internal error")), tr').
Proof.
  cbv zeta. eexists.
  unfold send.
  refine (proj1 (other_status_rejects_at_once Scene.serverError GET _ None
                   (js "example.atlassian.net") _ _ [] 500 (js "internal error")
                   _ _ _ _));
    [ vm_compute; reflexivity | vm_compute; reflexivity | lia | lia ].
Defined.

(** X3: a 429 with no retry left rejects the call with "HTTP 429: body",
    without a wait. *)
Theorem rate_limit_without_budget_rejects w m p d host delay tr rb :
  urlHostname w (jiraBaseUrl w) = Some host ->
  remote w (asked m p tr) (requestOf w host m p d) = Response 429 rb ->
  sendHttpRequest w m p d 0 delay tr
  = (Rejected (JsError (js "HTTP 429: " ++ rb)),
     tr ++ attemptEvents w host m p d 429 rb)
  /\ waits (attemptEvents w host m p d 429 rb) = [].
Proof.
  intros Hhost Hresp.
  rewrite sendHttpRequest_unfold, Hhost, Hresp. split; reflexivity.
Qed.

Lemma rate_limit_without_budget_rejects_witness :
  let w := Demo.alwaysRateLimited in
  exists tr',
    sendHttpRequest w GET (searchPath w (jql w)) None 0 8000 []
    = (Rejected (JsError (js "HTTP 429: slow down")), tr').
Proof.
  cbv zeta. eexists.
  refine (proj1 (rate_limit_without_budget_rejects Demo.alwaysRateLimited GET _ None
                   (js "example.atlassian.net") 8000 [] (js "slow down") _ _));
    vm_compute; reflexivity.
Defined.

(** What the transport appends for an attempt that ends in a network error. *)
Lemma sendHttpRequest_network_error w m p d host retries delay tr err :
  urlHostname w (jiraBaseUrl w) = Some host ->
  remote w (asked m p tr) (requestOf w host m p d) = NetworkError err ->
  sendHttpRequest w m p d retries delay tr =
  let tr3 := asked m p tr ++ [Sent (requestOf w host m p d);
                              Log Error (js "Request error: " ++ message err)] in
  match retries with
  | S retries' => sendHttpRequest w m p d retries' (delay * 2) (tr3 ++ [Waited delay])
  | O => (Rejected err, tr3)
  end.
Proof.
  intros Hhost Hresp. now rewrite sendHttpRequest_unfold, Hhost, Hresp.
Qed.

(** X4: a network error is retried like a 429: wait [delay], call again with
    one retry less and twice the delay.  Without budget the error itself is
    the rejection; with the defaults, an error on every attempt ends after
    four attempts and waits of 1, 2 and 4 s, and an error followed by a 2xx
    resolves after two attempts. *)
Theorem network_error_backoff w m p d host tr err :
  urlHostname w (jiraBaseUrl w) = Some host ->
  remote w (asked m p tr) (requestOf w host m p d) = NetworkError err ->
  let failedAttempt := [ Sent (requestOf w host m p d);
                         Log Error (js "Request error: " ++ message err) ] in
  (forall retries delay,
      sendHttpRequest w m p d (S retries) delay tr =
      sendHttpRequest w m p d retries (delay * 2)
                      (asked m p tr ++ failedAttempt ++ [Waited delay]))
  /\ (forall delay,
         sendHttpRequest w m p d 0 delay tr
         = (Rejected err, asked m p tr ++ failedAttempt))
  /\ ((forall tr', remote w tr' (requestOf w host m p d) = NetworkError err) ->
      exists tr',
        send w m p d tr = (Rejected err, tr')
        /\ sentRequests tr' = sentRequests tr ++ repeat (requestOf w host m p d) 4
        /\ waits tr' = waits tr ++ [1000; 2000; 4000]%Z)
  /\ (forall st rb,
         remote w (asked m p (asked m p tr ++ failedAttempt ++ [Waited defaultDelay]))
                (requestOf w host m p d) = Response st rb ->
         (200 <= st <= 299)%Z ->
         exists v tr',
           send w m p d tr = (Resolved v, tr')
           /\ sentRequests tr' = sentRequests tr ++ repeat (requestOf w host m p d) 2
           /\ waits tr' = waits tr ++ [1000]%Z).
Proof.
  intros Hhost Herr. cbv zeta.
  assert (step : forall retries delay,
             sendHttpRequest w m p d (S retries) delay tr =
             sendHttpRequest w m p d retries (delay * 2)
               (asked m p tr ++ [ Sent (requestOf w host m p d);
                                  Log Error (js "Request error: " ++ message err) ]
                      ++ [Waited delay])).
  { intros. rewrite (sendHttpRequest_network_error w m p d host _ _ tr err Hhost Herr).
    cbv zeta. now rewrite <- app_assoc. }
  split; [exact step|]. split; [|split].
  - intros delay.
    now rewrite (sendHttpRequest_network_error w m p d host _ _ tr err Hhost Herr).
  - intros Hall. unfold send, defaultRetries. rewrite step.
    rewrite (sendHttpRequest_network_error w m p d host _ _ _ err Hhost (Hall _)).
    cbv zeta.
    rewrite (sendHttpRequest_network_error w m p d host _ _ _ err Hhost (Hall _)).
    cbv zeta.
    rewrite (sendHttpRequest_network_error w m p d host _ _ _ err Hhost (Hall _)).
    cbv zeta. eexists. split; [reflexivity|]. unfold asked.
    rewrite !sentRequests_app, !waits_app, <- !app_assoc. cbn.
    rewrite ?app_nil_r. split; reflexivity.
  - intros st rb H2 Hst. unfold send, defaultRetries. rewrite step.
    destruct (sendHttpRequest_2xx w m p d host 2 (defaultDelay * 2) _ st rb Hhost H2 Hst)
      as (v & logs & -> & Hs & Hw & _).
    exists v. eexists. split; [reflexivity|]. unfold asked.
    rewrite !sentRequests_app, !waits_app, Hs, Hw, <- !app_assoc. cbn.
    rewrite ?app_nil_r. split; reflexivity.
Qed.

Lemma network_error_backoff_witness :
  let w := Scene.offline in
  exists tr',
    send w GET (searchPath w (jql w)) None []
    = (Rejected (JsError (js "getaddrinfo ENOTFOUND")), tr')
    /\ List.length (sentRequests tr') = 4
    /\ waits tr' = [1000; 2000; 4000]%Z.
Proof.
  cbv zeta.
  edestruct (network_error_backoff Scene.offline GET
               (searchPath Scene.offline (jql Scene.offline)) None
               (js "example.atlassian.net") []
               (JsError (js "getaddrinfo ENOTFOUND")))
    as (_ & _ & H & _);
    [ vm_compute; reflexivity | vm_compute; reflexivity | ].
  destruct H as (tr' & E & Hs & Hw); [intros tr'; vm_compute; reflexivity|].
  exists tr'. rewrite Hs, Hw. repeat split. exact E.
Defined.

(* ================================================================== *)
(** ** Transport: what every call keeps to *)

Lemma bounded_stop (retries : nat) (delay : Z) (tr evs : trace)
      (res : result jsvalue) :
  waits evs = [] -> List.length (sentRequests evs) <= 1 ->
  exists n,
    n <= retries
    /\ waits (snd (res, tr ++ evs)) = waits tr ++ backoffWaits delay n
    /\ List.length (sentRequests (snd (res, tr ++ evs)))
       <= List.length (sentRequests tr) + S n.
Proof.
  intros Hw Hs. exists 0. cbn [snd backoffWaits].
  rewrite waits_app, sentRequests_app, length_app, Hw. repeat split; lia.
Qed.

Lemma bounded_again (retries : nat) (delay : Z) (tr pre : trace)
      (x : result jsvalue * trace) :
  waits pre = [] -> List.length (sentRequests pre) <= 1 ->
  (exists n,
      n <= retries
      /\ waits (snd x) = waits (tr ++ pre ++ [Waited delay])
                         ++ backoffWaits (delay * 2) n
      /\ List.length (sentRequests (snd x))
         <= List.length (sentRequests (tr ++ pre ++ [Waited delay])) + S n) ->
  exists n,
    n <= S retries
    /\ waits (snd x) = waits tr ++ backoffWaits delay n
    /\ List.length (sentRequests (snd x)) <= List.length (sentRequests tr) + S n.
Proof.
  intros Hw Hs (n & Hn & Ew & Es). exists (S n).
  rewrite !waits_app, Hw in Ew. rewrite !sentRequests_app, !length_app in Es.
  cbn in Ew, Es. rewrite Ew, <- app_assoc. cbn [backoffWaits app].
  repeat split; lia.
Qed.

(** X5: a call with budget [retries] waits at most [retries] times, for
    [delay], [2 * delay], [4 * delay], ... in this order, and makes at most
    one attempt more than it waits. *)
Theorem attempts_are_bounded w m p d retries :
  forall delay tr,
  exists n,
    n <= retries
    /\ waits (snd (sendHttpRequest w m p d retries delay tr))
       = waits tr ++ backoffWaits delay n
    /\ List.length (sentRequests (snd (sendHttpRequest w m p d retries delay tr)))
       <= List.length (sentRequests tr) + S n.
Proof.
  induction retries as [|retries IH]; intros delay tr;
    rewrite sendHttpRequest_unfold;
    (destruct (urlHostname w (jiraBaseUrl w)) as [host|];
     [|exists 0; cbn; rewrite app_nil_r; repeat split; lia]);
    (destruct (remote w _ _) as [st rb|err|err]; cbv zeta;
     [| |unfold asked; (apply bounded_stop; [reflexivity|cbn; lia])]).
  - destruct (is2xx st).
    + destruct (resolveBody_spec w rb (tr ++ attemptEvents w host m p d st rb))
        as (v & logs & -> & Hs & Hw & _).
      rewrite <- app_assoc. apply bounded_stop.
      * rewrite waits_app, Hw. reflexivity.
      * rewrite sentRequests_app, Hs. cbn. lia.
    + destruct (Z.eqb st 429); (apply bounded_stop; [reflexivity|cbn; lia]).
  - unfold asked. rewrite <- app_assoc. (apply bounded_stop; [reflexivity|cbn; lia]).
  - destruct (is2xx st).
    + destruct (resolveBody_spec w rb (tr ++ attemptEvents w host m p d st rb))
        as (v & logs & -> & Hs & Hw & _).
      rewrite <- app_assoc. apply bounded_stop.
      * rewrite waits_app, Hw. reflexivity.
      * rewrite sentRequests_app, Hs. cbn. lia.
    + destruct (Z.eqb st 429); [|(apply bounded_stop; [reflexivity|cbn; lia])].
      rewrite <- app_assoc.
      apply (bounded_again retries delay tr (attemptEvents w host m p d st rb));
        [reflexivity|cbn; lia|apply IH].
  - unfold asked. rewrite <- !app_assoc.
    apply (bounded_again retries delay tr
             ([Log Debug (js "Sending " ++ methodName m ++ js " request to "
                          ++ normalizePath p)]
                ++ [Sent (requestOf w host m p d);
                    Log Error (js "Request error: " ++ message err)]));
      [reflexivity|cbn; lia|]. rewrite <- !app_assoc. apply IH.
Qed.

Lemma normalizePath_slash (p : jsstring) :
  startsWith (normalizePath p) (js "/") = true.
Proof.
  unfold normalizePath. destruct (startsWith p (js "/")) eqn:E; [exact E|].
  reflexivity.
Qed.

Lemma resolveBody_logs (P : event -> Prop) w (rb : jsstring) :
  (forall l s, P (Log l s)) -> emits P (resolveBody w rb).
Proof.
  intros HP. unfold resolveBody.
  destruct (JsString.eqb (trim rb) []); [apply emits_ret|].
  destruct (JSON_parse w rb); [apply emits_ret|].
  repeat first [ apply emits_bind; [|intro] | apply emits_ret
               | apply emits_emit; apply HP ].
Qed.

(** The events of a call satisfy whatever holds of its request, of a log
    line and of a wait. *)
Lemma sendHttpRequest_events (P : event -> Prop) w m p d :
  (forall host, urlHostname w (jiraBaseUrl w) = Some host ->
                P (Sent (requestOf w host m p d))) ->
  (forall l s, P (Log l s)) -> (forall ms, P (Waited ms)) ->
  forall retries delay, emits P (sendHttpRequest w m p d retries delay).
Proof.
  intros HS HL HW.
  assert (stop : forall (tr evs : trace) (x res : result jsvalue) tr',
             Forall P evs -> (x, tr ++ evs) = (res, tr') ->
             exists evs, tr' = tr ++ evs /\ Forall P evs).
  { intros tr evs x res tr' F H. injection H as <- <-. now exists evs. }
  induction retries as [|retries IH]; intros delay tr res tr';
    rewrite sendHttpRequest_unfold;
    (destruct (urlHostname w (jiraBaseUrl w)) as [host|] eqn:Hhost;
     [|rewrite <- (app_nil_r tr) at 1; apply stop; constructor]);
    (destruct (remote w _ _) as [st rb|err|err]; cbv zeta;
     [| |unfold asked; apply stop; repeat constructor; apply HL]);
    unfold asked, attemptEvents.
  all: assert (Freq : P (Sent (requestOf w host m p d))) by now apply HS.
  - destruct (is2xx st).
    + intros H. destruct (resolveBody_logs P w rb HL _ _ _ H) as (evs & -> & F).
      eexists. rewrite <- app_assoc. split; [reflexivity|].
      cbn [app]. repeat (apply Forall_cons; [auto|]). exact F.
    + destruct (Z.eqb st 429); apply stop; repeat (apply Forall_cons; [auto|]);
        constructor.
  - rewrite <- app_assoc. apply stop. cbn [app].
    repeat (apply Forall_cons; [auto|]). constructor.
  - destruct (is2xx st).
    + intros H. destruct (resolveBody_logs P w rb HL _ _ _ H) as (evs & -> & F).
      eexists. rewrite <- app_assoc. split; [reflexivity|].
      cbn [app]. repeat (apply Forall_cons; [auto|]). exact F.
    + destruct (Z.eqb st 429);
        [|apply stop; repeat (apply Forall_cons; [auto|]); constructor].
      intros H. apply IH in H as (evs & -> & F).
      eexists. rewrite <- !app_assoc. split; [reflexivity|].
      cbn [app]. repeat (apply Forall_cons; [auto|]). exact F.
  - intros H. apply IH in H as (evs & -> & F).
    eexists. rewrite <- !app_assoc. split; [reflexivity|].
    cbn [app]. repeat (apply Forall_cons; [auto|]). exact F.
Qed.

Lemma send_wellFormed w m p d : emits (wellFormedEvent w) (send w m p d).
Proof.
  apply sendHttpRequest_events; cbn; auto.
  intros host Hhost. repeat split; [exact Hhost|apply normalizePath_slash].
Qed.

Lemma wellFormed_sentRequests w (evs : trace) :
  Forall (wellFormedEvent w) evs -> Forall (wellFormedRequest w) (sentRequests evs).
Proof.
  induction 1 as [|e evs He _ IH]; [constructor|].
  destruct e; cbn in *; auto.
Qed.

(** X6: every request of a run goes to the host of the base URL, carries the
    Basic authorization made of e-mail and token and the JSON content type,
    and has a path that starts with a slash. *)
Theorem every_request_is_well_formed w (r : request) :
  In r (sentRequests (snd (run w))) ->
  urlHostname w (getInput w "jira_base_url") = Some r.(hostname)
  /\ r.(headers)
     = [ (js "Authorization",
          js "Basic " ++ base64 w (getInput w "jira_user_email" ++ js ":"
                                   ++ getInput w "jira_api_token"));
         (js "Content-Type", js "application/json") ]
  /\ startsWith r.(path) (js "/") = true.
Proof.
  assert (emits (wellFormedEvent w) (main w)) as H.
  { unfold main, createOrUpdateJiraStory, validateInputs, searchJiraIssues,
      getSprintId, existingIssueBranch, newIssueBranch.
    repeat emits_step; apply send_wellFormed. }
  unfold run. destruct (main w []) as [res tr] eqn:E.
  destruct (H _ _ _ E) as (evs & -> & F). cbn [snd app].
  apply wellFormed_sentRequests in F. rewrite Forall_forall in F.
  intros Hin. exact (F r Hin).
Qed.

Lemma every_request_is_well_formed_witness :
  let w := Scene.changed in
  let r := requestOf w (js "example.atlassian.net") PUT
             (issuePath (JStr (js "PROJ-5")))
             (Some (updateData (updatedDescription w))) in
  In r (sentRequests (snd (run w)))
  /\ r.(headers)
     = [ (js "Authorization", js "Basic base64(ci@example.com:token)");
         (js "Content-Type", js "application/json") ].
Proof.
  cbv zeta.
  assert (Hin : In (requestOf Scene.changed (js "example.atlassian.net") PUT
                      (issuePath (JStr (js "PROJ-5")))
                      (Some (updateData (updatedDescription Scene.changed))))
                   (sentRequests (snd (run Scene.changed)))).
  { vm_compute. right. right. left. reflexivity. }
  split; [exact Hin|].
  destruct (every_request_is_well_formed Scene.changed _ Hin) as (_ & -> & _).
  vm_compute. reflexivity.
Defined.

(** X7: when the base URL is not a URL, the first call rejects before
    anything is sent; the run fails with "Invalid URL". *)
Theorem invalid_base_url_is_fatal w :
  validateLoop w requiredInputs = Resolved tt ->
  urlHostname w (jiraBaseUrl w) = None ->
  run w
  = (Resolved tt,
     [ Log Error (js "Error searching Jira issues:");
       SetFailed (js "Failed to create or update Jira issue: " ++ js "Invalid URL");
       SetFailed (js "Unhandled error: " ++ js "Invalid URL") ]).
Proof.
  intros Hv Hurl.
  change (run w = (Resolved tt,
                   [Log Error (js "Error searching Jira issues:")]
                     ++ failureEvents (JsTypeError (js "Invalid URL")))).
  eapply run_story_rejected; [reflexivity| |reflexivity].
  erewrite bind_resolved by (apply validateInputs_ok; exact Hv).
  erewrite bind_rejected; [reflexivity|].
  unfold searchJiraIssues.
  erewrite tryCatch_rejected.
  2:{ erewrite bind_rejected; [reflexivity|].
      unfold send. rewrite sendHttpRequest_unfold, Hurl. reflexivity. }
  reflexivity.
Qed.

Lemma invalid_base_url_is_fatal_witness :
  sentRequests (snd (run Scene.badUrl)) = []
  /\ failed (snd (run Scene.badUrl)) = true.
Proof.
  rewrite (invalid_base_url_is_fatal Scene.badUrl); [split; reflexivity| |];
    vm_compute; reflexivity.
Defined.

(* ================================================================== *)
(** ** The orchestrator after sprint resolution *)

Lemma run_after_sprint w issues tr1 sprintId tr2 res tr :
  validateLoop w requiredInputs = Resolved tt ->
  searchJiraIssues w (jql w) [] = (Resolved issues, tr1) ->
  getSprintId w (sprintName w) tr1 = (Resolved sprintId, tr2) ->
  truthy sprintId = true ->
  afterSprint w issues sprintId tr2 = (res, tr) ->
  run w = (Resolved tt,
           match res with
           | Resolved _ => tr
           | Rejected e => tr ++ failureEvents e
           end).
Proof.
  intros Hv Hs Hg Ht Ha.
  assert (story : (validateInputs w ;;;
                   existingIssues <- searchJiraIssues w (jql w) ;;
                   sprintId <- getSprintId w (sprintName w) ;;
                   (if negb (truthy sprintId)
                    then throw (sprintNotFound (sprintName w)) else ret tt) ;;;
                   afterSprint w existingIssues sprintId) [] = (res, tr)).
  { erewrite bind_resolved by (apply validateInputs_ok; exact Hv).
    erewrite bind_resolved by exact Hs.
    erewrite bind_resolved by exact Hg.
    rewrite Ht. cbn [negb].
    erewrite bind_resolved by reflexivity. exact Ha. }
  destruct res as [[]|e].
  - unfold run, main, createOrUpdateJiraStory.
    erewrite tryCatch_resolved; [reflexivity|].
    erewrite tryCatch_resolved; [reflexivity|]. exact story.
  - eapply run_story_rejected; [reflexivity|exact story|reflexivity].
Qed.

Lemma afterSprint_no_issue w sprintId tr :
  afterSprint w (JArr []) sprintId tr = newIssueBranch w sprintId tr.
Proof. reflexivity. Qed.

Lemma afterSprint_some_issue w issue more sprintId tr :
  afterSprint w (JArr (issue :: more)) sprintId tr
  = existingIssueBranch w (JArr (issue :: more)) sprintId tr.
Proof.
  destruct (greaterThanZero_length (stringGreaterThanZero w) issue more)
    as (len & Hlen & Hpos).
  unfold afterSprint.
  erewrite bind_resolved by (apply lift_resolved; exact Hlen).
  now rewrite Hpos.
Qed.

(** The trace up to the branch holds GET requests only. *)
Lemma reads_before_branch w issues tr1 res tr2 :
  searchJiraIssues w (jql w) [] = (Resolved issues, tr1) ->
  getSprintId w (sprintName w) tr1 = (res, tr2) ->
  Forall readOnly tr2.
Proof.
  intros Hs Hg. apply (getSprintId_readOnly w (sprintName w) tr1 res tr2); [|exact Hg].
  destruct (searchJiraIssues_emits w (jql w) _ _ _ Hs) as (evs1 & -> & F1).
  exact F1.
Qed.

Lemma updateJiraIssue_emits w key description :
  emits (transportEvent PUT (issuePath key) (Some (updateData description)))
        (updateJiraIssue w key description).
Proof. unfold updateJiraIssue. repeat emits_step. apply send_emits. Qed.

Lemma updateJiraIssue_trace w key description tr b tr' :
  updateJiraIssue w key description tr = (Resolved b, tr') ->
  exists evs, tr' = tr ++ evs
              /\ Forall (transportEvent PUT (issuePath key)
                                        (Some (updateData description))) evs
              /\ sentRequests evs <> [].
Proof.
  unfold updateJiraIssue, tryCatch, bind.
  destruct (send w PUT (issuePath key) _ tr) as [[response|e] tr0] eqn:E;
    [|discriminate].
  apply sendHttpRequest_trace in E as (evs & -> & F & Hne).
  unfold emit, ret. intros H. injection H as _ <-.
  exists (evs ++ [Log Info (js "Updated Jira issue: " ++ toString key)]).
  rewrite app_assoc. repeat split.
  - apply Forall_app. split; [exact F|]. repeat constructor.
  - rewrite sentRequests_app. intros E. apply app_eq_nil in E as [E _].
    now apply (Hne response).
Qed.

Lemma addIssueToSprint_trace w key sprintId tr tr' :
  addIssueToSprint w key sprintId tr = (Resolved tt, tr') ->
  exists evs, tr' = tr ++ evs
              /\ Forall (transportEvent POST (assignPath sprintId)
                                        (Some (assignData key))) evs
              /\ sentRequests evs <> [].
Proof.
  unfold addIssueToSprint, bind.
  destruct (send w POST (assignPath sprintId) _ tr) as [[response|e] tr0] eqn:E;
    [|discriminate].
  apply sendHttpRequest_trace in E as (evs & -> & F & Hne).
  unfold emit. intros H. injection H as <-.
  eexists. rewrite <- app_assoc. split; [reflexivity|]. split.
  - apply Forall_app. split; [exact F|]. repeat constructor.
  - rewrite sentRequests_app. intros E. apply app_eq_nil in E as [E _].
    now apply (Hne response).
Qed.

Lemma method_get_is_plain (l : list request) :
  Forall (fun r => r.(method) = GET) l ->
  Forall (fun r => isCreateCall r = false /\ isUpdateCall r = false
                   /\ isAssignCall r = false) l.
Proof.
  apply Forall_impl. intros r Hr. unfold isCreateCall, isUpdateCall, isAssignCall.
  now rewrite Hr.
Qed.

Lemma create_requests w description sprintId (evs : trace) :
  Forall (transportEvent POST createPath (Some (issueData w description sprintId))) evs ->
  Forall (fun r => isCreateCall r = true /\ isUpdateCall r = false
                   /\ r.(body) = Some (issueData w description sprintId))
         (sentRequests evs).
Proof.
  intros F. apply transportEvent_sentRequests in F.
  eapply Forall_impl; [|exact F]. cbn beta. intros r (Hm & Hp & Hb).
  unfold isCreateCall, isUpdateCall. now rewrite Hm, Hp.
Qed.

Lemma update_requests key description (evs : trace) :
  Forall (transportEvent PUT (issuePath key) (Some (updateData description))) evs ->
  Forall (fun r => isUpdateCall r = true /\ isCreateCall r = false
                   /\ isAssignCall r = false
                   /\ r.(path) = js "/rest/api/2/issue/" ++ toString key
                   /\ r.(body) = Some (updateData description))
         (sentRequests evs).
Proof.
  intros F. apply transportEvent_sentRequests in F.
  eapply Forall_impl; [|exact F]. cbn beta. intros r (Hm & Hp & Hb).
  unfold isCreateCall, isUpdateCall, isAssignCall. now rewrite Hm, Hp.
Qed.

Lemma assign_requests key sprintId (evs : trace) :
  Forall (transportEvent POST (assignPath sprintId) (Some (assignData key))) evs ->
  Forall (fun r => isAssignCall r = true /\ isCreateCall r = false
                   /\ isUpdateCall r = false
                   /\ r.(path) = js "/rest/agile/1.0/sprint/" ++ toString sprintId
                                    ++ js "/issue"
                   /\ r.(body) = Some (assignData key))
         (sentRequests evs).
Proof.
  intros F. apply transportEvent_sentRequests in F.
  eapply Forall_impl; [|exact F]. cbn beta. intros r (Hm & Hp & Hb).
  unfold isCreateCall, isUpdateCall, isAssignCall. now rewrite Hm, Hp.
Qed.

Lemma safe_id_is_truthy (id : Z) : id <> 0%Z -> truthy (JNum id) = true.
Proof. intros H. cbn. now apply negb_true_iff, Z.eqb_neq. Qed.

(** X8: when the search returns no issue, the sprint id is resolved and the
    tracker accepts both calls, the run sends, after its two kinds of GET,
    the creation request POST /rest/api/2/issue, whose body holds the project
    key, the summary, the description followed by an empty line and the
    "Zuletzt aktualisiert: " trailer with the time of the run, the issue
    type Story and the sprint id; then the assignment
    POST /rest/agile/1.0/sprint/<id>/issue, whose body lists the key of the
    new issue; it sends no PUT, and it emits that key.  The sprint id is a
    safe integer other than 0, as the tracker numbers its sprints. *)
Theorem new_issue_is_created_then_assigned
        w tr1 id tr2 newIssue tr3 key tr4 :
  validateLoop w requiredInputs = Resolved tt ->
  searchJiraIssues w (jql w) [] = (Resolved (JArr []), tr1) ->
  getSprintId w (sprintName w) tr1 = (Resolved (JNum id), tr2) ->
  id <> 0%Z ->
  (- maxSafeInteger <= id <= maxSafeInteger)%Z ->
  createNewJiraIssue w (updatedDescription w) (JNum id) tr2 = (Resolved newIssue, tr3) ->
  getProp newIssue "key" = Resolved key ->
  addIssueToSprint w key (JNum id) tr3 = (Resolved tt, tr4) ->
  run w = (Resolved tt, tr4 ++ [SetOutput (js "issue_key") key])
  /\ issueKeyOutputs (snd (run w)) = [key]
  /\ failed (snd (run w)) = false
  /\ exists reads creates assigns,
      sentRequests (snd (run w)) = reads ++ creates ++ assigns
      /\ Forall (fun r => r.(method) = GET) reads
      /\ creates <> []
      /\ Forall (fun r =>
                   r.(method) = POST
                   /\ r.(path) = js "/rest/api/2/issue"
                   /\ r.(body) =
                      Some (JObj [(js "fields",
                              JObj [ (js "project",
                                      JObj [(js "key", JStr (getInput w "jira_project_key"))]);
                                     (js "summary", JStr (getInput w "issue_summary"));
                                     (js "description",
                                      JStr (getInput w "issue_description" ++ [LF; LF]
                                            ++ js "Zuletzt aktualisiert: "
                                            ++ formattedTimestamp w));
                                     (js "issuetype", JObj [(js "name", JStr (js "Story"))]);
                                     (js "sprint", JNum id) ])]))
                creates
      /\ assigns <> []
      /\ Forall (fun r =>
                   r.(method) = POST
                   /\ r.(path) = js "/rest/agile/1.0/sprint/" ++ ofZ id ++ js "/issue"
                   /\ r.(body) = Some (JObj [(js "issues", JArr [key])]))
                assigns.
Proof.
  intros Hv Hs Hg Hid _ Hc Hk Ha.
  assert (run w = (Resolved tt, tr4 ++ [SetOutput (js "issue_key") key])) as ->.
  { apply (run_after_sprint w _ tr1 (JNum id) tr2 (Resolved tt) _ Hv Hs Hg
                            (safe_id_is_truthy id Hid)).
    rewrite afterSprint_no_issue. unfold newIssueBranch.
    erewrite bind_resolved by exact Hc.
    erewrite bind_resolved by (apply lift_resolved; exact Hk).
    erewrite bind_resolved by exact Ha.
    erewrite bind_resolved by (apply lift_resolved; exact Hk).
    reflexivity. }
  split; [reflexivity|]. cbn [snd].
  pose proof (reads_before_branch w _ _ _ _ Hs Hg) as F2.
  destruct (createNewJiraIssue_trace w _ _ _ _ _ Hc) as (evs3 & -> & F3 & Hne3 & _).
  destruct (addIssueToSprint_trace w _ _ _ _ Ha) as (evs4 & -> & F4 & Hne4).
  rewrite !failed_app, !issueKeyOutputs_app, !sentRequests_app.
  rewrite (silent_issueKeyOutputs tr2), (silent_failed tr2)
    by (eapply Forall_impl; [apply readOnly_silent|assumption]).
  rewrite (silent_issueKeyOutputs evs3), (silent_failed evs3),
    (silent_issueKeyOutputs evs4), (silent_failed evs4)
    by (eapply Forall_impl; [apply transportEvent_silent|eassumption]).
  split; [reflexivity|]. split; [reflexivity|].
  exists (sentRequests tr2), (sentRequests evs3), (sentRequests evs4).
  cbn [sentRequests]. rewrite app_nil_r, <- !app_assoc.
  split; [reflexivity|]. split; [now apply readOnly_sentRequests|].
  split; [exact Hne3|]. split; [|split; [exact Hne4|]].
  - exact (transportEvent_sentRequests _ _ _ _ F3).
  - exact (transportEvent_sentRequests _ _ _ _ F4).
Qed.

Lemma new_issue_is_created_then_assigned_witness :
  issueKeyOutputs (snd (run Scene.created)) = [JStr (js "PROJ-6")]
  /\ failed (snd (run Scene.created)) = false
  /\ map (fun r => (r.(method), r.(path), r.(body)))
         (skipn 2 (sentRequests (snd (run Scene.created))))
     = [ (POST, js "/rest/api/2/issue",
          Some (JObj [(js "fields",
                  JObj [ (js "project", JObj [(js "key", JStr (js "PROJ"))]);
                         (js "summary", JStr (js "Fix login bug"));
                         (js "description",
                          JStr (js "Fix login" ++ [LF; LF]
                                ++ js "Zuletzt aktualisiert: 02.01.2024, 09:30:00"));
                         (js "issuetype", JObj [(js "name", JStr (js "Story"))]);
                         (js "sprint", JNum 42) ])]));
         (POST, js "/rest/agile/1.0/sprint/42/issue",
          Some (JObj [(js "issues", JArr [JStr (js "PROJ-6")])])) ].
Proof.
  edestruct (new_issue_is_created_then_assigned Scene.created)
    as (_ & Hout & Hfail & _);
    [ vm_compute; reflexivity | vm_compute; reflexivity | vm_compute; reflexivity
    | discriminate | vm_compute; split; discriminate
    | vm_compute; reflexivity | vm_compute; reflexivity
    | vm_compute; reflexivity | ].
  split; [exact Hout|]. split; [exact Hfail|]. vm_compute. reflexivity.
Defined.

(* ================================================================== *)
(** ** An existing issue whose description changed *)

(** The branch up to the comparison. *)
Lemma existingIssueBranch_compare w issue more sprintId tr stored :
  strippedStoredDescription issue = Resolved stored ->
  existingIssueBranch w (JArr (issue :: more)) sprintId tr
  = ((if negb (JsString.eqb stored (removeTimestamp (issueDescription w))) then
        key <- lift (getProp issue "key") ;;
        _ <- updateJiraIssue w key (updatedDescription w) ;;
        key' <- lift (getProp issue "key") ;;
        addIssueToSprint w key' sprintId
      else
        key <- lift (getProp issue "key") ;;
        emit (Log Info (js "No changes detected for existing issue: "
                        ++ toString key))) ;;;
     key <- lift (getProp issue "key") ;;
     emit (SetOutput (js "issue_key") key)) tr.
Proof.
  unfold strippedStoredDescription. intros Hd.
  destruct (getProp issue "fields") as [fields|] eqn:Hf; [|discriminate].
  destruct (getProp fields "description") as [description|] eqn:Hdesc; [|discriminate].
  unfold existingIssueBranch.
  erewrite bind_resolved by (apply lift_resolved; reflexivity).
  erewrite bind_resolved by (apply lift_resolved; exact Hf).
  erewrite bind_resolved by (apply lift_resolved; exact Hdesc).
  erewrite bind_resolved by (apply lift_resolved; exact Hd).
  reflexivity.
Qed.

Lemma existingIssueBranch_malformed w issue more sprintId tr e :
  strippedStoredDescription issue = Rejected e ->
  existingIssueBranch w (JArr (issue :: more)) sprintId tr = (Rejected e, tr).
Proof.
  unfold strippedStoredDescription. intros Hd.
  destruct (getProp issue "fields") as [fields|e'] eqn:Hf.
  - destruct (getProp fields "description") as [description|e''] eqn:Hdesc.
    + unfold existingIssueBranch.
      erewrite bind_resolved by (apply lift_resolved; reflexivity).
      erewrite bind_resolved by (apply lift_resolved; exact Hf).
      erewrite bind_resolved by (apply lift_resolved; exact Hdesc).
      erewrite bind_rejected; [reflexivity|]. unfold lift. now rewrite Hd.
    + injection Hd as ->. unfold existingIssueBranch.
      erewrite bind_resolved by (apply lift_resolved; reflexivity).
      erewrite bind_resolved by (apply lift_resolved; exact Hf).
      erewrite bind_rejected; [reflexivity|]. unfold lift. now rewrite Hdesc.
  - injection Hd as ->. unfold existingIssueBranch.
    erewrite bind_resolved by (apply lift_resolved; reflexivity).
    erewrite bind_rejected; [reflexivity|]. unfold lift. now rewrite Hf.
Qed.

(** X9: when the stripped stored description of the first issue found differs
    from the stripped desired one, the sprint id is resolved and the tracker
    accepts both calls, the run sends, after its two kinds of GET, the update
    PUT /rest/api/2/issue/<key> for that issue, whose body holds the desired
    description followed by an empty line and the "Zuletzt aktualisiert: "
    trailer with the time of the run; then the assignment
    POST /rest/agile/1.0/sprint/<id>/issue, whose body lists that key; it
    sends no creation, and it emits that key; further issues of the result
    play no part.  The key is a string and the sprint id a safe integer
    other than 0, as the tracker gives them. *)
Theorem changed_issue_is_updated_then_assigned
        w issue more tr1 stored id tr2 key b tr3 tr4 :
  validateLoop w requiredInputs = Resolved tt ->
  searchJiraIssues w (jql w) [] = (Resolved (JArr (issue :: more)), tr1) ->
  strippedStoredDescription issue = Resolved stored ->
  stored <> removeTimestamp (issueDescription w) ->
  getProp issue "key" = Resolved (JStr key) ->
  getSprintId w (sprintName w) tr1 = (Resolved (JNum id), tr2) ->
  id <> 0%Z ->
  (- maxSafeInteger <= id <= maxSafeInteger)%Z ->
  updateJiraIssue w (JStr key) (updatedDescription w) tr2 = (Resolved b, tr3) ->
  addIssueToSprint w (JStr key) (JNum id) tr3 = (Resolved tt, tr4) ->
  run w = (Resolved tt, tr4 ++ [SetOutput (js "issue_key") (JStr key)])
  /\ issueKeyOutputs (snd (run w)) = [JStr key]
  /\ failed (snd (run w)) = false
  /\ exists reads updates assigns,
      sentRequests (snd (run w)) = reads ++ updates ++ assigns
      /\ Forall (fun r => r.(method) = GET) reads
      /\ updates <> []
      /\ Forall (fun r =>
                   r.(method) = PUT
                   /\ r.(path) = js "/rest/api/2/issue/" ++ key
                   /\ r.(body) =
                      Some (JObj [(js "fields",
                              JObj [(js "description",
                                     JStr (getInput w "issue_description" ++ [LF; LF]
                                           ++ js "Zuletzt aktualisiert: "
                                           ++ formattedTimestamp w))])]))
                updates
      /\ assigns <> []
      /\ Forall (fun r =>
                   r.(method) = POST
                   /\ r.(path) = js "/rest/agile/1.0/sprint/" ++ ofZ id ++ js "/issue"
                   /\ r.(body) = Some (JObj [(js "issues", JArr [JStr key])]))
                assigns.
Proof.
  intros Hv Hs Hd Hneq Hk Hg Hid _ Hu Ha.
  assert (run w = (Resolved tt, tr4 ++ [SetOutput (js "issue_key") (JStr key)])) as ->.
  { apply (run_after_sprint w _ tr1 (JNum id) tr2 (Resolved tt) _ Hv Hs Hg
                            (safe_id_is_truthy id Hid)).
    rewrite afterSprint_some_issue.
    rewrite (existingIssueBranch_compare w issue more (JNum id) tr2 stored Hd).
    apply jsstring_eqb_neq in Hneq. rewrite Hneq. cbn [negb].
    erewrite bind_resolved.
    2:{ erewrite bind_resolved by (apply lift_resolved; exact Hk).
        erewrite bind_resolved by exact Hu.
        erewrite bind_resolved by (apply lift_resolved; exact Hk).
        exact Ha. }
    erewrite bind_resolved by (apply lift_resolved; exact Hk).
    reflexivity. }
  split; [reflexivity|]. cbn [snd].
  pose proof (reads_before_branch w _ _ _ _ Hs Hg) as F2.
  destruct (updateJiraIssue_trace w _ _ _ _ _ Hu) as (evs3 & -> & F3 & Hne3).
  destruct (addIssueToSprint_trace w _ _ _ _ Ha) as (evs4 & -> & F4 & Hne4).
  rewrite !failed_app, !issueKeyOutputs_app, !sentRequests_app.
  rewrite (silent_issueKeyOutputs tr2), (silent_failed tr2)
    by (eapply Forall_impl; [apply readOnly_silent|assumption]).
  rewrite (silent_issueKeyOutputs evs3), (silent_failed evs3),
    (silent_issueKeyOutputs evs4), (silent_failed evs4)
    by (eapply Forall_impl; [apply transportEvent_silent|eassumption]).
  split; [reflexivity|]. split; [reflexivity|].
  exists (sentRequests tr2), (sentRequests evs3), (sentRequests evs4).
  cbn [sentRequests]. rewrite app_nil_r, <- !app_assoc.
  split; [reflexivity|]. split; [now apply readOnly_sentRequests|].
  split; [exact Hne3|]. split; [|split; [exact Hne4|]].
  - exact (transportEvent_sentRequests _ _ _ _ F3).
  - exact (transportEvent_sentRequests _ _ _ _ F4).
Qed.

Lemma changed_issue_is_updated_then_assigned_witness :
  issueKeyOutputs (snd (run Scene.changed)) = [JStr (js "PROJ-5")]
  /\ failed (snd (run Scene.changed)) = false
  /\ map (fun r => (r.(method), r.(path), r.(body)))
         (skipn 2 (sentRequests (snd (run Scene.changed))))
     = [ (PUT, js "/rest/api/2/issue/PROJ-5",
          Some (JObj [(js "fields",
                  JObj [(js "description",
                         JStr (js "Fix login" ++ [LF; LF]
                               ++ js "Zuletzt aktualisiert: 02.01.2024, 09:30:00"))])]));
         (POST, js "/rest/agile/1.0/sprint/42/issue",
          Some (JObj [(js "issues", JArr [JStr (js "PROJ-5")])])) ].
Proof.
  edestruct (changed_issue_is_updated_then_assigned Scene.changed)
    as (_ & Hout & Hfail & _);
    [ vm_compute; reflexivity | vm_compute; reflexivity | vm_compute; reflexivity
    | vm_compute; discriminate | vm_compute; reflexivity | vm_compute; reflexivity
    | discriminate | vm_compute; split; discriminate
    | vm_compute; reflexivity | vm_compute; reflexivity | ].
  split; [exact Hout|]. split; [exact Hfail|]. vm_compute. reflexivity.
Defined.

(** X10: when the update of a changed issue is rejected, the run fails with
    that error: no sprint assignment is sent and no issue key is emitted. *)
Theorem refused_update_is_fatal
        w issue more tr1 stored sprintId tr2 key e tr3 :
  validateLoop w requiredInputs = Resolved tt ->
  searchJiraIssues w (jql w) [] = (Resolved (JArr (issue :: more)), tr1) ->
  strippedStoredDescription issue = Resolved stored ->
  stored <> removeTimestamp (issueDescription w) ->
  getProp issue "key" = Resolved key ->
  getSprintId w (sprintName w) tr1 = (Resolved sprintId, tr2) ->
  truthy sprintId = true ->
  updateJiraIssue w key (updatedDescription w) tr2 = (Rejected e, tr3) ->
  run w = (Resolved tt, tr3 ++ failureEvents e)
  /\ issueKeyOutputs (snd (run w)) = []
  /\ Forall (fun r => isAssignCall r = false /\ isCreateCall r = false)
            (sentRequests (snd (run w))).
Proof.
  intros Hv Hs Hd Hneq Hk Hg Ht Hu.
  assert (run w = (Resolved tt, tr3 ++ failureEvents e)) as ->.
  { apply (run_after_sprint w _ tr1 sprintId tr2 (Rejected e) _ Hv Hs Hg Ht).
    rewrite afterSprint_some_issue.
    rewrite (existingIssueBranch_compare w issue more sprintId tr2 stored Hd).
    apply jsstring_eqb_neq in Hneq. rewrite Hneq. cbn [negb].
    erewrite bind_rejected; [reflexivity|].
    erewrite bind_resolved by (apply lift_resolved; exact Hk).
    erewrite bind_rejected by exact Hu. reflexivity. }
  split; [reflexivity|]. cbn [snd].
  pose proof (reads_before_branch w _ _ _ _ Hs Hg) as F2.
  destruct (updateJiraIssue_emits w _ _ _ _ _ Hu) as (evs3 & -> & F3).
  rewrite !issueKeyOutputs_app, !sentRequests_app.
  rewrite (silent_issueKeyOutputs tr2)
    by (eapply Forall_impl; [apply readOnly_silent|assumption]).
  rewrite (silent_issueKeyOutputs evs3)
    by (eapply Forall_impl; [apply transportEvent_silent|eassumption]).
  split; [reflexivity|].
  cbn [sentRequests failureEvents]. rewrite app_nil_r. apply Forall_app. split.
  - eapply Forall_impl; [|apply method_get_is_plain, readOnly_sentRequests; exact F2].
    cbn beta. tauto.
  - eapply Forall_impl; [|apply update_requests; exact F3]. cbn beta. tauto.
Qed.

Lemma refused_update_is_fatal_witness :
  issueKeyOutputs (snd (run Scene.updateRefused)) = []
  /\ failed (snd (run Scene.updateRefused)) = true
  /\ map (fun r => r.(method)) (sentRequests (snd (run Scene.updateRefused)))
     = [GET; GET; PUT].
Proof.
  edestruct (refused_update_is_fatal Scene.updateRefused) as (Hrun & Hout & _);
    [ vm_compute; reflexivity | vm_compute; reflexivity | vm_compute; reflexivity
    | vm_compute; discriminate | vm_compute; reflexivity | vm_compute; reflexivity
    | vm_compute; reflexivity | vm_compute; reflexivity | ].
  split; [exact Hout|]. rewrite Hrun. split; vm_compute; reflexivity.
Defined.

(** X11: when the first issue found has no [fields], or a description that
    is neither a string nor empty, the comparison throws; the run fails with
    that [TypeError] after the two GET requests, whatever the desired text. *)
Theorem malformed_issue_is_fatal w issue more tr1 sprintId tr2 e :
  validateLoop w requiredInputs = Resolved tt ->
  searchJiraIssues w (jql w) [] = (Resolved (JArr (issue :: more)), tr1) ->
  strippedStoredDescription issue = Rejected e ->
  getSprintId w (sprintName w) tr1 = (Resolved sprintId, tr2) ->
  truthy sprintId = true ->
  run w = (Resolved tt, tr2 ++ failureEvents e)
  /\ issueKeyOutputs (snd (run w)) = []
  /\ Forall (fun r => r.(method) = GET) (sentRequests (snd (run w))).
Proof.
  intros Hv Hs Hd Hg Ht.
  assert (run w = (Resolved tt, tr2 ++ failureEvents e)) as ->.
  { apply (run_after_sprint w _ tr1 sprintId tr2 (Rejected e) _ Hv Hs Hg Ht).
    rewrite afterSprint_some_issue. now apply existingIssueBranch_malformed. }
  split; [reflexivity|]. cbn [snd].
  pose proof (reads_before_branch w _ _ _ _ Hs Hg) as F2.
  destruct (readOnly_then tr2 (failureEvents e) F2) as (-> & _ & H).
  split; [reflexivity|]. now apply H.
Qed.

Lemma malformed_issue_is_fatal_witness :
  issueKeyOutputs (snd (run Scene.numberDescription)) = []
  /\ failed (snd (run Scene.numberDescription)) = true
  /\ Forall (fun r => r.(method) = GET)
            (sentRequests (snd (run Scene.numberDescription))).
Proof.
  edestruct (malformed_issue_is_fatal Scene.numberDescription
               (Scene.issueOf "PROJ-5" (JNum 7)) [])
    as (Hrun & Hout & Hget);
    [ vm_compute; reflexivity | vm_compute; reflexivity | vm_compute; reflexivity
    | vm_compute; reflexivity | vm_compute; reflexivity | ].
  split; [exact Hout|]. split; [|exact Hget].
  rewrite Hrun. vm_compute. reflexivity.
Defined.

(* ================================================================== *)
(** ** Failures of the search *)

(** X12: when the transport rejects the search, the error goes through
    [searchJiraIssues] unchanged, after one error line; the run reports its
    message and requests neither the sprints nor anything else. *)
Theorem search_failure_is_fatal w e tr1 :
  validateLoop w requiredInputs = Resolved tt ->
  send w GET (searchPath w (jql w)) None [] = (Rejected e, tr1) ->
  searchJiraIssues w (jql w) []
  = (Rejected e, tr1 ++ [Log Error (js "Error searching Jira issues:")])
  /\ run w
     = (Resolved tt,
        tr1 ++ [ Log Error (js "Error searching Jira issues:");
                 SetFailed (js "Failed to create or update Jira issue: " ++ message e);
                 SetFailed (js "Unhandled error: " ++ message e) ])
  /\ Forall (fun r => isSearchCall r = true) (sentRequests (snd (run w))).
Proof.
  intros Hv Hsend.
  assert (Hs : searchJiraIssues w (jql w) []
               = (Rejected e, tr1 ++ [Log Error (js "Error searching Jira issues:")])).
  { unfold searchJiraIssues.
    erewrite tryCatch_rejected by (erewrite bind_rejected by exact Hsend; reflexivity).
    reflexivity. }
  split; [exact Hs|].
  assert (run w = (Resolved tt,
                   (tr1 ++ [Log Error (js "Error searching Jira issues:")])
                     ++ failureEvents e)) as ->.
  { eapply run_story_rejected; [reflexivity| |reflexivity].
    erewrite bind_resolved by (apply validateInputs_ok; exact Hv).
    erewrite bind_rejected by exact Hs. reflexivity. }
  rewrite <- app_assoc. split; [reflexivity|]. cbn [snd].
  apply sendHttpRequest_trace in Hsend as (evs & -> & F & _). cbn [app].
  rewrite sentRequests_app. cbn [sentRequests app failureEvents].
  rewrite app_nil_r. apply transportEvent_sentRequests in F.
  eapply Forall_impl; [|exact F]. cbn beta. intros r (Hm & Hp & _).
  now apply (search_request_is_search_call w r).
Qed.

Lemma search_failure_is_fatal_witness :
  failed (snd (run Scene.serverError)) = true
  /\ map isSearchCall (sentRequests (snd (run Scene.serverError))) = [true].
Proof.
  edestruct (search_failure_is_fatal Scene.serverError
               (JsError (js "HTTP 500: internal error")))
    as (_ & Hrun & _);
    [ vm_compute; reflexivity | vm_compute; reflexivity | ].
  rewrite Hrun. split; vm_compute; reflexivity.
Defined.

(** X13: when the search is answered with an empty body or with text that is
    not JSON, the transport resolves with a string, the query returns
    [undefined], the sprint is resolved all the same, and then the test
    [existingIssues.length] throws: the run fails with that [TypeError], with
    GET requests only. *)
Theorem unstructured_search_answer_is_fatal w (text : jsstring) tr1 sprintId tr2 :
  validateLoop w requiredInputs = Resolved tt ->
  send w GET (searchPath w (jql w)) None [] = (Resolved (JStr text), tr1) ->
  getSprintId w (sprintName w) tr1 = (Resolved sprintId, tr2) ->
  truthy sprintId = true ->
  searchJiraIssues w (jql w) [] = (Resolved JUndefined, tr1)
  /\ run w
     = (Resolved tt,
        tr2 ++ failureEvents
                 (JsTypeError (js "Cannot read properties of undefined (reading 'length')")))
  /\ Forall (fun r => r.(method) = GET) (sentRequests (snd (run w))).
Proof.
  intros Hv Hsend Hg Ht.
  assert (Hs : searchJiraIssues w (jql w) [] = (Resolved JUndefined, tr1)).
  { unfold searchJiraIssues.
    erewrite tryCatch_resolved; [reflexivity|].
    erewrite bind_resolved by exact Hsend. reflexivity. }
  split; [exact Hs|].
  assert (run w = (Resolved tt,
                   tr2 ++ failureEvents
                            (JsTypeError (js "Cannot read properties of undefined (reading 'length')"))))
    as ->.
  { apply (run_after_sprint w _ tr1 sprintId tr2 (Rejected _) _ Hv Hs Hg Ht).
    reflexivity. }
  split; [reflexivity|]. cbn [snd].
  pose proof (reads_before_branch w _ _ _ _ Hs Hg) as F2.
  destruct (readOnly_then tr2 (failureEvents
             (JsTypeError (js "Cannot read properties of undefined (reading 'length')"))) F2)
    as (_ & _ & H).
  now apply H.
Qed.

Lemma unstructured_search_answer_is_fatal_witness :
  failed (snd (run Scene.emptySearchAnswer)) = true
  /\ map (fun r => r.(method)) (sentRequests (snd (run Scene.emptySearchAnswer)))
     = [GET; GET].
Proof.
  edestruct (unstructured_search_answer_is_fatal Scene.emptySearchAnswer [])
    as (_ & Hrun & _);
    [ vm_compute; reflexivity | vm_compute; reflexivity | vm_compute; reflexivity
    | vm_compute; reflexivity | ].
  rewrite Hrun. split; vm_compute; reflexivity.
Defined.

(* ================================================================== *)
(** ** Sprint resolution: the sprint that is found *)

Lemma strictEqualsString_false (v : jsvalue) (s : jsstring) :
  v <> JStr s -> strictEqualsString v s = false.
Proof.
  intros H. destruct v; try reflexivity. cbn.
  apply jsstring_eqb_neq. congruence.
Qed.

Lemma findSprint_first (name : jsstring) (before : list jsvalue) (s : jsvalue)
      (after : list jsvalue) :
  (forall b, In b before ->
             exists n, getProp b "name" = Resolved n /\ n <> JStr name) ->
  getProp s "name" = Resolved (JStr name) ->
  findSprint name (before ++ s :: after) = Resolved s.
Proof.
  intros Hb Hs. induction before as [|b before IH]; cbn [app findSprint].
  - rewrite Hs. cbn. now rewrite jsstring_eqb_refl.
  - destruct (Hb b (or_introl eq_refl)) as (n & -> & Hn).
    rewrite (strictEqualsString_false n name Hn).
    apply IH. intros b' Hin. apply Hb. now right.
Qed.

Lemma named_value_is_object (s : jsvalue) (name : jsstring) :
  getProp s "name" = Resolved (JStr name) ->
  truthy s = true /\ exists id, getProp s "id" = Resolved id.
Proof.
  destruct s; cbn; try discriminate; intros _; (split; [reflexivity|now eexists]).
Qed.

Lemma getSprintId_found w name tr1 response tr2 before s after :
  send w GET (sprintListPath w) None tr1 = (Resolved response, tr2) ->
  getProp response "values" = Resolved (JArr (before ++ s :: after)) ->
  (forall b, In b before ->
             exists n, getProp b "name" = Resolved n /\ n <> JStr name) ->
  getProp s "name" = Resolved (JStr name) ->
  exists id,
    getProp s "id" = Resolved id
    /\ getSprintId w name tr1 = (Resolved id, tr2).
Proof.
  intros Hsend Hvalues Hb Hs.
  destruct (named_value_is_object s name Hs) as (Htruthy & id & Hid).
  exists id. split; [exact Hid|]. unfold getSprintId.
  erewrite tryCatch_resolved; [reflexivity|].
  erewrite bind_resolved by exact Hsend.
  erewrite bind_resolved by (apply lift_resolved; exact Hvalues).
  erewrite bind_resolved
    by (apply lift_resolved; cbn [find]; now apply findSprint_first).
  rewrite Htruthy. now apply lift_resolved.
Qed.

(** X14: [getSprintId] resolves to the [id] of the first sprint of the list
    whose name is exactly the requested one (the elements before it have
    other names; a name that differs in case is another name), and adds
    nothing to the trace of the request. *)
Theorem sprint_id_of_first_match w name tr1 response tr2 before s after :
  send w GET (sprintListPath w) None tr1 = (Resolved response, tr2) ->
  getProp response "values" = Resolved (JArr (before ++ s :: after)) ->
  (forall b, In b before ->
             exists n, getProp b "name" = Resolved n /\ n <> JStr name) ->
  getProp s "name" = Resolved (JStr name) ->
  exists id,
    getProp s "id" = Resolved id
    /\ getSprintId w name tr1 = (Resolved id, tr2)
    /\ Forall (fun r => isSprintListCall r = true /\ r.(body) = None)
              (skipn (List.length (sentRequests tr1)) (sentRequests tr2)).
Proof.
  intros Hsend Hvalues Hb Hs.
  destruct (getSprintId_found w name tr1 response tr2 before s after
              Hsend Hvalues Hb Hs) as (id & Hid & Hg).
  exists id. split; [exact Hid|]. split; [exact Hg|].
  apply sendHttpRequest_trace in Hsend as (evs & -> & F & _).
  rewrite sentRequests_app, skipn_app, skipn_all, Nat.sub_diag. cbn [app skipn].
  apply transportEvent_sentRequests in F.
  eapply Forall_impl; [|exact F]. cbn beta. intros r (Hm & Hp & Hbody).
  split; [|exact Hbody]. unfold isSprintListCall. now rewrite Hm, Hp.
Qed.

Lemma sprint_id_of_first_match_witness :
  let w := Scene.created in
  let tr1 := snd (searchJiraIssues w (jql w) []) in
  exists tr2, getSprintId w (js "Backlog") tr1 = (Resolved (JNum 42), tr2).
Proof.
  cbv zeta.
  destruct (sprint_id_of_first_match Scene.created (js "Backlog")
              (snd (searchJiraIssues Scene.created (jql Scene.created) []))
              (JObj [(js "values", JArr [Scene.sprintOf 41 "backlog";
                                         Scene.sprintOf 42 "Backlog"])])
              (snd (send Scene.created GET (sprintListPath Scene.created) None
                      (snd (searchJiraIssues Scene.created (jql Scene.created) []))))
              [Scene.sprintOf 41 "backlog"] (Scene.sprintOf 42 "Backlog") [])
    as (id & Hid & Hg & _).
  - vm_compute. reflexivity.
  - vm_compute. reflexivity.
  - intros b [<-|[]]. eexists. split; [vm_compute; reflexivity|discriminate].
  - vm_compute. reflexivity.
  - vm_compute in Hid. injection Hid as <-. eexists. exact Hg.
Defined.

(** X15: a sprint that is listed under the requested name without an [id],
    or with the id 0, counts as not found: the run fails with the message of
    the absent sprint, after GET requests only. *)
Theorem sprint_without_id_is_fatal
        w issues tr1 response tr2 before s after id :
  validateLoop w requiredInputs = Resolved tt ->
  searchJiraIssues w (jql w) [] = (Resolved issues, tr1) ->
  send w GET (sprintListPath w) None tr1 = (Resolved response, tr2) ->
  getProp response "values" = Resolved (JArr (before ++ s :: after)) ->
  (forall b, In b before ->
             exists n, getProp b "name" = Resolved n /\ n <> JStr (sprintName w)) ->
  getProp s "name" = Resolved (JStr (sprintName w)) ->
  getProp s "id" = Resolved id ->
  truthy id = false ->
  run w
  = (Resolved tt,
     tr2 ++ [ SetFailed (js "Failed to create or update Jira issue: "
                         ++ js "Sprint " ++ [QUOTE] ++ sprintName w ++ [QUOTE]
                         ++ js " not found");
              SetFailed (js "Unhandled error: "
                         ++ js "Sprint " ++ [QUOTE] ++ sprintName w ++ [QUOTE]
                         ++ js " not found") ])
  /\ Forall (fun r => r.(method) = GET) (sentRequests (snd (run w))).
Proof.
  intros Hv Hs Hsend Hvalues Hb Hname Hid Hfalsy.
  destruct (getSprintId_found w (sprintName w) tr1 response tr2 before s after
              Hsend Hvalues Hb Hname) as (id' & Hid' & Hg).
  assert (id' = id) as -> by congruence.
  rewrite (run_sprint_falsy w issues tr1 id tr2 Hv Hs Hg Hfalsy).
  split; [reflexivity|]. cbn [snd].
  pose proof (reads_before_branch w _ _ _ _ Hs Hg) as F2.
  destruct (readOnly_then tr2 (failureEvents (sprintNotFound (sprintName w))) F2)
    as (_ & _ & H).
  now apply H.
Qed.

Lemma sprint_without_id_is_fatal_witness :
  failed (snd (run Scene.sprintHasNoId)) = true
  /\ map (fun r => r.(method)) (sentRequests (snd (run Scene.sprintHasNoId)))
     = [GET; GET].
Proof.
  destruct (sprint_without_id_is_fatal Scene.sprintHasNoId
              (JArr [])
              (snd (searchJiraIssues Scene.sprintHasNoId (jql Scene.sprintHasNoId) []))
              (JObj [(js "values",
                      JArr [JObj [(js "name", JStr (js "Backlog"));
                                  (js "state", JStr (js "future"))]])])
              (snd (send Scene.sprintHasNoId GET (sprintListPath Scene.sprintHasNoId)
                      None
                      (snd (searchJiraIssues Scene.sprintHasNoId
                              (jql Scene.sprintHasNoId) []))))
              []
              (JObj [(js "name", JStr (js "Backlog")); (js "state", JStr (js "future"))])
              [] JUndefined)
    as (Hrun & _).
  - vm_compute. reflexivity.
  - vm_compute. reflexivity.
  - vm_compute. reflexivity.
  - vm_compute. reflexivity.
  - intros b [].
  - vm_compute. reflexivity.
  - vm_compute. reflexivity.
  - reflexivity.
  - rewrite Hrun. split; vm_compute; reflexivity.
Defined.

(* ================================================================== *)
(** ** The description normaliser, in full *)

(** X16: [removeTimestamp] cuts at most one tail off, and that tail is a
    whole trailer: the label, then at least one character and no line
    terminator up to the end; no such trailer starts inside what it keeps, so
    the cut is at the first position where one starts. *)
Theorem removeTimestamp_cuts_one_trailer (s : jsstring) :
  exists tail,
    s = removeTimestamp s ++ tail
    /\ (tail = []
        \/ exists t, tail = lastUpdatedLabel ++ t /\ t <> [] /\ noLineTerminator t)
    /\ (forall i, i < List.length (removeTimestamp s) -> trailerAt (skipn i s) = false).
Proof.
  induction s as [|c s (tail & E & Htail & Hleft)].
  - exists []. repeat split; [now left|]. cbn. intros i Hi. lia.
  - rewrite removeTimestamp_unfold. destruct (trailerAt (c :: s)) eqn:T.
    + exists (c :: s). repeat split.
      * right. now apply trailerAt_inv.
      * cbn. intros i Hi. lia.
    + exists tail. repeat split.
      * cbn [app]. now rewrite <- E.
      * exact Htail.
      * intros [|i] Hi; [exact T|]. cbn [skipn]. apply Hleft.
        cbn [List.length] in Hi. lia.
Qed.

(** X17: the trailer the orchestrator itself writes, "Zuletzt aktualisiert: "
    and a time on one line, is not a trailer for [removeTimestamp]: the text
    comes back whole, and so never equals the stripped text it was made of. *)
Theorem written_trailer_is_not_stripped (D t : jsstring) :
  noLineTerminator t ->
  removeTimestamp (D ++ zuletztLabel ++ t) = D ++ zuletztLabel ++ t
  /\ removeTimestamp (D ++ zuletztLabel ++ t) <> removeTimestamp D.
Proof.
  intros Ht. split; [now apply removeTimestamp_zuletzt|].
  now apply rerun_descriptions_differ.
Qed.

Lemma written_trailer_is_not_stripped_witness :
  removeTimestamp (js "Fix login" ++ zuletztLabel ++ js "02.01.2024, 09:30:00")
  = js "Fix login" ++ zuletztLabel ++ js "02.01.2024, 09:30:00".
Proof.
  apply (written_trailer_is_not_stripped (js "Fix login") (js "02.01.2024, 09:30:00")).
  reflexivity.
Defined.

(* ================================================================== *)
(** ** What every run reports *)

Lemma send_silent w m p d : emits silent (send w m p d).
Proof.
  eapply emits_mono; [|apply send_emits]. apply transportEvent_silent.
Qed.

Lemma reports_bind {A} (m : M A) (k : A -> M unit) :
  emits silent m -> (forall a, reports (k a)) -> reports (bind m k).
Proof.
  intros Hm Hk tr res tr' H. unfold bind in H.
  destruct (m tr) as [[a|e] tr1] eqn:E; destruct (Hm _ _ _ E) as (evs1 & -> & F1).
  - destruct (Hk a _ _ _ H) as (evs2 & F2 & R).
    exists (evs1 ++ evs2). split; [now apply Forall_app|].
    destruct res as [u|e].
    + destruct R as [key ->]. exists key. now rewrite !app_assoc.
    + rewrite R. now rewrite app_assoc.
  - injection H as <- <-. now exists evs1.
Qed.

Lemma reports_output (key : jsvalue) : reports (emit (SetOutput (js "issue_key") key)).
Proof.
  intros tr res tr' H. injection H as <- <-. exists []. split; [constructor|].
  now exists key.
Qed.

Ltac silent_tac := repeat emits_step; apply send_silent.

Ltac reports_step :=
  first
    [ apply reports_output
    | apply reports_bind; [try silent_tac|intro]
    | match goal with
      | |- reports (if ?b then _ else _) => destruct b
      end ].

Lemma run_of_story w (story : M unit) handler :
  createOrUpdateJiraStory w = tryCatch story handler ->
  handler = (fun error =>
               emit (SetFailed (js "Failed to create or update Jira issue: "
                                ++ message error)) ;;; throw error) ->
  run w = match story [] with
          | (Resolved a, tr) => (Resolved a, tr)
          | (Rejected e, tr) => (Resolved tt, tr ++ failureEvents e)
          end.
Proof.
  intros Hc ->. destruct (story []) as [[a|e] tr] eqn:E.
  - unfold run, main. rewrite Hc.
    erewrite tryCatch_resolved; [reflexivity|].
    erewrite tryCatch_resolved; [reflexivity|exact E].
  - eapply run_story_rejected; [exact Hc|exact E|reflexivity].
Qed.

(** The events of a run: silent ones, then either one [issue_key] or the
    two failure signals. *)
Lemma run_trace_shape w :
  exists evs,
    Forall silent evs
    /\ ((exists key, snd (run w) = evs ++ [SetOutput (js "issue_key") key])
        \/ (exists e, snd (run w) = evs ++ failureEvents e)).
Proof.
  erewrite run_of_story; [|reflexivity|reflexivity].
  match goal with
  | |- context [match ?s [] with _ => _ end] =>
      assert (R : reports s);
      [|destruct (s []) as [[[]|e] tr] eqn:E; destruct (R _ _ _ E) as (evs & F & H)]
  end.
  - unfold validateInputs. repeat reports_step.
  - destruct H as [key ->]. exists evs. split; [exact F|]. left. now exists key.
  - cbn [app] in H. subst tr. exists evs. split; [exact F|]. right. now exists e.
Qed.

Lemma silent_prefix (a b : trace) : Forall silent (a ++ b) -> Forall silent a.
Proof. intros H. now apply Forall_app in H. Qed.

(** X18: at no moment of a run is there both an [issue_key] and a failure
    signal, and [issue_key] is set at most once, as the last thing a run
    does.  For every prefix [sofar] of the events of a run (what the run has
    done by some moment; a run that is never answered stays at such a
    prefix): no [issue_key] is ever set in a run that has signalled failure,
    and if an [issue_key] has been set, it is the only one, the run has not
    signalled failure before it, and nothing follows it. *)
Theorem run_reports_once w (sofar rest : trace) :
  snd (run w) = sofar ++ rest ->
  (failed sofar = true -> issueKeyOutputs (snd (run w)) = [])
  /\ (issueKeyOutputs sofar <> [] ->
      rest = []
      /\ failed sofar = false
      /\ exists evs key,
           sofar = evs ++ [SetOutput (js "issue_key") key]
           /\ issueKeyOutputs evs = []
           /\ issueKeyOutputs sofar = [key]).
Proof.
  intros Hsplit.
  destruct (run_trace_shape w) as (evs & F & [[key E]|[e E]]).
  - assert (Hf : failed (snd (run w)) = false).
    { rewrite E, failed_app, (silent_failed evs F). reflexivity. }
    split.
    + intros Hs. rewrite Hsplit, failed_app, Hs in Hf. discriminate.
    + intros Hout. rewrite E in Hsplit. symmetry in Hsplit.
      apply app_eq_app in Hsplit as [l [[-> Hl]|[-> Hl]]].
      * destruct l as [|x l].
        -- destruct Hout. rewrite app_nil_r. now apply silent_issueKeyOutputs.
        -- injection Hl as <- Hl. symmetry in Hl. apply app_eq_nil in Hl as [-> ->].
           split; [reflexivity|]. split.
           ++ rewrite failed_app, (silent_failed evs F). reflexivity.
           ++ exists evs, key. split; [reflexivity|].
              split; [now apply silent_issueKeyOutputs|].
              rewrite issueKeyOutputs_app, (silent_issueKeyOutputs evs F). reflexivity.
      * destruct Hout. apply silent_issueKeyOutputs. now apply silent_prefix in F.
  - assert (Ho : issueKeyOutputs (snd (run w)) = []).
    { rewrite E, issueKeyOutputs_app, (silent_issueKeyOutputs evs F). reflexivity. }
    split; [intros _; exact Ho|].
    intros Hout. rewrite Hsplit, issueKeyOutputs_app in Ho.
    apply app_eq_nil in Ho as [Ho _]. contradiction.
Qed.

Lemma run_reports_once_witness :
  (let t := snd (run Scene.created) in
   issueKeyOutputs t = [JStr (js "PROJ-6")] /\ failed t = false)
  /\ (let t := snd (run Scene.createRefused) in
      failed (removelast t) = true /\ issueKeyOutputs t = []).
Proof.
  cbv zeta. split.
  - destruct (run_reports_once Scene.created (snd (run Scene.created)) [])
      as (_ & H); [now rewrite app_nil_r|].
    destruct H as (_ & Hfailed & evs & key & _ & _ & Hkey);
      [vm_compute; discriminate|].
    split; [|exact Hfailed].
    rewrite Hkey. f_equal.
    vm_compute in Hkey. now injection Hkey as <-.
  - destruct (run_reports_once Scene.createRefused
                (removelast (snd (run Scene.createRefused)))
                [last (snd (run Scene.createRefused)) (SetFailed [])])
      as (H & _).
    + apply app_removelast_last. vm_compute. discriminate.
    + split; [vm_compute; reflexivity|]. apply H. vm_compute. reflexivity.
Defined.

(* ================================================================== *)
(** ** Creation and update exclude each other *)

Lemma either_bind {A B} (P Q R : event -> Prop) (m : M A) (k : A -> M B) :
  (forall e, R e -> P e /\ Q e) ->
  emits R m -> (forall a, emitsEither P Q (k a)) -> emitsEither P Q (bind m k).
Proof.
  intros HR Hm Hk tr res tr' H. unfold bind in H.
  destruct (m tr) as [[a|e] tr1] eqn:E; destruct (Hm _ _ _ E) as (evs1 & -> & F1).
  - destruct (Hk a _ _ _ H) as (evs2 & -> & [F2|F2]);
      exists (evs1 ++ evs2); rewrite app_assoc; (split; [reflexivity|]);
      [left|right]; apply Forall_app; (split; [|exact F2]);
      (eapply Forall_impl; [|exact F1]); intros e He; now apply HR.
  - injection H as <- <-. exists evs1. split; [reflexivity|]. left.
    eapply Forall_impl; [|exact F1]. intros e' He. now apply HR.
Qed.

Lemma either_tryCatch {A} (P Q R : event -> Prop) (m : M A) handler :
  (forall e, R e -> P e /\ Q e) ->
  emitsEither P Q m -> (forall e, emits R (handler e)) ->
  emitsEither P Q (tryCatch m handler).
Proof.
  intros HR Hm Hh tr res tr' H. unfold tryCatch in H.
  destruct (m tr) as [[a|e] tr1] eqn:E; destruct (Hm _ _ _ E) as (evs1 & -> & F1).
  - injection H as <- <-. now exists evs1.
  - destruct (Hh e _ _ _ H) as (evs2 & -> & F2).
    exists (evs1 ++ evs2). rewrite app_assoc. split; [reflexivity|].
    destruct F1 as [F1|F1]; [left|right]; apply Forall_app; (split; [exact F1|]);
      (eapply Forall_impl; [|exact F2]); intros e' He; now apply HR.
Qed.

Lemma either_left {A} (P Q : event -> Prop) (m : M A) :
  emits P m -> emitsEither P Q m.
Proof.
  intros Hm tr res tr' H. destruct (Hm _ _ _ H) as (evs & -> & F).
  exists evs. auto.
Qed.

Lemma either_right {A} (P Q : event -> Prop) (m : M A) :
  emits Q m -> emitsEither P Q m.
Proof.
  intros Hm tr res tr' H. destruct (Hm _ _ _ H) as (evs & -> & F).
  exists evs. auto.
Qed.

Lemma readOnly_neither (e : event) : readOnly e -> noCreateEvent e /\ noUpdateEvent e.
Proof.
  destruct e; cbn; auto. intros H. unfold isCreateCall, isUpdateCall.
  now rewrite H.
Qed.

Lemma existingIssueBranch_never_creates w issues sprintId :
  emits noCreateEvent (existingIssueBranch w issues sprintId).
Proof.
  unfold existingIssueBranch. repeat emits_step;
    (apply sendHttpRequest_events; [intros host _; reflexivity|intros; exact I..]).
Qed.

Lemma newIssueBranch_never_updates w sprintId :
  emits noUpdateEvent (newIssueBranch w sprintId).
Proof.
  unfold newIssueBranch. repeat emits_step;
    (apply sendHttpRequest_events; [intros host _; reflexivity|intros; exact I..]).
Qed.

Lemma noCreate_sentRequests (evs : trace) :
  Forall noCreateEvent evs -> Forall (fun r => isCreateCall r = false) (sentRequests evs).
Proof.
  induction 1 as [|e evs He _ IH]; [constructor|]. destruct e; cbn in *; auto.
Qed.

Lemma noUpdate_sentRequests (evs : trace) :
  Forall noUpdateEvent evs -> Forall (fun r => isUpdateCall r = false) (sentRequests evs).
Proof.
  induction 1 as [|e evs He _ IH]; [constructor|]. destruct e; cbn in *; auto.
Qed.

(** X19: no run both creates and updates: either none of its requests is a
    creation (POST /rest/api/2/issue), or none is an update (PUT). *)
Theorem never_creates_and_updates w :
  Forall (fun r => isCreateCall r = false) (sentRequests (snd (run w)))
  \/ Forall (fun r => isUpdateCall r = false) (sentRequests (snd (run w))).
Proof.
  assert (H : emitsEither noCreateEvent noUpdateEvent (main w)).
  { unfold main, createOrUpdateJiraStory.
    apply (either_tryCatch _ _ (fun e => noCreateEvent e /\ noUpdateEvent e)); [auto| |].
    2:{ intro. apply emits_emit. split; exact I. }
    apply (either_tryCatch _ _ (fun e => noCreateEvent e /\ noUpdateEvent e)); [auto| |].
    2:{ intro. repeat emits_step. apply emits_emit. split; exact I. }
    apply (either_bind _ _ readOnly); [apply readOnly_neither| |intro].
    { unfold validateInputs. apply emits_lift. }
    apply (either_bind _ _ readOnly);
      [apply readOnly_neither|apply searchJiraIssues_emits|intro].
    apply (either_bind _ _ readOnly);
      [apply readOnly_neither|apply getSprintId_emits|intro].
    apply (either_bind _ _ readOnly); [apply readOnly_neither| |intro].
    { repeat emits_step. }
    apply (either_bind _ _ readOnly); [apply readOnly_neither|apply emits_lift|intro].
    destruct (greaterThanZero _ _).
    - apply either_left, existingIssueBranch_never_creates.
    - apply either_right, newIssueBranch_never_updates. }
  unfold run. destruct (main w []) as [res tr] eqn:E.
  destruct (H _ _ _ E) as (evs & -> & [F|F]); cbn [snd app].
  - left. now apply noCreate_sentRequests.
  - right. now apply noUpdate_sentRequests.
Qed.

(* ================================================================== *)
(** ** Further failure paths of the orchestrator *)

(** X20: any rejection of [getSprintId], be it the transport's or a
    [TypeError] on a malformed list, fails the run with that error after GET
    requests only, and no issue key is emitted. *)
Theorem sprint_resolution_failure_is_fatal w issues tr1 e tr2 :
  validateLoop w requiredInputs = Resolved tt ->
  searchJiraIssues w (jql w) [] = (Resolved issues, tr1) ->
  getSprintId w (sprintName w) tr1 = (Rejected e, tr2) ->
  run w
  = (Resolved tt,
     tr2 ++ [ SetFailed (js "Failed to create or update Jira issue: " ++ message e);
              SetFailed (js "Unhandled error: " ++ message e) ])
  /\ issueKeyOutputs (snd (run w)) = []
  /\ Forall (fun r => r.(method) = GET) (sentRequests (snd (run w))).
Proof.
  intros Hv Hs Hg.
  rewrite (run_sprint_rejected w issues tr1 e tr2 Hv Hs Hg).
  split; [reflexivity|]. cbn [snd].
  pose proof (reads_before_branch w _ _ _ _ Hs Hg) as F2.
  destruct (readOnly_then tr2 (failureEvents e) F2) as (-> & _ & H).
  split; [reflexivity|]. now apply H.
Qed.

Lemma sprint_resolution_failure_is_fatal_witness :
  failed (snd (run Scene.boardMissing)) = true
  /\ map (fun r => r.(method)) (sentRequests (snd (run Scene.boardMissing)))
     = [GET; GET].
Proof.
  destruct (sprint_resolution_failure_is_fatal Scene.boardMissing (JArr [])
              (snd (searchJiraIssues Scene.boardMissing (jql Scene.boardMissing) []))
              (JsError (js "HTTP 404: board not found"))
              (snd (getSprintId Scene.boardMissing (sprintName Scene.boardMissing)
                      (snd (searchJiraIssues Scene.boardMissing
                              (jql Scene.boardMissing) [])))))
    as (Hrun & _).
  - vm_compute. reflexivity.
  - vm_compute. reflexivity.
  - vm_compute. reflexivity.
  - rewrite Hrun. split; vm_compute; reflexivity.
Defined.

Lemma createNewJiraIssue_emits w description sprintId :
  emits (transportEvent POST createPath (Some (issueData w description sprintId)))
        (createNewJiraIssue w description sprintId).
Proof. unfold createNewJiraIssue. repeat emits_step. apply send_emits. Qed.

(** X21: when the creation is rejected, the run fails with that error: no
    sprint assignment is sent and no issue key is emitted. *)
Theorem refused_creation_is_fatal w tr1 sprintId tr2 e tr3 :
  validateLoop w requiredInputs = Resolved tt ->
  searchJiraIssues w (jql w) [] = (Resolved (JArr []), tr1) ->
  getSprintId w (sprintName w) tr1 = (Resolved sprintId, tr2) ->
  truthy sprintId = true ->
  createNewJiraIssue w (updatedDescription w) sprintId tr2 = (Rejected e, tr3) ->
  run w = (Resolved tt, tr3 ++ failureEvents e)
  /\ issueKeyOutputs (snd (run w)) = []
  /\ Forall (fun r => isAssignCall r = false /\ isUpdateCall r = false)
            (sentRequests (snd (run w))).
Proof.
  intros Hv Hs Hg Ht Hc.
  assert (run w = (Resolved tt, tr3 ++ failureEvents e)) as ->.
  { apply (run_after_sprint w _ tr1 sprintId tr2 (Rejected e) _ Hv Hs Hg Ht).
    rewrite afterSprint_no_issue. unfold newIssueBranch.
    erewrite bind_rejected by exact Hc. reflexivity. }
  split; [reflexivity|]. cbn [snd].
  pose proof (reads_before_branch w _ _ _ _ Hs Hg) as F2.
  destruct (createNewJiraIssue_emits w _ _ _ _ _ Hc) as (evs3 & -> & F3).
  rewrite !issueKeyOutputs_app, !sentRequests_app.
  rewrite (silent_issueKeyOutputs tr2)
    by (eapply Forall_impl; [apply readOnly_silent|assumption]).
  rewrite (silent_issueKeyOutputs evs3)
    by (eapply Forall_impl; [apply transportEvent_silent|eassumption]).
  split; [reflexivity|].
  cbn [sentRequests failureEvents]. rewrite app_nil_r. apply Forall_app. split.
  - eapply Forall_impl; [|apply method_get_is_plain, readOnly_sentRequests; exact F2].
    cbn beta. tauto.
  - apply transportEvent_sentRequests in F3.
    eapply Forall_impl; [|exact F3]. cbn beta. intros r (Hm & Hp & _).
    unfold isAssignCall, isUpdateCall. now rewrite Hm, Hp.
Qed.

Lemma refused_creation_is_fatal_witness :
  failed (snd (run Scene.createRefused)) = true
  /\ map (fun r => r.(method)) (sentRequests (snd (run Scene.createRefused)))
     = [GET; GET; POST]
  /\ map isCreateCall (sentRequests (snd (run Scene.createRefused)))
     = [false; false; true].
Proof.
  edestruct (refused_creation_is_fatal Scene.createRefused) as (Hrun & _);
    [ vm_compute; reflexivity | vm_compute; reflexivity | vm_compute; reflexivity
    | vm_compute; reflexivity | vm_compute; reflexivity | ].
  rewrite Hrun. repeat split; vm_compute; reflexivity.
Defined.

(** X22: update and assignment are two calls: when the update of a changed
    issue is accepted and the sprint assignment is rejected, the run fails
    without an issue key although the description has been written. *)
Theorem updated_issue_without_sprint_fails
        w issue more tr1 stored sprintId tr2 key b tr3 e tr4 :
  validateLoop w requiredInputs = Resolved tt ->
  searchJiraIssues w (jql w) [] = (Resolved (JArr (issue :: more)), tr1) ->
  strippedStoredDescription issue = Resolved stored ->
  stored <> removeTimestamp (issueDescription w) ->
  getProp issue "key" = Resolved key ->
  getSprintId w (sprintName w) tr1 = (Resolved sprintId, tr2) ->
  truthy sprintId = true ->
  updateJiraIssue w key (updatedDescription w) tr2 = (Resolved b, tr3) ->
  addIssueToSprint w key sprintId tr3 = (Rejected e, tr4) ->
  run w = (Resolved tt, tr4 ++ failureEvents e)
  /\ issueKeyOutputs (snd (run w)) = []
  /\ exists reads updates assigns,
      sentRequests (snd (run w)) = reads ++ updates ++ assigns
      /\ Forall (fun r => r.(method) = GET) reads
      /\ updates <> []
      /\ Forall (fun r => isUpdateCall r = true
                          /\ r.(body) = Some (updateData (updatedDescription w)))
                updates
      /\ Forall (fun r => isAssignCall r = true) assigns.
Proof.
  intros Hv Hs Hd Hneq Hk Hg Ht Hu Ha.
  assert (run w = (Resolved tt, tr4 ++ failureEvents e)) as ->.
  { apply (run_after_sprint w _ tr1 sprintId tr2 (Rejected e) _ Hv Hs Hg Ht).
    rewrite afterSprint_some_issue.
    rewrite (existingIssueBranch_compare w issue more sprintId tr2 stored Hd).
    apply jsstring_eqb_neq in Hneq. rewrite Hneq. cbn [negb].
    erewrite bind_rejected; [reflexivity|].
    erewrite bind_resolved by (apply lift_resolved; exact Hk).
    erewrite bind_resolved by exact Hu.
    erewrite bind_resolved by (apply lift_resolved; exact Hk).
    exact Ha. }
  split; [reflexivity|]. cbn [snd].
  pose proof (reads_before_branch w _ _ _ _ Hs Hg) as F2.
  destruct (updateJiraIssue_trace w _ _ _ _ _ Hu) as (evs3 & -> & F3 & Hne3).
  destruct (addIssueToSprint_emits w key sprintId _ _ _ Ha) as (evs4 & -> & F4).
  rewrite !issueKeyOutputs_app, !sentRequests_app.
  rewrite (silent_issueKeyOutputs tr2)
    by (eapply Forall_impl; [apply readOnly_silent|assumption]).
  rewrite (silent_issueKeyOutputs evs3), (silent_issueKeyOutputs evs4)
    by (eapply Forall_impl; [apply transportEvent_silent|eassumption]).
  split; [reflexivity|].
  exists (sentRequests tr2), (sentRequests evs3), (sentRequests evs4).
  cbn [sentRequests failureEvents]. rewrite app_nil_r, <- !app_assoc.
  repeat split; auto.
  - now apply readOnly_sentRequests.
  - eapply Forall_impl; [|apply update_requests; exact F3]. cbn beta. tauto.
  - eapply Forall_impl; [|apply transportEvent_sentRequests; exact F4].
    cbn beta. intros r (Hm & Hp & _).
    now apply (assign_request_is_assign_call r sprintId).
Qed.

Lemma updated_issue_without_sprint_fails_witness :
  failed (snd (run Scene.assignRefused)) = true
  /\ issueKeyOutputs (snd (run Scene.assignRefused)) = []
  /\ map (fun r => r.(method)) (sentRequests (snd (run Scene.assignRefused)))
     = [GET; GET; PUT; POST].
Proof.
  edestruct (updated_issue_without_sprint_fails Scene.assignRefused)
    as (Hrun & Hout & _);
    [ vm_compute; reflexivity | vm_compute; reflexivity | vm_compute; reflexivity
    | vm_compute; discriminate | vm_compute; reflexivity | vm_compute; reflexivity
    | vm_compute; reflexivity | vm_compute; reflexivity | vm_compute; reflexivity | ].
  split; [|split; [exact Hout|]]; rewrite Hrun; vm_compute; reflexivity.
Defined.

(** X23: the transport resolves only on an answer with a status from 200 to
    299 to an attempt of this very call.  The trace of a call that resolved
    is the trace it started from, then at most [retries] attempts that were
    retried, then the attempt that was answered with that status, then log
    lines only; and the value is the empty string for a blank body, what
    [JSON.parse] gives for another body, or the body text where
    [JSON.parse] refuses it. *)
Theorem resolves_only_on_success w m p d retries :
  forall delay tr v tr',
    sendHttpRequest w m p d retries delay tr = (Resolved v, tr') ->
    exists host earlier st rb logs,
      urlHostname w (jiraBaseUrl w) = Some host
      /\ tr' = tr ++ earlier ++ attemptEvents w host m p d st rb ++ logs
      /\ remote w (asked m p (tr ++ earlier)) (requestOf w host m p d) = Response st rb
      /\ (200 <= st <= 299)%Z
      /\ (exists k, k <= retries
                    /\ sentRequests earlier = repeat (requestOf w host m p d) k)
      /\ Forall isLog logs
      /\ ((isBlank rb = true /\ v = JStr [])
          \/ (isBlank rb = false /\ JSON_parse w rb = inl v)
          \/ (isBlank rb = false /\ (exists msg, JSON_parse w rb = inr msg)
              /\ v = JStr rb)).
Proof.
  assert (found : forall host retries delay tr st rb v tr',
             urlHostname w (jiraBaseUrl w) = Some host ->
             remote w (asked m p tr) (requestOf w host m p d) = Response st rb ->
             is2xx st = true ->
             sendHttpRequest w m p d retries delay tr = (Resolved v, tr') ->
             exists logs,
               tr' = tr ++ attemptEvents w host m p d st rb ++ logs
               /\ (200 <= st <= 299)%Z
               /\ Forall isLog logs
               /\ ((isBlank rb = true /\ v = JStr [])
                   \/ (isBlank rb = false /\ JSON_parse w rb = inl v)
                   \/ (isBlank rb = false /\ (exists msg, JSON_parse w rb = inr msg)
                       /\ v = JStr rb))).
  { intros host r delay tr st rb v tr' Hhost Hresp Hst Hrun.
    apply is2xx_iff in Hst.
    destruct (sendHttpRequest_2xx_body w m p d host r delay tr st rb Hhost Hresp Hst)
      as (v0 & logs & E & Hlogs & Hblank & Hparsed & Hraw).
    rewrite E in Hrun. injection Hrun as <- <-.
    exists logs. split; [reflexivity|]. split; [exact Hst|]. split; [exact Hlogs|].
    destruct (isBlank rb) eqn:B.
    - left. split; [reflexivity|]. now apply Hblank.
    - right. destruct (JSON_parse w rb) as [parsed|msg] eqn:P.
      + left. split; [reflexivity|]. f_equal. symmetry. now apply Hparsed.
      + right. split; [reflexivity|]. split; [now exists msg|]. now apply (Hraw msg). }
  assert (here : forall host retries delay tr st rb v tr',
             urlHostname w (jiraBaseUrl w) = Some host ->
             remote w (asked m p tr) (requestOf w host m p d) = Response st rb ->
             is2xx st = true ->
             sendHttpRequest w m p d retries delay tr = (Resolved v, tr') ->
             exists host earlier st rb logs,
               urlHostname w (jiraBaseUrl w) = Some host
               /\ tr' = tr ++ earlier ++ attemptEvents w host m p d st rb ++ logs
               /\ remote w (asked m p (tr ++ earlier)) (requestOf w host m p d)
                  = Response st rb
               /\ (200 <= st <= 299)%Z
               /\ (exists k, k <= retries
                             /\ sentRequests earlier = repeat (requestOf w host m p d) k)
               /\ Forall isLog logs
               /\ ((isBlank rb = true /\ v = JStr [])
                   \/ (isBlank rb = false /\ JSON_parse w rb = inl v)
                   \/ (isBlank rb = false /\ (exists msg, JSON_parse w rb = inr msg)
                       /\ v = JStr rb))).
  { intros host r delay tr st rb v tr' Hhost Hresp Hst Hrun.
    destruct (found host r delay tr st rb v tr' Hhost Hresp Hst Hrun)
      as (logs & E & Hr & Hlogs & Hv).
    exists host, [], st, rb, logs. rewrite app_nil_r. cbn [app].
    repeat (split; [assumption|]). split; [|split; assumption].
    exists 0. split; [lia|reflexivity]. }
  assert (later : forall host retries tr v tr' (again tr2 : trace),
             urlHostname w (jiraBaseUrl w) = Some host ->
             sentRequests again = [requestOf w host m p d] ->
             tr2 = tr ++ again ->
             (exists host earlier st rb logs,
                 urlHostname w (jiraBaseUrl w) = Some host
                 /\ tr' = tr2 ++ earlier ++ attemptEvents w host m p d st rb ++ logs
                 /\ remote w (asked m p (tr2 ++ earlier)) (requestOf w host m p d)
                    = Response st rb
                 /\ (200 <= st <= 299)%Z
                 /\ (exists k, k <= retries
                               /\ sentRequests earlier = repeat (requestOf w host m p d) k)
                 /\ Forall isLog logs
                 /\ ((isBlank rb = true /\ v = JStr [])
                     \/ (isBlank rb = false /\ JSON_parse w rb = inl v)
                     \/ (isBlank rb = false /\ (exists msg, JSON_parse w rb = inr msg)
                         /\ v = JStr rb))) ->
             exists host earlier st rb logs,
               urlHostname w (jiraBaseUrl w) = Some host
               /\ tr' = tr ++ earlier ++ attemptEvents w host m p d st rb ++ logs
               /\ remote w (asked m p (tr ++ earlier)) (requestOf w host m p d)
                  = Response st rb
               /\ (200 <= st <= 299)%Z
               /\ (exists k, k <= S retries
                             /\ sentRequests earlier = repeat (requestOf w host m p d) k)
               /\ Forall isLog logs
               /\ ((isBlank rb = true /\ v = JStr [])
                   \/ (isBlank rb = false /\ JSON_parse w rb = inl v)
                   \/ (isBlank rb = false /\ (exists msg, JSON_parse w rb = inr msg)
                       /\ v = JStr rb))).
  { intros host r tr v tr' again tr2 Hhost Hagain ->
           (host' & earlier & st & rb & logs & Hhost' & E & Hresp & Hst
            & (k & Hk & Hsent) & Hlogs & Hv).
    assert (host' = host) as -> by congruence.
    exists host, (again ++ earlier), st, rb, logs.
    rewrite <- !app_assoc in *.
    repeat (split; [assumption|]). split; [|split; assumption].
    exists (S k). split; [lia|].
    now rewrite sentRequests_app, Hagain, Hsent. }
  induction retries as [|retries IH]; intros delay tr v tr' Hrun0;
    generalize Hrun0; rewrite sendHttpRequest_unfold;
    (destruct (urlHostname w (jiraBaseUrl w)) as [host|] eqn:Hhost; [|discriminate]);
    (destruct (remote w _ _) as [st rb|err|err] eqn:Hresp; cbv zeta;
     [| |discriminate]).
  - destruct (is2xx st) eqn:Hst.
    + intros _. exact (here host 0 delay tr st rb v tr' eq_refl Hresp Hst Hrun0).
    + destruct (Z.eqb st 429); discriminate.
  - discriminate.
  - destruct (is2xx st) eqn:Hst.
    + intros _. exact (here host (S retries) delay tr st rb v tr' eq_refl Hresp Hst Hrun0).
    + destruct (Z.eqb st 429); [|discriminate].
      intros Hrun. apply IH in Hrun.
      eapply (later host retries tr v tr'
                    (attemptEvents w host m p d st rb ++ [Waited delay]));
        [reflexivity|reflexivity| |exact Hrun].
      now rewrite <- app_assoc.
  - intros Hrun. apply IH in Hrun.
    eapply (later host retries tr v tr'
                 ([Log Debug (js "Sending " ++ methodName m ++ js " request to "
                              ++ normalizePath p);
                   Sent (requestOf w host m p d);
                   Log Error (js "Request error: " ++ message err);
                   Waited delay])); [reflexivity|reflexivity| |exact Hrun].
    unfold asked. now rewrite <- !app_assoc.
Qed.

Lemma resolves_only_on_success_witness :
  let w := Demo.rateLimitedOnce in
  let r := requestOf w (js "example.atlassian.net") GET (searchPath w (jql w)) None in
  exists earlier st rb logs,
    snd (send w GET (searchPath w (jql w)) None [])
    = earlier ++ attemptEvents w (js "example.atlassian.net") GET
                               (searchPath w (jql w)) None st rb ++ logs
    /\ remote w (asked GET (searchPath w (jql w)) earlier) r = Response st rb
    /\ (200 <= st <= 299)%Z
    /\ (exists k, k <= 3 /\ sentRequests earlier = repeat r k)
    /\ Forall isLog logs.
Proof.
  cbv zeta.
  destruct (resolves_only_on_success Demo.rateLimitedOnce GET
              (searchPath Demo.rateLimitedOnce (jql Demo.rateLimitedOnce)) None 3 1000 []
              (JObj [(js "issues", JArr [])])
              (snd (send Demo.rateLimitedOnce GET
                      (searchPath Demo.rateLimitedOnce (jql Demo.rateLimitedOnce))
                      None [])))
    as (host & earlier & st & rb & logs & Hhost & E & Hresp & Hst & Hk & Hlogs & _).
  - vm_compute. reflexivity.
  - assert (host = js "example.atlassian.net") as ->
        by (vm_compute in Hhost; injection Hhost as <-; reflexivity).
    exists earlier, st, rb, logs. cbn [app] in E, Hresp.
    repeat split; auto; lia.
Defined.
